(** * UMPD-Patcher: the patch pipeline of [upatcher.py]

    A shallow embedding of the Python script [src/upatcher.py] and the
    properties of its stages.  The script drives external tools (wget,
    apktool, uber-apk-signer) over a directory tree and edits one XML
    file with [xml.etree.ElementTree]; the embedding threads an explicit
    world (file system, console, log of started processes) through a
    state-and-exception monad. *)

From Stdlib Require Import String Ascii List ZArith Lia Bool.
From stdpp Require Import base option list strings pretty gmap fin_maps.

Set Warnings "-register-all".
Local Open Scope string_scope.
Local Open Scope list_scope.

(** ** Strings *)

(** The double quote character, for string constants that contain it. *)
Definition dq : string := String (ascii_of_nat 34) EmptyString.

(** Line feed. *)
Definition nl : string := String (ascii_of_nat 10) EmptyString.

(** ["-" * 30] *)
Definition dashes : string := "------------------------------".

(** [sep.join(words)] *)
Fixpoint str_join (sep : string) (words : list string) : string :=
  match words with
  | [] => EmptyString
  | [w] => w
  | w :: ws => w +:+ sep +:+ str_join sep ws
  end.

(** [s.startswith(p)] *)
Fixpoint startswith (p s : string) : bool :=
  match p, s with
  | EmptyString, _ => true
  | String a p', String b s' => if Ascii.eqb a b then startswith p' s' else false
  | String _ _, EmptyString => false
  end.

(** [s.endswith("/")] *)
Fixpoint ends_with_slash (s : string) : bool :=
  match s with
  | EmptyString => false
  | String c EmptyString => Ascii.eqb c "/"
  | String _ s' => ends_with_slash s'
  end.

(** ** Paths *)

(** [os.path.join(a, b)] of [posixpath], for two components: an absolute
    second component replaces the first; otherwise the components are
    joined by one slash, unless the first is empty or already ends in
    one. *)
Definition path_join (a b : string) : string :=
  if startswith "/" b then b
  else if (String.eqb a EmptyString || ends_with_slash a)%bool then a +:+ b
  else a +:+ "/" +:+ b.

(** The ancestors of a path, outermost first and ending with the path
    itself: the directories [os.makedirs] visits. *)
Fixpoint ancestors_from (acc rest : string) : list string :=
  match rest with
  | EmptyString => if String.eqb acc EmptyString then [] else [acc]
  | String c rest' =>
      if Ascii.eqb c "/"
      then (if String.eqb acc EmptyString then [] else [acc])
             ++ ancestors_from (acc +:+ "/") rest'
      else ancestors_from (acc +:+ String c EmptyString) rest'
  end.

Definition ancestors (p : string) : list string := ancestors_from EmptyString p.

(** ** Exceptions and results *)

(** The Python exception classes the script raises or lets through, each
    with the text [str(e)] gives. *)
Inductive exn : Type :=
  | RuntimeError (msg : string)
  | FileNotFoundError (msg : string)
  | FileExistsError (msg : string)
  | IsADirectoryError (msg : string)
  | NotADirectoryError (msg : string)
  | OSError (msg : string)
  | ShutilError (msg : string)
  | ParseError (msg : string)
  | ValueError (msg : string).

(** [str(e)] *)
Definition exn_str (e : exn) : string :=
  match e with
  | RuntimeError m | FileNotFoundError m | FileExistsError m
  | IsADirectoryError m | NotADirectoryError m | OSError m
  | ShutilError m | ParseError m | ValueError m => m
  end.

Inductive result (A : Type) : Type :=
  | Ok (a : A)
  | Raise (e : exn).
Arguments Ok {A} a.
Arguments Raise {A} e.

(** ** XML elements

    [xml.etree.ElementTree.Element]: a tag, an attribute dictionary in
    insertion order, the text before the first child, the text after the
    end tag, and the children.  An empty string stands for Python's
    [None] in [text] and [tail] (the library tests both for truth only).

    The same type describes a document as it is written in a file; there
    the names are the qualified names of the text ([android:name],
    [xmlns:android]); after parsing they are ElementTree's expanded names
    ([{uri}name]). *)
Inductive Element : Type :=
  Elem { tag : string;
         attrib : list (string * string);
         text : string;
         tail : string;
         children : list Element }.

(** [ET.Element(tag, attrib)] *)
Definition new_element (t : string) (a : list (string * string)) : Element :=
  Elem t a EmptyString EmptyString [].

(** [d.get(k)] on an attribute dictionary. *)
Fixpoint dict_get (k : string) (d : list (string * string)) : option string :=
  match d with
  | [] => None
  | (k', v) :: d' => if String.eqb k' k then Some v else dict_get k d'
  end.

(** [elem.get(key)] *)
Definition get (e : Element) (key : string) : option string :=
  dict_get key (attrib e).

(** [elem.find(t)] for a path that is a plain tag: the first direct child
    with that tag. *)
Definition find (e : Element) (t : string) : option Element :=
  List.find (fun c => String.eqb (tag c) t) (children e).

(** [elem.findall(t)] for a plain tag: the direct children with that tag,
    in document order. *)
Definition findall (e : Element) (t : string) : list Element :=
  List.filter (fun c => String.eqb (tag c) t) (children e).

(** [parent.append(child)] *)
Definition append (parent child : Element) : Element :=
  Elem (tag parent) (attrib parent) (text parent) (tail parent)
       (children parent ++ [child]).

(** [find] returns a reference into the tree, and [append] on it mutates
    the tree in place: the first child with the tag is the one updated. *)
Fixpoint update_first (t : string) (f : Element -> Element)
    (l : list Element) : list Element :=
  match l with
  | [] => []
  | c :: l' => if String.eqb (tag c) t then f c :: l' else c :: update_first t f l'
  end.

Definition update_found (root : Element) (t : string)
    (f : Element -> Element) : Element :=
  Elem (tag root) (attrib root) (text root) (tail root)
       (update_first t f (children root)).

(** ** Namespaces when parsing

    The parser (expat with namespace processing) reads the [xmlns]
    attributes of a start tag as declarations, drops them from the
    attributes, and expands every prefixed name with the declaration in
    scope; an undeclared prefix is a parse error. *)

(** Splits a string at the first occurrence of a character. *)
Fixpoint split_first (c : ascii) (s : string) : option (string * string) :=
  match s with
  | EmptyString => None
  | String a s' =>
      if Ascii.eqb a c then Some (EmptyString, s')
      else match split_first c s' with
           | Some (p, l) => Some (String a p, l)
           | None => None
           end
  end.

(** Splits a string at the last occurrence of a character:
    [s.rsplit(c, 1)] when it gives two parts. *)
Fixpoint split_last (c : ascii) (s : string) : option (string * string) :=
  match s with
  | EmptyString => None
  | String a s' =>
      match split_last c s' with
      | Some (u, l) => Some (String a u, l)
      | None => if Ascii.eqb a c then Some (EmptyString, s') else None
      end
  end.

Definition xml_uri : string := "http://www.w3.org/XML/1998/namespace".

(** The declaration an attribute makes, if it is one: the prefix (empty
    for the default namespace) and the URI. *)
Definition ns_declaration (kv : string * string) : option (string * string) :=
  let (k, v) := kv in
  if String.eqb k "xmlns" then Some (EmptyString, v)
  else if startswith "xmlns:" k then Some (String.substring 6 (String.length k - 6) k, v)
  else None.

Definition is_declaration (kv : string * string) : bool :=
  match ns_declaration kv with Some _ => true | None => false end.

(** A prefix cannot be undeclared: [xmlns:p] with an empty value is not
    well-formed. *)
Definition bad_declaration (d : string * string) : bool :=
  let (p, u) := d in
  (negb (String.eqb p EmptyString) && String.eqb u EmptyString)%bool.

Definition expanded (uri local : string) : string :=
  "{" +:+ uri +:+ "}" +:+ local.

(** The expanded name of the qualified name [name] under the
    declarations [scope] (innermost first).  Attributes without a prefix
    are in no namespace; elements without one are in the default
    namespace, if one is declared. *)
Definition resolve_name (scope : list (string * string)) (is_attr : bool)
    (name : string) : result string :=
  match split_first ":" name with
  | Some (p, l) =>
      match dict_get p scope with
      | Some uri => Ok (expanded uri l)
      | None => Raise (ParseError "unbound prefix")
      end
  | None =>
      if is_attr then Ok name
      else match dict_get EmptyString scope with
           | Some uri => if String.eqb uri EmptyString then Ok name
                         else Ok (expanded uri name)
           | None => Ok name
           end
  end.

Fixpoint resolve_attrs (scope : list (string * string))
    (a : list (string * string)) : result (list (string * string)) :=
  match a with
  | [] => Ok []
  | (k, v) :: a' =>
      match resolve_name scope true k with
      | Raise e => Raise e
      | Ok k' =>
          match resolve_attrs scope a' with
          | Raise e => Raise e
          | Ok r => Ok ((k', v) :: r)
          end
      end
  end.

(** Whether a list of names has a repetition. *)
Fixpoint has_dup (l : list string) : bool :=
  match l with
  | [] => false
  | k :: l' => (existsb (String.eqb k) l' || has_dup l')%bool
  end.

(** One element and its subtree, under the declarations of its
    ancestors. *)
Fixpoint resolve (scope : list (string * string)) (e : Element)
    : result Element :=
  let decls := omap ns_declaration (attrib e) in
  let scope' := decls ++ scope in
  if existsb bad_declaration decls then Raise (ParseError "unbound prefix")
  else
  match resolve_name scope' false (tag e) with
  | Raise x => Raise x
  | Ok t =>
      match resolve_attrs scope'
              (List.filter (fun kv => negb (is_declaration kv)) (attrib e)) with
      | Raise x => Raise x
      | Ok a =>
          if has_dup (map fst a) then Raise (ParseError "duplicate attribute")
          else
            match
              (fix walk (l : list Element) : result (list Element) :=
                 match l with
                 | [] => Ok []
                 | c :: l' =>
                     match resolve scope' c with
                     | Raise x => Raise x
                     | Ok c' =>
                         match walk l' with
                         | Raise x => Raise x
                         | Ok r => Ok (c' :: r)
                         end
                     end
                 end) (children e)
            with
            | Raise x => Raise x
            | Ok kids => Ok (Elem t a (text e) (tail e) kids)
            end
      end
  end.

(** The document element: only the [xml] prefix is bound from the start. *)
Definition resolve_document (root : Element) : result Element :=
  resolve [("xml", xml_uri)] root.

(** ** Namespaces when writing

    [ElementTree._namespaces]: every tag and attribute name of the tree,
    in document order, gets the qualified name it is written with.  An
    expanded name [{uri}local] takes the prefix already chosen for the
    URI in this document, else the prefix registered for it, else a fresh
    [ns<k>]; any other name is written as it is. *)

(** The module's registry [_namespace_map] (URI to prefix) as the
    library ships it. *)
Definition default_namespace_map : list (string * string) :=
  [ (xml_uri, "xml");
    ("http://www.w3.org/1999/xhtml", "html");
    ("http://www.w3.org/1999/02/22-rdf-syntax-ns#", "rdf");
    ("http://schemas.xmlsoap.org/wsdl/", "wsdl");
    ("http://www.w3.org/2001/XMLSchema", "xs");
    ("http://www.w3.org/2001/XMLSchema-instance", "xsi");
    ("http://purl.org/dc/elements/1.1/", "dc") ].

(** [re.match(r"ns\d+$", prefix)]: the letters [ns] and then digits only
    (a final line feed is allowed by [$]). *)
Definition is_digit (c : ascii) : bool :=
  let n := nat_of_ascii c in (Nat.leb 48 n && Nat.leb n 57)%bool.

Fixpoint digits_then_end (seen : bool) (s : string) : bool :=
  match s with
  | EmptyString => seen
  | String c s' =>
      if is_digit c then digits_then_end true s'
      else (seen && Ascii.eqb c (ascii_of_nat 10) && String.eqb s' EmptyString)%bool
  end.

Definition reserved_prefix (prefix : string) : bool :=
  match prefix with
  | String a (String b rest) =>
      (Ascii.eqb a "n" && Ascii.eqb b "s" && digits_then_end false rest)%bool
  | _ => false
  end.

(** [ET.register_namespace(prefix, uri)] on the registry: entries with
    the same URI or the same prefix are removed and the new one is
    added. *)
Definition register_namespace_in (prefix uri : string)
    (m : list (string * string)) : result (list (string * string)) :=
  if reserved_prefix prefix
  then Raise (ValueError "Prefix format reserved for internal use")
  else Ok (List.filter
             (fun kv => negb (String.eqb (fst kv) uri || String.eqb (snd kv) prefix))
             m ++ [(uri, prefix)]).

(** The two tables [_namespaces] builds: [qnames] (name to written name)
    and [namespaces] (URI to prefix), both in insertion order. *)
Record tables : Type :=
  Tables { qnames : list (string * string);
           namespaces : list (string * string) }.

(** [qname[1:]] *)
Definition drop_first (s : string) : string :=
  match s with
  | EmptyString => EmptyString
  | String _ s' => s'
  end.

(** The prefix [add_qname] takes for a URI, and [namespaces] after the
    choice: the prefix already chosen in this document, else the
    registered one, else [ns<k>]; a new choice is recorded unless it is
    [xml]. *)
Definition choose_prefix (registry ns : list (string * string)) (uri : string)
    : string * list (string * string) :=
  match dict_get uri ns with
  | Some p => (p, ns)
  | None =>
      let p := match dict_get uri registry with
               | Some p => p
               | None => "ns" +:+ pretty (length ns)
               end in
      (p, if String.eqb p "xml" then ns else ns ++ [(uri, p)])
  end.

(** The inner function [add_qname]. *)
Definition add_qname (registry : list (string * string)) (t : tables)
    (qname : string) : result tables :=
  if startswith "{" qname then
    match split_last "}" (drop_first qname) with
    | None => Raise (ValueError "not enough values to unpack (expected 2, got 1)")
    | Some (uri, local) =>
        let (prefix, ns') := choose_prefix registry (namespaces t) uri in
        if String.eqb prefix EmptyString
        then Ok (Tables (qnames t ++ [(qname, local)]) ns')
        else Ok (Tables (qnames t ++ [(qname, prefix +:+ ":" +:+ local)]) ns')
    end
  else Ok (Tables (qnames t ++ [(qname, qname)]) (namespaces t)).

(** [if name not in qnames: add_qname(name)] *)
Definition note_name (registry : list (string * string)) (t : tables)
    (name : string) : result tables :=
  match dict_get name (qnames t) with
  | Some _ => Ok t
  | None => add_qname registry t name
  end.

Fixpoint note_names (registry : list (string * string)) (t : tables)
    (names : list string) : result tables :=
  match names with
  | [] => Ok t
  | n :: names' =>
      match note_name registry t n with
      | Raise x => Raise x
      | Ok t' => note_names registry t' names'
      end
  end.

(** [elem.iter()] with, for each element, its tag and then its attribute
    names: the order in which [_namespaces] meets the names. *)
Fixpoint names_in_order (e : Element) : list string :=
  tag e :: map fst (attrib e)
    ++ (fix walk (l : list Element) : list string :=
          match l with
          | [] => []
          | c :: l' => names_in_order c ++ walk l'
          end) (children e).

(** [_namespaces(root)] *)
Definition collect_namespaces (registry : list (string * string))
    (root : Element) : result tables :=
  note_names registry (Tables [] []) (names_in_order root).

(** [qnames[name]] *)
Definition written_name (t : tables) (name : string) : string :=
  match dict_get name (qnames t) with
  | Some q => q
  | None => name
  end.

(** [_serialize_xml] below the document element: names are replaced by
    their written names; no declarations are added. *)
Fixpoint serialize_xml (t : tables) (e : Element) : Element :=
  Elem (written_name t (tag e))
       (map (fun kv => (written_name t (fst kv), snd kv)) (attrib e))
       (text e) (tail e)
       (map (serialize_xml t) (children e)).

(** Insertion into a list of (URI, prefix) pairs sorted by prefix;
    [sorted] is stable, so an equal prefix goes after. *)
Fixpoint insert_by_prefix (d : string * string) (l : list (string * string))
    : list (string * string) :=
  match l with
  | [] => [d]
  | d' :: l' =>
      if String.ltb (snd d) (snd d') then d :: l
      else d' :: insert_by_prefix d l'
  end.

(** [sorted(namespaces.items(), key=lambda x: x[1])] *)
Definition sorted_by_prefix (l : list (string * string)) : list (string * string) :=
  fold_left (fun acc d => insert_by_prefix d acc) l [].

(** The [xmlns] attribute written for one entry of [namespaces]. *)
Definition xmlns_attribute (d : string * string) : string * string :=
  let (uri, prefix) := d in
  (if String.eqb prefix EmptyString then "xmlns" else "xmlns:" +:+ prefix, uri).

(** [_serialize_xml] on the document element: the declarations come
    first among its attributes, sorted by prefix. *)
Definition serialize_document (t : tables) (root : Element) : Element :=
  let r := serialize_xml t root in
  Elem (tag r)
       (map xmlns_attribute (sorted_by_prefix (namespaces t)) ++ attrib r)
       (text r) (tail r) (children r).

(** ** The world

    A file holds either an XML document, given by the prolog before the
    document element and the element itself, or any other bytes.  The
    file system maps a path, spelled as the script spells it, to a file
    or a directory.  There are no permissions, devices or symbolic
    links, and creating an entry does not check that its parent
    directory exists: at every call of the script the parent is that of
    an entry known to exist or a directory [os.makedirs] has just made. *)
Inductive content : Type :=
  | Blob (bytes : string)
  | XmlDoc (prolog : string) (root : Element).

Inductive node : Type :=
  | File (c : content)
  | Dir.

(** The world the script runs in: the file system, the lines printed so
    far, the argument vectors handed to [subprocess.run] so far, and
    ElementTree's process-wide prefix registry. *)
Record World : Type :=
  mkWorld { fs : gmap string node;
            console : list string;
            procs : list (list string);
            namespace_map : list (string * string) }.

(** ** The monad of the script: state and exceptions.  A raised
    exception keeps the state reached so far. *)
Definition M (A : Type) : Type := World -> World * result A.

Definition ret {A : Type} (a : A) : M A := fun w => (w, Ok a).

Definition raise {A : Type} (e : exn) : M A := fun w => (w, Raise e).

Definition bind {A B : Type} (m : M A) (k : A -> M B) : M B :=
  fun w =>
    match m w with
    | (w', Ok a) => k a w'
    | (w', Raise e) => (w', Raise e)
    end.

Declare Scope py_scope.
Delimit Scope py_scope with py.
Notation "x <- c1 ;; c2" := (bind c1 (fun x => c2))
  (at level 100, c1 at next level, right associativity) : py_scope.
Notation "c1 ;; c2" := (bind c1 (fun _ => c2))
  (at level 100, right associativity) : py_scope.
Local Open Scope py_scope.

Definition get_fs : M (gmap string node) := fun w => (w, Ok (fs w)).

Definition put_fs (f : gmap string node) : M unit :=
  fun w => (mkWorld f (console w) (procs w) (namespace_map w), Ok tt).

(** [print(line)] *)
Definition print (line : string) : M unit :=
  fun w => (mkWorld (fs w) (console w ++ [line]) (procs w) (namespace_map w), Ok tt).

(** [repr] of a path inside an operating-system error message. *)
Definition quoted (p : string) : string := "'" +:+ p +:+ "'".

(** ** File-system calls *)

(** [os.path.exists(p)] *)
Definition os_path_exists (p : string) : M bool :=
  f <- get_fs ;;
  ret (match f !! p with Some _ => true | None => false end).

(** Whether [p] lies strictly inside the directory [d]. *)
Definition inside (d p : string) : bool :=
  (startswith (d +:+ "/") p && negb (String.eqb p (d +:+ "/")))%bool.

(** [p] with its leading [src] replaced by [dst]. *)
Definition rebase (src dst p : string) : string :=
  dst +:+ String.substring (String.length src) (String.length p - String.length src) p.

(** The entries of a directory tree moved from [src] to [dst]. *)
Definition move_tree (src dst : string) (f : gmap string node) : gmap string node :=
  let moved := filter (fun kv => Is_true (String.eqb kv.1 src || inside src kv.1)) f in
  let kept := filter (fun kv => ¬ Is_true (String.eqb kv.1 src || inside src kv.1)) f in
  list_to_map (map (fun kv => (rebase src dst kv.1, kv.2)) (map_to_list moved))
    ∪ delete dst kept.

(** Whether a directory has an entry. *)
Definition has_entries (d : string) (f : gmap string node) : bool :=
  existsb (fun kv => inside d kv.1) (map_to_list f).

(** [os.rename(src, dst)] on POSIX: an existing destination file is
    replaced silently; a file cannot replace a directory nor a directory
    a file; a directory replaces an empty directory only. *)
Definition os_rename (src dst : string) : M unit :=
  f <- get_fs ;;
  match f !! src with
  | None =>
      raise (FileNotFoundError ("[Errno 2] No such file or directory: "
                                  +:+ quoted src +:+ " -> " +:+ quoted dst))
  | Some (File c) =>
      match f !! dst with
      | Some Dir =>
          raise (IsADirectoryError ("[Errno 21] Is a directory: "
                                      +:+ quoted src +:+ " -> " +:+ quoted dst))
      | _ => put_fs (<[dst := File c]> (delete src f))
      end
  | Some Dir =>
      match f !! dst with
      | Some (File _) =>
          raise (NotADirectoryError ("[Errno 20] Not a directory: "
                                       +:+ quoted src +:+ " -> " +:+ quoted dst))
      | _ =>
          if String.eqb src dst then ret tt
          else if inside src dst then
            raise (OSError ("[Errno 22] Invalid argument: "
                              +:+ quoted src +:+ " -> " +:+ quoted dst))
          else if has_entries dst f then
            raise (OSError ("[Errno 39] Directory not empty: "
                              +:+ quoted src +:+ " -> " +:+ quoted dst))
          else put_fs (move_tree src dst f)
      end
  end.

(** [os.makedirs] along the ancestors of the path, outermost first.  An
    ancestor that exists is passed over; a missing one is made unless
    its parent is a file; the path itself may exist as a directory only.
    Directories made before a failure stay. *)
Fixpoint makedirs_along (parent : option node) (ps : list string)
    (f : gmap string node) : gmap string node * result unit :=
  match ps with
  | [] => (f, Ok tt)
  | p :: ps' =>
      match f !! p with
      | None =>
          match parent with
          | Some (File _) =>
              (f, Raise (NotADirectoryError ("[Errno 20] Not a directory: " +:+ quoted p)))
          | _ => makedirs_along (Some Dir) ps' (<[p := Dir]> f)
          end
      | Some n =>
          match ps', n with
          | [], File _ =>
              (f, Raise (FileExistsError ("[Errno 17] File exists: " +:+ quoted p)))
          | _, _ => makedirs_along (Some n) ps' f
          end
      end
  end.

(** [os.makedirs(path, exist_ok=True)] *)
Definition os_makedirs (path : string) : M unit :=
  fun w =>
    let (f, r) := makedirs_along None (ancestors path) (fs w) in
    (mkWorld f (console w) (procs w) (namespace_map w), r).

(** [with open(path, "w") as f: f.write(c)], and any other whole-file
    write: the file is created or replaced. *)
Definition write_file (path : string) (c : content) : M unit :=
  f <- get_fs ;;
  match f !! path with
  | Some Dir => raise (IsADirectoryError ("[Errno 21] Is a directory: " +:+ quoted path))
  | _ => put_fs (<[path := File c]> f)
  end.

(** The path of [p], an entry inside [src], relative to [src]. *)
Definition relative (src p : string) : string :=
  String.substring (S (String.length src)) (String.length p - S (String.length src)) p.

(** Whether a directory on the way to [rel] below [dst] is taken by a
    file, so that nothing can be copied under it. *)
Definition blocked (f : gmap string node) (dst rel : string) : bool :=
  existsb (fun a => match f !! (dst +:+ "/" +:+ a) with
                    | Some (File _) => true
                    | _ => false
                    end)
          (removelast (ancestors rel)).

(** One entry of the source tree copied to its place below [dst]; the
    second component counts the failures.  A directory cannot be made
    where a file is, nor a file written where a directory is; what lies
    below a directory that could not be made is not attempted. *)
Definition copy_entry (f0 : gmap string node) (src dst : string)
    (kv : string * node) (acc : gmap string node * nat) : gmap string node * nat :=
  let rel := relative src kv.1 in
  let target := dst +:+ "/" +:+ rel in
  if blocked f0 dst rel then acc
  else match kv.2, f0 !! target with
       | Dir, Some (File _) => (acc.1, S acc.2)
       | Dir, _ => (<[target := Dir]> acc.1, acc.2)
       | File c, Some Dir => (acc.1, S acc.2)
       | File c, _ => (<[target := File c]> acc.1, acc.2)
       end.

(** [shutil.copytree(src, dst, dirs_exist_ok=True)]: the source must be
    a directory; the destination is made if missing; every entry below
    the source is copied to the same relative path below the
    destination, a file replacing a file already there.  Failures do
    not stop the copy; they are reported together at the end (the
    message is shortened to their number).  Paths are taken without a
    trailing slash, as the script builds them. *)
Definition shutil_copytree (src dst : string) : M unit :=
  f <- get_fs ;;
  match f !! src with
  | None =>
      raise (FileNotFoundError ("[Errno 2] No such file or directory: " +:+ quoted src))
  | Some (File _) =>
      raise (NotADirectoryError ("[Errno 20] Not a directory: " +:+ quoted src))
  | Some Dir =>
      os_makedirs dst ;;
      f0 <- get_fs ;;
      let entries := map_to_list (filter (fun kv => Is_true (inside src kv.1)) f0) in
      let out := foldr (copy_entry f0 src dst) (f0, 0) entries in
      put_fs out.1 ;;
      match out.2 with
      | O => ret tt
      | S _ => raise (ShutilError (pretty out.2 +:+ " entries could not be copied"))
      end
  end.

(** ** ElementTree on files *)

(** The line [tree.write(..., encoding='utf-8', xml_declaration=True)]
    puts first. *)
Definition xml_declaration : string :=
  "<?xml version='1.0' encoding='utf-8'?>" +:+ nl.

(** [ET.parse(path).getroot()]: the file must exist and hold an XML
    document whose names resolve.  (Positions are left out of the parse
    error messages.) *)
Definition ET_parse (path : string) : M Element :=
  f <- get_fs ;;
  match f !! path with
  | None =>
      raise (FileNotFoundError ("[Errno 2] No such file or directory: " +:+ quoted path))
  | Some Dir =>
      raise (IsADirectoryError ("[Errno 21] Is a directory: " +:+ quoted path))
  | Some (File (Blob _)) => raise (ParseError "syntax error")
  | Some (File (XmlDoc _ root)) =>
      match resolve_document root with
      | Ok r => ret r
      | Raise e => raise e
      end
  end.

(** [tree.write(path, encoding='utf-8', xml_declaration=True)]: the file
    is opened for writing, the declaration is written, and then the
    names are collected and the tree is written; a failure while
    collecting the names leaves the declaration alone in the file. *)
Definition ET_write (root : Element) (path : string) : M unit :=
  f <- get_fs ;;
  match f !! path with
  | Some Dir => raise (IsADirectoryError ("[Errno 21] Is a directory: " +:+ quoted path))
  | _ =>
      fun w =>
        match collect_namespaces (namespace_map w) root with
        | Raise e => (put_fs (<[path := File (Blob xml_declaration)]> f) ;; raise e) w
        | Ok t => put_fs (<[path := File (XmlDoc xml_declaration (serialize_document t root))]> f) w
        end
  end.

(** [ET.register_namespace(prefix, uri)] *)
Definition ET_register_namespace (prefix uri : string) : M unit :=
  fun w =>
    match register_namespace_in prefix uri (namespace_map w) with
    | Raise e => (w, Raise e)
    | Ok m => (mkWorld (fs w) (console w) (procs w) m, Ok tt)
    end.

(** ** External processes *)

(** [subprocess.CompletedProcess] with captured output. *)
Record CompletedProcess : Type :=
  mkCompleted { returncode : Z; stdout : string; stderr : string }.

(** What running an argument vector does: the tools are outside the
    script, which sees only their effect on the file system and the
    completed process, or the exception [subprocess.run] raises when the
    program cannot be started. *)
Definition Subprocess : Type :=
  list string -> gmap string node -> gmap string node * result CompletedProcess.

(** The four command-line arguments of the script. *)
Record Args : Type :=
  mkArgs { baseapk_dlink : string;
           splitapk_dlink : string;
           libmain_url : string;
           keystore_url : string }.

Definition android_uri : string := "http://schemas.android.com/apk/res/android".

Definition provider_name : string := "androidx.core.content.FileProvider".

(** The content [create_provider_paths] writes:
<<
<?xml version="1.0" encoding="utf-8"?>
<paths>
    <cache-path name="cache" path="." />
</paths>
>> *)
Definition provider_paths_content : content :=
  XmlDoc ("<?xml version=" +:+ dq +:+ "1.0" +:+ dq +:+ " encoding="
            +:+ dq +:+ "utf-8" +:+ dq +:+ "?>" +:+ nl)
         (Elem "paths" [] (nl +:+ "    ") nl
               [Elem "cache-path" [("name", "cache"); ("path", ".")]
                     EmptyString nl []]).

Section Script.

Variable subprocess_run_on : Subprocess.

(** [subprocess.run(command, capture_output=True, text=True)] *)
Definition subprocess_run (command : list string) : M CompletedProcess :=
  fun w =>
    let (f, r) := subprocess_run_on command (fs w) in
    (mkWorld f (console w) (procs w ++ [command]) (namespace_map w), r).

Definition run_command (command : list string) (error_message : string) : M unit :=
  print ("Executing: " +:+ str_join " " command) ;;
  result <- subprocess_run command ;;
  if negb (Z.eqb (returncode result) 0) then
    print ("Command failed! Stderr: " +:+ stderr result) ;;
    raise (RuntimeError (error_message +:+ ": " +:+ stderr result))
  else
    print (stdout result) ;;
    print "Command successful.".

Definition setup_environment (keystore_url : string) : M string :=
  print "Setting up the environment..." ;;
  run_command ["sudo"; "apt-get"; "update"] "Failed to update apt" ;;
  run_command ["sudo"; "apt-get"; "install"; "openjdk-8-jre-headless"; "-y"]
              "Failed to install OpenJDK 8" ;;
  let apktool_url :=
    "https://raw.githubusercontent.com/iBotPeaches/Apktool/master/scripts/linux/apktool" in
  let apktool_jar_url :=
    "https://bitbucket.org/iBotPeaches/apktool/downloads/apktool_2.9.3.jar" in
  run_command ["wget"; "-q"; apktool_url; "-O"; "apktool"]
              "Failed to download apktool script" ;;
  run_command ["wget"; "-q"; apktool_jar_url; "-O"; "apktool.jar"]
              "Failed to download apktool JAR" ;;
  os_makedirs "/usr/local/bin" ;;
  os_rename "apktool" "/usr/local/bin/apktool" ;;
  os_rename "apktool.jar" "/usr/local/bin/apktool.jar" ;;
  run_command ["sudo"; "chmod"; "+x"; "/usr/local/bin/apktool"]
              "Failed to set execute permissions on apktool script" ;;
  let uber_signer_url :=
    "https://github.com/patrickfav/uber-apk-signer/releases/download/v1.3.0/uber-apk-signer-1.3.0.jar" in
  run_command ["wget"; "-q"; uber_signer_url; "-O"; "uber-apk-signer.jar"]
              "Failed to download uber-apk-signer" ;;
  let keystore_filename := "debug.keystore" in
  run_command ["wget"; "-q"; keystore_url; "-O"; keystore_filename]
              "Failed to download debug.keystore" ;;
  print "Environment setup complete!" ;;
  print dashes ;;
  ret keystore_filename.

Definition download_and_decompile (base_apk_dlink split_apk_dlink : string)
    : M (string * string) :=
  print "Downloading and decompiling APKs..." ;;
  run_command ["wget"; "-q"; base_apk_dlink; "-O"; "base.apk"]
              "Failed to download base APK" ;;
  run_command ["wget"; "-q"; split_apk_dlink; "-O"; "split.apk"]
              "Failed to download split APK" ;;
  run_command ["apktool"; "d"; "base.apk"] "Failed to decompile base APK" ;;
  run_command ["apktool"; "d"; "split.apk"] "Failed to decompile split APK" ;;
  let base_decompile_folder := "base" in
  let split_decompile_folder := "split" in
  print ("Decompiled base to: " +:+ base_decompile_folder) ;;
  print ("Decompiled split to: " +:+ split_decompile_folder) ;;
  print "Decompilation complete!" ;;
  print dashes ;;
  ret (base_decompile_folder, split_decompile_folder).

Definition merge_apks (base_folder split_folder : string) : M unit :=
  print ("Merging " +:+ split_folder +:+ "/lib into " +:+ base_folder +:+ "/lib...") ;;
  let split_lib_dir := path_join split_folder "lib" in
  let base_lib_dir := path_join base_folder "lib" in
  found <- os_path_exists split_lib_dir ;;
  (if found : bool then
     shutil_copytree split_lib_dir base_lib_dir ;;
     print "Merge complete!"
   else
     print ("Warning: " +:+ split_lib_dir +:+ " does not exist. Nothing to merge.")) ;;
  print dashes.

Definition modify_files (libmain_url base_decompile_folder : string) : M unit :=
  print "🛠️ Modifying files..." ;;
  let mod_dir := path_join base_decompile_folder "lib/arm64-v8a" in
  let orig_file := path_join mod_dir "libmain.so" in
  let new_orig_file := path_join mod_dir "libmain_orig.so" in
  let mod_file_path := path_join mod_dir "libmain.so" in
  found <- os_path_exists orig_file ;;
  (if found : bool then
     os_rename orig_file new_orig_file ;;
     print ("Renamed " +:+ orig_file +:+ " to " +:+ new_orig_file)
   else ret tt) ;;
  run_command ["wget"; "-q"; libmain_url; "-O"; mod_file_path]
              "Failed to download modded libmain.so" ;;
  print "File modification complete!" ;;
  print dashes.

Definition recompile_and_sign (base_folder output_dir keystore_path : string)
    : M unit :=
  print "Recompiling and signing APK..." ;;
  let base_out_path := path_join output_dir "umamusume_patched.apk" in
  run_command ["apktool"; "b"; base_folder; "-o"; base_out_path]
              "Failed to recompile base APK" ;;
  found <- os_path_exists keystore_path ;;
  (if negb found then
     raise (FileNotFoundError ("Keystore not found: " +:+ keystore_path))
   else ret tt) ;;
  let keystore_alias := "androiddebugkey" in
  let keystore_pass := "android" in
  let key_pass := "android" in
  run_command ["java"; "-jar"; "uber-apk-signer.jar";
               "--apks"; base_out_path;
               "--ks"; keystore_path;
               "--ksAlias"; keystore_alias;
               "--ksPass"; keystore_pass;
               "--ksKeyPass"; key_pass]
              "Failed to sign base APK with custom debug.keystore" ;;
  print "Recompilation and signing complete!" ;;
  print dashes.

Definition finalize_apk (directory final_apk_name : string) : M unit :=
  print "Finalizing APK..." ;;
  let signed_apk := path_join directory "umamusume_patched-aligned-signed.apk" in
  found <- os_path_exists signed_apk ;;
  (if negb found then
     raise (FileNotFoundError ("Missing signed base APK: " +:+ signed_apk
                                 +:+ ". " +:+ "Check uber-apk-signer output name."))
   else ret tt) ;;
  let final_path := path_join directory final_apk_name in
  os_rename signed_apk final_path ;;
  print ("Final APK created: " +:+ final_path) ;;
  print dashes.

Definition create_provider_paths (base_folder : string) : M unit :=
  print "Creating FileProvider paths XML..." ;;
  let xml_dir := path_join (path_join base_folder "res") "xml" in
  os_makedirs xml_dir ;;
  let xml_path := path_join xml_dir "provider_paths.xml" in
  write_file xml_path provider_paths_content ;;
  print ("Created " +:+ xml_path) ;;
  print dashes.

(** The attributes of the new provider element, in the order of the
    dictionary literal. *)
Definition provider_attribs : list (string * string) :=
  [ ("android:name", provider_name);
    ("android:authorities", "${applicationId}.provider");
    ("android:exported", "false");
    ("android:grantUriPermissions", "true") ].

Definition meta_data_attribs : list (string * string) :=
  [ ("android:name", "android.support.FILE_PROVIDER_PATHS");
    ("android:resource", "@xml/provider_paths") ].

(** The loop over [application_tag.findall('provider')]: whether some
    provider has the name under the platform namespace. *)
Definition provider_declared (application_tag : Element) : bool :=
  existsb (fun provider =>
             match get provider (expanded android_uri "name") with
             | Some v => String.eqb v provider_name
             | None => false
             end)
          (findall application_tag "provider").

Definition add_provider_to_manifest (base_folder : string) : M unit :=
  print "Modifying AndroidManifest.xml..." ;;
  let manifest_path := path_join base_folder "AndroidManifest.xml" in
  ET_register_namespace "android" android_uri ;;
  root <- ET_parse manifest_path ;;
  match find root "application" with
  | None => raise (RuntimeError "<application> tag not found in AndroidManifest.xml")
  | Some application_tag =>
      if provider_declared application_tag then
        print "FileProvider already exists in manifest. Skipping." ;;
        print dashes
      else
        let provider := new_element "provider" provider_attribs in
        let meta_data := new_element "meta-data" meta_data_attribs in
        let provider := append provider meta_data in
        let root := update_found root "application" (fun a => append a provider) in
        ET_write root manifest_path ;;
        print "Successfully added FileProvider to AndroidManifest.xml" ;;
        print dashes
  end.

Definition final_apk_name : string := "umamusume.apk".

(** The body of the [try] in [main]. *)
Definition pipeline (args : Args) : M unit :=
  keystore_path <- setup_environment (keystore_url args) ;;
  dirs <- download_and_decompile (baseapk_dlink args) (splitapk_dlink args) ;;
  let (base_decompile_dir, split_decompile_dir) := dirs : string * string in
  merge_apks base_decompile_dir split_decompile_dir ;;
  create_provider_paths base_decompile_dir ;;
  add_provider_to_manifest base_decompile_dir ;;
  modify_files (libmain_url args) base_decompile_dir ;;
  recompile_and_sign base_decompile_dir "." keystore_path ;;
  finalize_apk "." final_apk_name ;;
  print ("Process complete! The patched APK '" +:+ final_apk_name +:+ "' is ready.").

(** [main] after argument parsing: the final world and the exit status
    of the process, 1 when an exception was caught. *)
Definition main (args : Args) (w : World) : World * Z :=
  match pipeline args w with
  | (w', Ok _) => (w', 0%Z)
  | (w', Raise e) => ((print ("An error occurred: " +:+ exn_str e) w').1, 1%Z)
  end.

End Script.

(** ** Names used in the statements *)

(** The expected output of the signer, as [finalize_apk] computes it. *)
Definition signed_apk_path (directory : string) : string :=
  path_join directory "umamusume_patched-aligned-signed.apk".

(** The failure [finalize_apk] raises by itself. *)
Definition missing_signed_apk (directory : string) : exn :=
  FileNotFoundError ("Missing signed base APK: " +:+ signed_apk_path directory
                       +:+ ". " +:+ "Check uber-apk-signer output name.").

(** The argument vectors of the recompiler and of the signer, as
    [recompile_and_sign] builds them. *)
Definition recompile_command (base_folder output_dir : string) : list string :=
  ["apktool"; "b"; base_folder; "-o"; path_join output_dir "umamusume_patched.apk"].

Definition sign_command (output_dir keystore_path : string) : list string :=
  ["java"; "-jar"; "uber-apk-signer.jar";
   "--apks"; path_join output_dir "umamusume_patched.apk";
   "--ks"; keystore_path;
   "--ksAlias"; "androiddebugkey";
   "--ksPass"; "android";
   "--ksKeyPass"; "android"].

(** The library and its backup, as [modify_files] computes them. *)
Definition primary_path (base_folder : string) : string :=
  path_join (path_join base_folder "lib/arm64-v8a") "libmain.so".

Definition backup_path (base_folder : string) : string :=
  path_join (path_join base_folder "lib/arm64-v8a") "libmain_orig.so".

Definition download_command (url path : string) : list string :=
  ["wget"; "-q"; url; "-O"; path].

(** The manifest of a decompiled tree. *)
Definition manifest_path (base_folder : string) : string :=
  path_join base_folder "AndroidManifest.xml".

(** The download of [modify_files] behaves as [wget -O path] does when
    it succeeds: it leaves the content [B] at [path] and touches no
    other entry. *)
Definition downloads (tools : Subprocess) (url path : string) (B : content) : Prop :=
  forall f, exists out err f',
    tools (download_command url path) f = (f', Ok (mkCompleted 0 out err))
    /\ f' !! path = Some (File B)
    /\ forall p, p <> path -> f' !! p = f !! p.

(** The download, whether it succeeds or not, touches no entry but its
    output file. *)
Definition writes_only (tools : Subprocess) (url path : string) : Prop :=
  forall f p, p <> path -> (tools (download_command url path) f).1 !! p = f !! p.

(** The registry once [android] is registered. *)
Definition registered (m : list (string * string)) : list (string * string) :=
  List.filter
    (fun kv => negb (String.eqb kv.1 android_uri || String.eqb kv.2 "android")) m
    ++ [(android_uri, "android")].

(** The world in which [add_provider_to_manifest] inspects the parsed
    manifest. *)
Definition at_manifest (w : World) : World :=
  mkWorld (fs w) (console w ++ ["Modifying AndroidManifest.xml..."]) (procs w)
          (registered (namespace_map w)).

(** The element [add_provider_to_manifest] appends. *)
Definition provider_element : Element :=
  Elem "provider" provider_attribs EmptyString EmptyString
       [Elem "meta-data" meta_data_attribs EmptyString EmptyString []].

(** The stages of [pipeline] that come before the manifest is patched,
    with the keystore path and the base folder they hand on. *)
Definition stages_before_manifest (tools : Subprocess) (args : Args)
    : M (string * string) :=
  keystore_path <- setup_environment tools (keystore_url args) ;;
  dirs <- download_and_decompile tools (baseapk_dlink args) (splitapk_dlink args) ;;
  merge_apks dirs.1 dirs.2 ;;
  create_provider_paths dirs.1 ;;
  ret (keystore_path, dirs.1).

(** The manifest of the end-to-end scenario,
    [<manifest><application /></manifest>], with any text around the
    application element. *)
Definition minimal (text_before text_after : string) : Element :=
  Elem "manifest" [] text_before EmptyString
       [Elem "application" [] EmptyString text_after []].

(** What [add_provider_to_manifest] writes for it. *)
Definition minimal_patched (text_before text_after : string) : Element :=
  Elem "manifest" [] text_before EmptyString
       [Elem "application" [] EmptyString text_after [provider_element]].

(** ** Well-behaved names, for following a written manifest through a
    second parse *)

Definition no_colon (s : string) : bool :=
  match split_first ":" s with
  | None => true
  | Some _ => false
  end.

(** A name in ElementTree's expanded form, as far as the writer can
    tell. *)
Definition braced (n : string) : bool := startswith "{" n.

(** A prefix that can be written in front of a local name and read back:
    not empty, without a colon, and not [xmlns]. *)
Definition plain_prefix (p : string) : bool :=
  (negb (String.eqb p EmptyString) && no_colon p && negb (String.eqb p "xmlns"))%bool.

(** A registry all of whose prefixes are plain; the library's own is. *)
Definition plain_registry (m : list (string * string)) : bool :=
  forallb (fun kv => plain_prefix kv.2) m.

(** An attribute of a parsed element: its name is expanded, or it has no
    colon and is not a declaration. *)
Definition attr_ok (kv : string * string) : Prop :=
  braced kv.1 = true \/ (no_colon kv.1 = true /\ is_declaration kv = false).

(** What holds of the tables while the names of a tree are collected
    under a registry in which [android] was registered: an expanded name
    is written with a plain prefix, any other name as it is; the
    prefixes chosen are plain, and [android] is chosen for the platform
    namespace only. *)
Definition tables_ok (t : tables) : Prop :=
  (forall n q, dict_get n (qnames t) = Some q ->
     if braced n then exists p l, q = p +:+ ":" +:+ l /\ plain_prefix p = true
     else q = n)
  /\ (forall u p, In (u, p) (namespaces t) ->
        plain_prefix p = true /\ (p = "android" -> u = android_uri)).

(** The declarations in scope while a written manifest is parsed: no
    default namespace, and [android], if bound, bound to the platform
    namespace. *)
Definition scope_ok (scope : list (string * string)) : Prop :=
  dict_get EmptyString scope = None
  /\ forall u, dict_get "android" scope = Some u -> u = android_uri.

(** ** The processes of a run *)

(** The argument vectors [setup_environment] hands to [run_command], in
    the order of the source. *)
Definition setup_commands (keystore_url : string) : list (list string) :=
  [ ["sudo"; "apt-get"; "update"];
    ["sudo"; "apt-get"; "install"; "openjdk-8-jre-headless"; "-y"];
    ["wget"; "-q";
     "https://raw.githubusercontent.com/iBotPeaches/Apktool/master/scripts/linux/apktool";
     "-O"; "apktool"];
    ["wget"; "-q";
     "https://bitbucket.org/iBotPeaches/apktool/downloads/apktool_2.9.3.jar";
     "-O"; "apktool.jar"];
    ["sudo"; "chmod"; "+x"; "/usr/local/bin/apktool"];
    ["wget"; "-q";
     "https://github.com/patrickfav/uber-apk-signer/releases/download/v1.3.0/uber-apk-signer-1.3.0.jar";
     "-O"; "uber-apk-signer.jar"];
    ["wget"; "-q"; keystore_url; "-O"; "debug.keystore"] ].

(** Those of [download_and_decompile]. *)
Definition decompile_commands (base_apk_dlink split_apk_dlink : string)
    : list (list string) :=
  [ ["wget"; "-q"; base_apk_dlink; "-O"; "base.apk"];
    ["wget"; "-q"; split_apk_dlink; "-O"; "split.apk"];
    ["apktool"; "d"; "base.apk"];
    ["apktool"; "d"; "split.apk"] ].

(** Every argument vector a complete run of [main] starts, in order. *)
Definition planned_commands (args : Args) : list (list string) :=
  setup_commands (keystore_url args)
    ++ decompile_commands (baseapk_dlink args) (splitapk_dlink args)
    ++ [ download_command (libmain_url args) (primary_path "base");
         recompile_command "base" ".";
         sign_command "." "debug.keystore" ].

(** A computation that starts the processes [cmds], in this order and
    each at most once: whatever the world, the processes it adds to the
    log are a prefix of [cmds], and all of [cmds] when it returns; a
    returned value satisfies [P]. *)
Definition starts {A : Type} (cmds : list (list string)) (P : A -> Prop) (m : M A)
    : Prop :=
  forall w, exists started,
    started `prefix_of` cmds
    /\ procs (m w).1 = procs w ++ started
    /\ forall a, (m w).2 = Ok a -> started = cmds /\ P a.

(** ** The paths of [create_provider_paths] and [merge_apks] *)

Definition xml_dir_path (base_folder : string) : string :=
  path_join (path_join base_folder "res") "xml".

Definition provider_paths_path (base_folder : string) : string :=
  path_join (xml_dir_path base_folder) "provider_paths.xml".

Definition split_lib_path (split_folder : string) : string :=
  path_join split_folder "lib".

Definition base_lib_path (base_folder : string) : string :=
  path_join base_folder "lib".

(** A download that fails: the process completes with a status other
    than zero. *)
Definition download_fails (tools : Subprocess) (url path : string) : Prop :=
  forall f, exists c,
    (tools (download_command url path) f).2 = Ok c /\ returncode c <> 0%Z.

(** A computation that starts no process. *)
Definition silent {A : Type} (m : M A) : Prop :=
  forall w, procs (m w).1 = procs w.

(** ** Setting up *)

(** The file system after the commands have run one after the other,
    provided each of them completes with status zero. *)
Fixpoint all_succeed (tools : Subprocess) (cmds : list (list string))
    (f : gmap string node) : option (gmap string node) :=
  match cmds with
  | [] => Some f
  | command :: rest =>
      match tools command f with
      | (f', Ok result) =>
          if (returncode result =? 0)%Z then all_succeed tools rest f' else None
      | (_, Raise _) => None
      end
  end.

(** The file system [f] with the regular files [apktool] and
    [apktool.jar] of the working directory moved to [/usr/local/bin]. *)
Definition apktool_installed (script jar : content) (f : gmap string node)
    : gmap string node :=
  <["/usr/local/bin/apktool.jar" := File jar]>
    (delete "apktool.jar"
       (<["/usr/local/bin/apktool" := File script]> (delete "apktool" f))).

(** ** Sample tools and worlds, for running the script on examples *)

(** Tools that always succeed: [wget -q url -O path] leaves a file at
    [path] whose content names the URL; every other command leaves the
    file system alone. *)
Definition sample_tools : Subprocess :=
  fun command f =>
    match command with
    | [prog; _; url; flag; path] =>
        if (String.eqb prog "wget" && String.eqb flag "-O")%bool
        then (<[path := File (Blob ("data from " +:+ url))]> f,
              Ok (mkCompleted 0 EmptyString EmptyString))
        else (f, Ok (mkCompleted 0 EmptyString EmptyString))
    | _ => (f, Ok (mkCompleted 0 EmptyString EmptyString))
    end.

(** The world at the start of a process: nothing printed, nothing run,
    the registry as the library ships it. *)
Definition initial_world (f : gmap string node) : World :=
  mkWorld f [] [] default_namespace_map.

(** [<manifest><application /></manifest>] *)
Definition minimal_manifest : Element :=
  Elem "manifest" [] EmptyString EmptyString
       [Elem "application" [] EmptyString EmptyString []].

(** [<manifest />] *)
Definition manifest_without_application : Element :=
  Elem "manifest" [] EmptyString EmptyString [].

(** A manifest as the decompiler writes it, with names in the platform
    namespace:
    [<manifest xmlns:android=... package="p"><application android:label="x" /></manifest>] *)
Definition usual_manifest : Element :=
  Elem "manifest" [("xmlns:android", android_uri); ("package", "p")]
       EmptyString EmptyString
       [Elem "application" [("android:label", "x")] EmptyString EmptyString []].

Definition tree_with (manifest : Element) : gmap string node :=
  <["base/AndroidManifest.xml" := File (XmlDoc EmptyString manifest)]>
    (<["base" := Dir]> ∅).

(** The usual manifest once patched, as it is written in the file. *)
Definition usual_manifest_patched : Element :=
  Elem "manifest" [("xmlns:android", android_uri); ("package", "p")]
       EmptyString EmptyString
       [Elem "application" [("android:label", "x")] EmptyString EmptyString
             [provider_element]].

Definition sample_args : Args := mkArgs "base-url" "split-url" "lib-url" "keystore-url".

(** A decompiled tree with the library as shipped. *)
Definition shipped_tree : gmap string node :=
  <["base/lib/arm64-v8a/libmain.so" := File (Blob "original library")]>
    (<["base/lib/arm64-v8a" := Dir]> (<["base/lib" := Dir]> (<["base" := Dir]> ∅))).

(** The same tree after one run of [modify_files], and after two. *)
Definition substituted_once : World :=
  (modify_files sample_tools "lib-url" "base" (initial_world shipped_tree)).1.

Definition substituted_twice : World :=
  (modify_files sample_tools "lib-url" "base" substituted_once).1.

(** A directory with the signer's output in it. *)
Definition signed_tree : gmap string node :=
  <["./umamusume_patched-aligned-signed.apk" := File (Blob "signed package")]> ∅.

(** A base tree and a split tree that both hold [lib/arm64-v8a/x.so]. *)
Definition overlapping_trees : gmap string node :=
  <["split/lib/arm64-v8a/x.so" := File (Blob "B")]>
    (<["split/lib/arm64-v8a" := Dir]>
    (<["split/lib" := Dir]>
    (<["split" := Dir]>
    (<["base/lib/arm64-v8a/x.so" := File (Blob "A")]>
    (<["base/lib/arm64-v8a/y.so" := File (Blob "Y")]>
    (<["base/lib/arm64-v8a" := Dir]>
    (<["base/lib" := Dir]>
    (<["base" := Dir]> ∅)))))))).

(** Tools whose every command completes with status 1 and the standard
    error [404], touching nothing. *)
Definition failing_tools : Subprocess :=
  fun _ f => (f, Ok (mkCompleted 1 EmptyString "404")).

(** A tree in which a whole run succeeds under [sample_tools], which do
    not decompile or sign: the decompiled manifest and the signer's
    output are there from the start. *)
Definition ready_tree : gmap string node :=
  <["./umamusume_patched-aligned-signed.apk" := File (Blob "signed package")]>
    (tree_with usual_manifest).

(** A tree whose split package has a regular file named [lib]. *)
Definition odd_split_tree : gmap string node :=
  <["split/lib" := File (Blob "not a directory")]> (<["split" := Dir]> ∅).

(** A directory with the keystore in it. *)
Definition keystore_tree : gmap string node :=
  <["debug.keystore" := File (Blob "keys")]> ∅.

(** Tools that report success and do nothing. *)
Definition idle_tools : Subprocess :=
  fun _ f => (f, Ok (mkCompleted 0 EmptyString EmptyString)).

(** A root file system with [/usr/local/bin] and nothing else. *)
Definition usr_local_bin_tree : gmap string node :=
  <["/usr/local/bin" := Dir]> (<["/usr/local" := Dir]> (<["/usr" := Dir]> ∅)).

(** * Properties *)

(** ** Running the monad *)

Ltac unfold_calls :=
  unfold os_path_exists, os_rename, write_file, ET_parse, ET_write,
    ET_register_namespace.

Ltac unfold_monad :=
  unfold bind, get_fs, put_fs, ret, raise, print.

Ltac run_script := unfold_calls; unfold_monad; simpl.

(** ** Merging *)

(** C6. When the split tree has no [lib] entry, [merge_apks] returns
    normally, leaves the file system (hence the destination tree)
    exactly as it was, starts no process, and reports that there was
    nothing to merge. *)
Theorem merge_without_source_changes_nothing (base_folder split_folder : string) (w : World) :
  fs w !! path_join split_folder "lib" = None ->
  exists w',
    merge_apks base_folder split_folder w = (w', Ok tt)
    /\ fs w' = fs w
    /\ procs w' = procs w
    /\ console w' =
         console w
           ++ [ "Merging " +:+ split_folder +:+ "/lib into " +:+ base_folder +:+ "/lib...";
                "Warning: " +:+ path_join split_folder "lib"
                  +:+ " does not exist. Nothing to merge.";
                dashes ].
Proof.
  intros Habsent.
  unfold merge_apks, bind, os_path_exists, get_fs, ret, print; simpl.
  rewrite Habsent; simpl.
  eexists; split; [reflexivity|]; simpl.
  repeat split; try reflexivity.
  rewrite <- !app_assoc; reflexivity.
Qed.

(** ** Finalizing *)

(** [os.rename] never gives a result that is the failure of
    [finalize_apk] itself when its source exists. *)
Lemma os_rename_existing_source (src dst : string) (w : World) (n : node) :
  fs w !! src = Some n ->
  forall m, (os_rename src dst w).2 <> Raise (FileNotFoundError m).
Proof.
  intros Hsrc m.
  run_script. rewrite Hsrc.
  destruct n as [c|]; destruct (fs w !! dst) as [[c'|]|]; simpl; try discriminate;
    repeat (match goal with |- context [if ?b then _ else _] => destruct b end;
            simpl; try discriminate).
Qed.

(** C8. [finalize_apk] raises its own failure, whose message names the
    expected signer output, exactly when that file is absent.  When it
    is present the stage is the call [os.rename(signed_apk, final_path)]
    between its messages; for a regular file (and a final path that is
    not a directory) the file then sits under the final name
    [umamusume.apk] and no longer under the signer's name. *)
Theorem finalize_diagnoses_missing_artifact (directory : string) (w : World) :
  ((finalize_apk directory final_apk_name w).2 = Raise (missing_signed_apk directory)
     <-> fs w !! signed_apk_path directory = None)
  /\ (fs w !! signed_apk_path directory <> None ->
        finalize_apk directory final_apk_name w =
          (print "Finalizing APK..." ;;
           os_rename (signed_apk_path directory) (path_join directory final_apk_name) ;;
           print ("Final APK created: " +:+ path_join directory final_apk_name) ;;
           print dashes) w)
  /\ (forall c,
        fs w !! signed_apk_path directory = Some (File c) ->
        fs w !! path_join directory final_apk_name <> Some Dir ->
        exists w',
          finalize_apk directory final_apk_name w = (w', Ok tt)
          /\ fs w' = <[path_join directory final_apk_name := File c]>
                       (delete (signed_apk_path directory) (fs w))).
Proof.
  split; [|split].
  - split.
    + intros Hraise.
      destruct (fs w !! signed_apk_path directory) as [n|] eqn:Hn; [|reflexivity].
      exfalso.
      revert Hraise.
      unfold finalize_apk, bind at 1 2 3, print at 1, os_path_exists, bind, get_fs, ret; simpl.
      fold (signed_apk_path directory). rewrite Hn; simpl.
      pose proof (os_rename_existing_source (signed_apk_path directory)
                    (path_join directory final_apk_name)
                    (mkWorld (fs w) (console w ++ ["Finalizing APK..."]) (procs w) (namespace_map w))
                    n Hn) as Hne.
      destruct (os_rename _ _ _) as [w1 [[]|e]]; simpl in *.
      * discriminate.
      * intros He. apply (Hne _ He).
    + intros Hn.
      unfold finalize_apk, bind, print, os_path_exists, get_fs, ret, raise; simpl.
      fold (signed_apk_path directory). rewrite Hn; simpl. reflexivity.
  - intros Hn.
    destruct (fs w !! signed_apk_path directory) as [n|] eqn:Hn'; [|congruence].
    unfold finalize_apk, bind, print, os_path_exists, get_fs, ret; simpl.
    fold (signed_apk_path directory). rewrite Hn'; simpl. reflexivity.
  - intros c Hc Hdst.
    unfold finalize_apk; run_script.
    fold (signed_apk_path directory). rewrite Hc; simpl. rewrite Hc.
    destruct (fs w !! path_join directory final_apk_name) as [[c'|]|] eqn:Hd;
      try congruence; simpl; eexists; split; reflexivity.
Qed.

(** ** Recompiling and signing *)

(** C10. When the keystore is absent once the recompiler has run,
    [recompile_and_sign] fails; the only process started in the stage is
    the recompiler, whose effect on the file system is in place, so the
    signer is never started; and when the recompiler succeeded the
    failure is the keystore one. *)
Theorem keystore_checked_after_recompile_before_sign
    (tools : Subprocess) (base_folder output_dir keystore_path : string) (w : World) :
  (tools (recompile_command base_folder output_dir) (fs w)).1 !! keystore_path = None ->
  exists w' e,
    recompile_and_sign tools base_folder output_dir keystore_path w = (w', Raise e)
    /\ procs w' = procs w ++ [recompile_command base_folder output_dir]
    /\ recompile_command base_folder output_dir <> sign_command output_dir keystore_path
    /\ fs w' = (tools (recompile_command base_folder output_dir) (fs w)).1
    /\ (forall r,
          (tools (recompile_command base_folder output_dir) (fs w)).2 = Ok r ->
          returncode r = 0%Z ->
          e = FileNotFoundError ("Keystore not found: " +:+ keystore_path)).
Proof.
  intros Habsent.
  unfold recompile_and_sign, run_command, subprocess_run.
  fold (recompile_command base_folder output_dir).
  run_script.
  destruct (tools (recompile_command base_folder output_dir) (fs w)) as [f [r|e]] eqn:Htool;
    simpl in *.
  - destruct (returncode r =? 0)%Z eqn:Hcode; simpl.
    + rewrite Habsent; simpl.
      eexists _, _; split; [reflexivity|]; simpl.
      repeat split; try reflexivity; try discriminate.
    + eexists _, _; split; [reflexivity|]; simpl.
      repeat split; try reflexivity; try discriminate.
      intros r' Hr' Hzero. injection Hr' as <-.
      rewrite Hzero in Hcode. discriminate.
  - eexists _, _; split; [reflexivity|]; simpl.
    repeat split; try reflexivity; try discriminate.
Qed.

(** When the recompiler succeeds and the keystore is there, the signer
    is started, after the recompiler. *)
Lemma signer_started_after_keystore_check
    (tools : Subprocess) (base_folder output_dir keystore_path : string) (w : World)
    (r : CompletedProcess) :
  (tools (recompile_command base_folder output_dir) (fs w)).2 = Ok r ->
  returncode r = 0%Z ->
  (tools (recompile_command base_folder output_dir) (fs w)).1 !! keystore_path <> None ->
  procs (recompile_and_sign tools base_folder output_dir keystore_path w).1
    = procs w ++ [recompile_command base_folder output_dir;
                  sign_command output_dir keystore_path].
Proof.
  intros Hr Hzero Hpresent.
  unfold recompile_and_sign, run_command, subprocess_run.
  fold (recompile_command base_folder output_dir) (sign_command output_dir keystore_path).
  run_script.
  destruct (tools (recompile_command base_folder output_dir) (fs w)) as [f r0].
  simpl in *. subst r0. rewrite Hzero. simpl.
  destruct (f !! keystore_path) as [n|]; [|congruence]. simpl.
  destruct (tools (sign_command output_dir keystore_path) f) as [f' [r'|e]]; simpl.
  - destruct (returncode r' =? 0)%Z; simpl; rewrite <- app_assoc; reflexivity.
  - rewrite <- app_assoc. reflexivity.
Qed.

(** ** Substituting the library *)

Lemma primary_backup_distinct (base_folder : string) :
  primary_path base_folder <> backup_path base_folder.
Proof.
  unfold primary_path, backup_path, path_join at 1 3; simpl.
  destruct (_ || _)%bool; intros H; apply (inj (String.app _)) in H; discriminate.
Qed.

(** [modify_files] when the library is a regular file: it is renamed to
    the backup path, replacing what was there, and the download runs. *)
Lemma modify_files_existing (tools : Subprocess) (url base_folder : string)
    (A : content) (w : World) :
  fs w !! primary_path base_folder = Some (File A) ->
  fs w !! backup_path base_folder <> Some Dir ->
  exists w1,
    fs w1 = <[backup_path base_folder := File A]> (delete (primary_path base_folder) (fs w))
    /\ procs w1 = procs w
    /\ modify_files tools url base_folder w =
         (run_command tools (download_command url (primary_path base_folder))
                      "Failed to download modded libmain.so" ;;
          print "File modification complete!" ;;
          print dashes) w1.
Proof.
  intros HA Hdir.
  unfold modify_files.
  fold (primary_path base_folder) (backup_path base_folder)
       (download_command url (primary_path base_folder)).
  run_script. rewrite HA; simpl. rewrite HA.
  destruct (fs w !! backup_path base_folder) as [[c|]|] eqn:Hb; try congruence;
    simpl; (eexists; split; [|split]; [| |reflexivity]; reflexivity).
Qed.

(** [modify_files] when there is no library: the rename is skipped. *)
Lemma modify_files_missing (tools : Subprocess) (url base_folder : string) (w : World) :
  fs w !! primary_path base_folder = None ->
  modify_files tools url base_folder w =
    (run_command tools (download_command url (primary_path base_folder))
                 "Failed to download modded libmain.so" ;;
     print "File modification complete!" ;;
     print dashes)
      (mkWorld (fs w) (console w ++ ["🛠️ Modifying files..."]) (procs w) (namespace_map w)).
Proof.
  intros Hnone.
  unfold modify_files.
  fold (primary_path base_folder) (backup_path base_folder)
       (download_command url (primary_path base_folder)).
  run_script. rewrite Hnone; simpl. reflexivity.
Qed.

(** The rest of [modify_files] when the download succeeds. *)
Lemma download_step_succeeds (tools : Subprocess) (url path : string) (B : content)
    (w1 : World) :
  downloads tools url path B ->
  exists w',
    (run_command tools (download_command url path)
                 "Failed to download modded libmain.so" ;;
     print "File modification complete!" ;;
     print dashes) w1 = (w', Ok tt)
    /\ fs w' !! path = Some (File B)
    /\ (forall p, p <> path -> fs w' !! p = fs w1 !! p)
    /\ procs w' = procs w1 ++ [download_command url path].
Proof.
  intros Hdl.
  destruct (Hdl (fs w1)) as (out & err & f' & Hrun & HB & Hframe).
  unfold run_command, subprocess_run. run_script. rewrite Hrun; simpl.
  eexists; split; [reflexivity|]; simpl. auto.
Qed.

(** The rest of [modify_files], whatever the download does. *)
Lemma download_step_frame (tools : Subprocess) (url path : string) (w1 : World) :
  writes_only tools url path ->
  forall p, p <> path ->
    fs ((run_command tools (download_command url path)
                     "Failed to download modded libmain.so" ;;
         print "File modification complete!" ;;
         print dashes) w1).1 !! p = fs w1 !! p.
Proof.
  intros Hframe p Hp.
  specialize (Hframe (fs w1) p Hp).
  unfold run_command, subprocess_run. run_script.
  destruct (tools (download_command url path) (fs w1)) as [f [r|e]]; simpl in *.
  - destruct (returncode r =? 0)%Z; simpl; exact Hframe.
  - exact Hframe.
Qed.

(** C3. With the library present with content [A], no backup, and a
    download that delivers [B]: [modify_files] returns normally, the
    backup holds [A] and the library holds [B]. *)
Theorem substitution_preserves_original
    (tools : Subprocess) (url base_folder : string) (A B : content) (w : World) :
  fs w !! primary_path base_folder = Some (File A) ->
  fs w !! backup_path base_folder = None ->
  downloads tools url (primary_path base_folder) B ->
  exists w',
    modify_files tools url base_folder w = (w', Ok tt)
    /\ fs w' !! backup_path base_folder = Some (File A)
    /\ fs w' !! primary_path base_folder = Some (File B).
Proof.
  intros HA Hnone Hdl.
  destruct (modify_files_existing tools url base_folder A w HA) as (w1 & Hfs & _ & Hrest).
  { rewrite Hnone; discriminate. }
  destruct (download_step_succeeds tools url _ B w1 Hdl) as (w' & Hrun & HB & Hframe & _).
  exists w'. rewrite Hrest, Hrun. split; [reflexivity|]. split; [|exact HB].
  rewrite Hframe by (apply not_eq_sym, primary_backup_distinct).
  rewrite Hfs. apply lookup_insert_eq.
Qed.

(** C5. With no library in the tree and a download that delivers [B]:
    [modify_files] returns normally without renaming anything, the
    backup path is as it was (absent if it was absent), every entry but
    the library is as it was, the only process started is the download,
    and the library holds [B]. *)
Theorem substitution_without_original
    (tools : Subprocess) (url base_folder : string) (B : content) (w : World) :
  fs w !! primary_path base_folder = None ->
  downloads tools url (primary_path base_folder) B ->
  exists w',
    modify_files tools url base_folder w = (w', Ok tt)
    /\ fs w' !! backup_path base_folder = fs w !! backup_path base_folder
    /\ (forall p, p <> primary_path base_folder -> fs w' !! p = fs w !! p)
    /\ procs w' = procs w ++ [download_command url (primary_path base_folder)]
    /\ fs w' !! primary_path base_folder = Some (File B).
Proof.
  intros Hnone Hdl.
  rewrite (modify_files_missing tools url base_folder w Hnone).
  destruct (download_step_succeeds tools url _ B
              (mkWorld (fs w) (console w ++ ["🛠️ Modifying files..."]) (procs w)
                       (namespace_map w)) Hdl)
    as (w' & Hrun & HB & Hframe & Hprocs).
  exists w'. simpl in *. rewrite Hrun. repeat split; auto.
  apply Hframe, not_eq_sym, primary_backup_distinct.
Qed.

(** C4, as amended.  With a download that touches only its output
    file: when the library is a regular file or absent, [modify_files]
    changes no entry but the library and the one backup path; an
    existing backup is left as it was when there is no library to
    rename; and when the library is a regular file (and the backup path
    not a directory) the backup afterwards holds the library's former
    content, whatever it held before. *)
Theorem substitution_backup_policy
    (tools : Subprocess) (url base_folder : string) (w : World) :
  writes_only tools url (primary_path base_folder) ->
  (fs w !! primary_path base_folder <> Some Dir ->
   forall p, p <> primary_path base_folder -> p <> backup_path base_folder ->
     fs (modify_files tools url base_folder w).1 !! p = fs w !! p)
  /\ (fs w !! primary_path base_folder = None ->
        fs (modify_files tools url base_folder w).1 !! backup_path base_folder
          = fs w !! backup_path base_folder)
  /\ (forall A, fs w !! primary_path base_folder = Some (File A) ->
        fs w !! backup_path base_folder <> Some Dir ->
        fs (modify_files tools url base_folder w).1 !! backup_path base_folder
          = Some (File A)).
Proof.
  intros Hframe.
  pose proof (primary_backup_distinct base_folder) as Hdistinct.
  split; [|split].
  - intros Hprim p Hp Hb.
    destruct (fs w !! primary_path base_folder) as [[A|]|] eqn:HA; try congruence.
    + destruct (fs w !! backup_path base_folder) as [[c|]|] eqn:Hback.
      * destruct (modify_files_existing tools url base_folder A w HA)
          as (w1 & Hfs & _ & ->); [rewrite Hback; discriminate|].
        rewrite download_step_frame by assumption.
        rewrite Hfs, lookup_insert_ne, lookup_delete_ne by congruence. reflexivity.
      * unfold modify_files.
        fold (primary_path base_folder) (backup_path base_folder)
             (download_command url (primary_path base_folder)).
        run_script. rewrite HA; simpl. rewrite HA, Hback. reflexivity.
      * destruct (modify_files_existing tools url base_folder A w HA)
          as (w1 & Hfs & _ & ->); [rewrite Hback; discriminate|].
        rewrite download_step_frame by assumption.
        rewrite Hfs, lookup_insert_ne, lookup_delete_ne by congruence. reflexivity.
    + rewrite (modify_files_missing tools url base_folder w HA).
      rewrite download_step_frame by assumption. reflexivity.
  - intros HA. rewrite (modify_files_missing tools url base_folder w HA).
    rewrite download_step_frame by (try assumption; congruence). reflexivity.
  - intros A HA Hback.
    destruct (modify_files_existing tools url base_folder A w HA Hback)
      as (w1 & Hfs & _ & ->).
    rewrite download_step_frame by (try assumption; congruence).
    rewrite Hfs. apply lookup_insert_eq.
Qed.

(** ** Patching the manifest *)

(** [add_provider_to_manifest] once the manifest is parsed. *)
Lemma add_provider_parsed (base_folder : string) (w : World) (prolog : string)
    (doc root : Element) :
  fs w !! manifest_path base_folder = Some (File (XmlDoc prolog doc)) ->
  resolve_document doc = Ok root ->
  add_provider_to_manifest base_folder w =
    match find root "application" with
    | None => raise (RuntimeError "<application> tag not found in AndroidManifest.xml")
    | Some application_tag =>
        if provider_declared application_tag then
          print "FileProvider already exists in manifest. Skipping." ;;
          print dashes
        else
          ET_write (update_found root "application" (fun a => append a provider_element))
                   (manifest_path base_folder) ;;
          print "Successfully added FileProvider to AndroidManifest.xml" ;;
          print dashes
    end (at_manifest w).
Proof.
  intros Hfile Hdoc.
  unfold add_provider_to_manifest. fold (manifest_path base_folder).
  unfold ET_parse, ET_register_namespace. unfold_monad. simpl.
  rewrite Hfile, Hdoc. reflexivity.
Qed.

(** [add_provider_to_manifest] when the manifest does not parse. *)
Lemma add_provider_unparsed (base_folder : string) (w : World) (prolog : string)
    (doc : Element) (e : exn) :
  fs w !! manifest_path base_folder = Some (File (XmlDoc prolog doc)) ->
  resolve_document doc = Raise e ->
  add_provider_to_manifest base_folder w = (at_manifest w, Raise e).
Proof.
  intros Hfile Hdoc.
  unfold add_provider_to_manifest. fold (manifest_path base_folder).
  unfold ET_parse, ET_register_namespace. unfold_monad. simpl.
  rewrite Hfile, Hdoc. reflexivity.
Qed.

(** In every manifest with an application element, the tree handed to
    [tree.write] has the new provider as the last child of the first
    application element. *)
Lemma provider_appended_last (root application_tag : Element) :
  find root "application" = Some application_tag ->
  find (update_found root "application" (fun a => append a provider_element))
       "application" = Some (append application_tag provider_element)
  /\ children (append application_tag provider_element)
       = children application_tag ++ [provider_element]
  /\ last (children (append application_tag provider_element)) = Some provider_element.
Proof.
  intros Hfind. split; [|split].
  - unfold find, update_found in *. cbn [children].
    induction (children root) as [|c l IH]; simpl in *; [discriminate|].
    destruct (String.eqb (tag c) "application") eqn:Hc; simpl.
    + injection Hfind as <-. rewrite Hc. reflexivity.
    + rewrite Hc. exact (IH Hfind).
  - reflexivity.
  - cbn [append children]. apply last_snoc.
Qed.

(** C9. When the application element of the parsed manifest has a
    direct [provider] child whose name in the platform namespace is the
    target name, [add_provider_to_manifest] returns normally without
    writing: the file system is exactly as before, no process is
    started, and the skip is reported. *)
Theorem declared_provider_means_no_write (base_folder : string) (w : World)
    (prolog : string) (doc root application_tag provider : Element) :
  fs w !! manifest_path base_folder = Some (File (XmlDoc prolog doc)) ->
  resolve_document doc = Ok root ->
  find root "application" = Some application_tag ->
  In provider (children application_tag) ->
  tag provider = "provider" ->
  get provider (expanded android_uri "name") = Some provider_name ->
  exists w',
    add_provider_to_manifest base_folder w = (w', Ok tt)
    /\ fs w' = fs w
    /\ procs w' = procs w
    /\ console w' =
         console w ++ [ "Modifying AndroidManifest.xml...";
                        "FileProvider already exists in manifest. Skipping.";
                        dashes ].
Proof.
  intros Hfile Hdoc Happ Hin Htag Hname.
  rewrite (add_provider_parsed base_folder w prolog doc root Hfile Hdoc), Happ.
  assert (provider_declared application_tag = true) as ->.
  { unfold provider_declared. apply existsb_exists. exists provider. split.
    - unfold findall. apply filter_In. split; [exact Hin|].
      rewrite Htag. reflexivity.
    - rewrite Hname. apply String.eqb_refl. }
  unfold_monad; simpl.
  eexists; split; [reflexivity|]; simpl.
  repeat split. rewrite <- !app_assoc. reflexivity.
Qed.

(** [pipeline] is those stages followed by the manifest patch and the
    later stages. *)
Lemma pipeline_from_manifest (tools : Subprocess) (args : Args) (w w4 : World)
    (keystore_path base_folder : string) :
  stages_before_manifest tools args w = (w4, Ok (keystore_path, base_folder)) ->
  pipeline tools args w =
    (add_provider_to_manifest base_folder ;;
     modify_files tools (libmain_url args) base_folder ;;
     recompile_and_sign tools base_folder "." keystore_path ;;
     finalize_apk "." final_apk_name ;;
     print ("Process complete! The patched APK '" +:+ final_apk_name +:+ "' is ready."))
      w4.
Proof.
  unfold stages_before_manifest, pipeline, bind.
  destruct (setup_environment tools (keystore_url args) w) as [w1 [k|e]];
    [|discriminate].
  destruct (download_and_decompile tools _ _ w1) as [w2 [[b s]|e]]; [|discriminate].
  simpl.
  destruct (merge_apks b s w2) as [w3 [[]|e]]; [|discriminate].
  destruct (create_provider_paths b w3) as [w4' [[]|e]]; [|discriminate].
  unfold ret. intros [= -> -> ->]. reflexivity.
Qed.

(** C7. When the stages before it have succeeded and the manifest is an
    XML document whose document element has no [application] child,
    [add_provider_to_manifest] raises its structure error with the file
    system untouched, and [main] stops there: it reports the error and
    exits with status 1, and the file system and the list of started
    processes are those the earlier stages left, so that no later stage
    has run. *)
Theorem missing_application_stops_pipeline
    (tools : Subprocess) (args : Args) (w w4 : World)
    (keystore_path base_folder prolog : string) (doc root : Element) :
  stages_before_manifest tools args w = (w4, Ok (keystore_path, base_folder)) ->
  fs w4 !! manifest_path base_folder = Some (File (XmlDoc prolog doc)) ->
  resolve_document doc = Ok root ->
  find root "application" = None ->
  (exists w5,
     add_provider_to_manifest base_folder w4 =
       (w5, Raise (RuntimeError "<application> tag not found in AndroidManifest.xml"))
     /\ fs w5 = fs w4 /\ procs w5 = procs w4)
  /\ exists w',
       main tools args w = (w', 1%Z)
       /\ fs w' = fs w4
       /\ procs w' = procs w4
       /\ console w' =
            console w4
              ++ [ "Modifying AndroidManifest.xml...";
                   "An error occurred: <application> tag not found in AndroidManifest.xml" ].
Proof.
  intros Hbefore Hfile Hdoc Hfind.
  pose proof (add_provider_parsed base_folder w4 prolog doc root Hfile Hdoc) as Hpatch.
  rewrite Hfind in Hpatch. unfold raise in Hpatch.
  split.
  - eexists. split; [exact Hpatch|]. split; reflexivity.
  - unfold main.
    rewrite (pipeline_from_manifest tools args w w4 keystore_path base_folder Hbefore).
    unfold bind at 1. rewrite Hpatch. simpl.
    eexists; split; [reflexivity|]; simpl.
    repeat split. rewrite <- !app_assoc. reflexivity.
Qed.

Lemma add_provider_minimal (base_folder : string) (w : World)
    (prolog text_before text_after : string) :
  fs w !! manifest_path base_folder
    = Some (File (XmlDoc prolog (minimal text_before text_after))) ->
  add_provider_to_manifest base_folder w =
    (mkWorld (<[manifest_path base_folder :=
                 File (XmlDoc xml_declaration (minimal_patched text_before text_after))]>
                (fs w))
             (console w ++ [ "Modifying AndroidManifest.xml...";
                             "Successfully added FileProvider to AndroidManifest.xml";
                             dashes ])
             (procs w)
             (registered (namespace_map w)),
     Ok tt).
Proof.
  intros Hfile.
  rewrite (add_provider_parsed base_folder w prolog _ (minimal text_before text_after) Hfile)
    by reflexivity.
  change (find (minimal text_before text_after) "application")
    with (Some (Elem "application" [] EmptyString text_after [])).
  cbv beta iota.
  change (provider_declared (Elem "application" [] EmptyString text_after [])) with false.
  cbv beta iota.
  change (update_found (minimal text_before text_after) "application"
            (fun a => append a provider_element))
    with (minimal_patched text_before text_after).
  unfold ET_write, at_manifest. unfold_monad. cbv beta. cbn [fs]. rewrite Hfile.
  cbv beta iota. cbn [namespace_map].
  replace (collect_namespaces (registered (namespace_map w))
             (minimal_patched text_before text_after))
    with (Ok (Tables (map (fun n => (n, n))
                         ["manifest"; "application"; "provider"; "android:name";
                          "android:authorities"; "android:exported";
                          "android:grantUriPermissions"; "meta-data"; "android:resource"])
                     []))
    by reflexivity.
  simpl. rewrite <- !app_assoc. reflexivity.
Qed.

(** C2. On the minimal manifest [add_provider_to_manifest] returns
    normally and writes a document whose application element has
    exactly one child: a [provider] element, last (and only) child, with
    the name [androidx.core.content.FileProvider], the authority
    [${applicationId}.provider], [exported] false and
    [grantUriPermissions] true, and with exactly one child, a
    [meta-data] element whose resource is [@xml/provider_paths]. *)
Theorem minimal_manifest_gets_one_provider (base_folder : string) (w : World)
    (prolog text_before text_after : string) :
  fs w !! manifest_path base_folder
    = Some (File (XmlDoc prolog (minimal text_before text_after))) ->
  exists w' written application_tag provider meta_data,
    add_provider_to_manifest base_folder w = (w', Ok tt)
    /\ fs w' !! manifest_path base_folder = Some (File (XmlDoc xml_declaration written))
    /\ children written = [application_tag]
    /\ tag application_tag = "application"
    /\ children application_tag = [provider]
    /\ last (children application_tag) = Some provider
    /\ findall application_tag "provider" = [provider]
    /\ get provider "android:name" = Some "androidx.core.content.FileProvider"
    /\ get provider "android:authorities" = Some "${applicationId}.provider"
    /\ get provider "android:exported" = Some "false"
    /\ get provider "android:grantUriPermissions" = Some "true"
    /\ length (attrib provider) = 4
    /\ children provider = [meta_data]
    /\ tag meta_data = "meta-data"
    /\ get meta_data "android:resource" = Some "@xml/provider_paths".
Proof.
  intros Hfile.
  rewrite (add_provider_minimal base_folder w prolog text_before text_after Hfile).
  eexists _, (minimal_patched text_before text_after), _, provider_element, _.
  split; [reflexivity|]. cbn [fs]. rewrite lookup_insert_eq.
  repeat split.
Qed.

(** C1, on the minimal manifest.  The first run returns normally and
    writes the provider; the second run, on what the first wrote, does
    not find the provider: it fails while parsing, because the names
    [android:...] of the new element were written without a declaration
    of the prefix.  (The file system is then as the first run left
    it.) *)
Theorem second_run_on_minimal_manifest_fails (base_folder : string) (w : World)
    (prolog text_before text_after : string) :
  fs w !! manifest_path base_folder
    = Some (File (XmlDoc prolog (minimal text_before text_after))) ->
  exists w1 w2,
    add_provider_to_manifest base_folder w = (w1, Ok tt)
    /\ add_provider_to_manifest base_folder w1 = (w2, Raise (ParseError "unbound prefix"))
    /\ fs w2 = fs w1.
Proof.
  intros Hfile.
  rewrite (add_provider_minimal base_folder w prolog text_before text_after Hfile).
  eexists _, _. split; [reflexivity|].
  split.
  - apply (add_provider_unparsed base_folder _ xml_declaration
             (minimal_patched text_before text_after)).
    + simpl. apply lookup_insert_eq.
    + reflexivity.
  - reflexivity.
Qed.

(** ** A second run never writes

    Whatever the manifest, when the registry holds plain prefixes only
    (as the library's own does), running [add_provider_to_manifest] a
    second time leaves the file system as the first run left it: if the
    second run gets as far as inspecting an application element, the
    provider written by the first run is there under the platform
    namespace. *)

Lemma append_cons (a : ascii) (s1 s2 : string) :
  String a s1 +:+ s2 = String a (s1 +:+ s2).
Proof. reflexivity. Qed.

Lemma append_empty (s : string) : EmptyString +:+ s = s.
Proof. reflexivity. Qed.

Lemma split_first_spec (c : ascii) (s p l : string) :
  split_first c s = Some (p, l) -> s = p +:+ String c l.
Proof.
  revert p l. induction s as [|a s IH]; intros p l; simpl; [discriminate|].
  destruct (Ascii.eqb a c) eqn:Hac.
  - intros [= <- <-]. apply Ascii.eqb_eq in Hac as ->. reflexivity.
  - destruct (split_first c s) as [[p' l']|]; [|discriminate].
    intros [= <- <-]. rewrite append_cons. f_equal. apply IH. reflexivity.
Qed.

Lemma split_first_after (p l : string) :
  no_colon p = true -> split_first ":" (p +:+ String ":" l) = Some (p, l).
Proof.
  unfold no_colon. induction p as [|a p IH]; simpl.
  - intros _. reflexivity.
  - rewrite ?append_cons. simpl. destruct (Ascii.eqb a ":"); [discriminate|].
    destruct (split_first ":" p) as [[]|] eqn:Hp; [discriminate|].
    intros _. rewrite IH by reflexivity. reflexivity.
Qed.

Lemma split_first_prefixed (p l : string) :
  no_colon p = true -> split_first ":" (p +:+ ":" +:+ l) = Some (p, l).
Proof. apply split_first_after. Qed.

Lemma startswith_split (p k : string) :
  no_colon p = true -> startswith (p +:+ ":") k = true ->
  exists r, split_first ":" k = Some (p, r).
Proof.
  unfold no_colon. revert k. induction p as [|a p IH]; intros k.
  - intros _. rewrite ?append_empty. destruct k as [|b k]; cbn [startswith split_first].
    + intros; discriminate.
    + destruct (Ascii.eqb ":" b) eqn:Hb; [|intros; discriminate].
      apply Ascii.eqb_eq in Hb as <-. rewrite Ascii.eqb_refl. eauto.
  - rewrite ?append_cons. cbn [startswith split_first].
    destruct (Ascii.eqb a ":") eqn:Ha; [intros; discriminate|].
    destruct (split_first ":" p) as [[]|] eqn:Hp; [intros; discriminate|]. intros _.
    destruct k as [|b k]; [intros; discriminate|].
    destruct (Ascii.eqb a b) eqn:Hab; [|intros; discriminate].
    apply Ascii.eqb_eq in Hab as <-. cbn [split_first]. rewrite Ha. intros Hk.
    destruct (IH k) as [r ->]; auto. eauto.
Qed.

Lemma is_declaration_inv (k v : string) :
  is_declaration (k, v) = true ->
  k = "xmlns" \/ exists r, split_first ":" k = Some ("xmlns", r).
Proof.
  unfold is_declaration, ns_declaration.
  destruct (String.eqb k "xmlns") eqn:Hk.
  - intros _. left. apply String.eqb_eq, Hk.
  - destruct (startswith "xmlns:" k) eqn:Hs; [|discriminate].
    intros _. right. apply (startswith_split "xmlns" k); [reflexivity | exact Hs].
Qed.

Lemma prefixed_not_declaration (p l v : string) :
  plain_prefix p = true -> is_declaration (p +:+ ":" +:+ l, v) = false.
Proof.
  unfold plain_prefix. intros Hp.
  apply andb_prop in Hp as [Hp Hx]. apply andb_prop in Hp as [_ Hc].
  destruct (is_declaration _) eqn:Hd; [|reflexivity].
  apply is_declaration_inv in Hd as [Heq|[r Hr]].
  - pose proof (split_first_prefixed p l Hc) as Hs. rewrite Heq in Hs. discriminate.
  - rewrite (split_first_prefixed p l Hc) in Hr. injection Hr as -> _. discriminate.
Qed.

Lemma braced_not_declaration (k v : string) :
  braced k = true -> is_declaration (k, v) = false.
Proof.
  intros Hb. destruct (is_declaration _) eqn:Hd; [|reflexivity].
  apply is_declaration_inv in Hd as [->|[r Hr]]; [discriminate|].
  apply split_first_spec in Hr. subst k. discriminate.
Qed.

Lemma substring_all (s : string) : String.substring 0 (String.length s) s = s.
Proof. induction s as [|a s IH]; simpl; [reflexivity|]. rewrite IH. reflexivity. Qed.

Lemma xmlns_attribute_declares (u p : string) :
  String.eqb p EmptyString = false ->
  ns_declaration (xmlns_attribute (u, p)) = Some (p, u).
Proof.
  intros Hp. unfold xmlns_attribute, ns_declaration. rewrite Hp.
  change ("xmlns:" +:+ p)
    with (String "x" (String "m" (String "l" (String "n" (String "s" (String ":" p)))))).
  simpl. rewrite Nat.sub_0_r, substring_all. reflexivity.
Qed.

(** The decimal numerals have no colon. *)
Lemma pretty_N_char_no_colon (x : N) : Ascii.eqb (pretty_N_char x) ":" = false.
Proof. unfold pretty_N_char. repeat case_match; reflexivity. Qed.

Lemma pretty_N_go_no_colon (x : N) (s : string) :
  no_colon s = true -> no_colon (pretty_N_go x s) = true.
Proof.
  revert s. induction (N.lt_wf_0 x) as [x _ IH]; intros s Hs.
  destruct (decide (x = 0)%N) as [->|Hx].
  - rewrite pretty_N_go_0. exact Hs.
  - rewrite pretty_N_go_step by lia.
    apply IH; [apply N.div_lt; lia|].
    unfold no_colon in *. cbn [split_first].
    rewrite pretty_N_char_no_colon.
    destruct (split_first ":" s) as [[]|]; [discriminate | reflexivity].
Qed.

Lemma pretty_nat_no_colon (k : nat) : no_colon (pretty k) = true.
Proof.
  unfold pretty, pretty_nat, pretty, pretty_N.
  case_decide; [reflexivity|]. apply pretty_N_go_no_colon. reflexivity.
Qed.

(** The prefixes the writer makes up are plain and are not [android]. *)
Lemma fresh_prefix_plain (k : nat) :
  plain_prefix ("ns" +:+ pretty k) = true /\ "ns" +:+ pretty k <> "android".
Proof.
  split; [|discriminate].
  unfold plain_prefix.
  change ("ns" +:+ pretty k) with (String "n" (String "s" (pretty k))).
  pose proof (pretty_nat_no_colon k) as Hk. unfold no_colon in *.
  cbn [split_first String.eqb Ascii.eqb Bool.eqb negb andb].
  destruct (split_first ":" (pretty k)) as [[]|]; [discriminate|]. reflexivity.
Qed.

Lemma dict_get_In (k v : string) (d : list (string * string)) :
  dict_get k d = Some v -> In (k, v) d.
Proof.
  induction d as [|[k' v'] d IH]; simpl; [discriminate|].
  destruct (String.eqb k' k) eqn:Hk.
  - intros [= ->]. apply String.eqb_eq in Hk as ->. left. reflexivity.
  - intros H. right. exact (IH H).
Qed.

Lemma dict_get_app (k : string) (d1 d2 : list (string * string)) :
  dict_get k (d1 ++ d2) =
    match dict_get k d1 with
    | Some v => Some v
    | None => dict_get k d2
    end.
Proof.
  induction d1 as [|[k' v'] d1 IH]; simpl; [reflexivity|].
  destruct (String.eqb k' k); [reflexivity | exact IH].
Qed.

(** Once [android] is registered over a registry of plain prefixes,
    every prefix is plain and [android] stands for the platform
    namespace only. *)
Lemma registered_prefix (m : list (string * string)) (u p : string) :
  plain_registry m = true ->
  dict_get u (registered m) = Some p ->
  plain_prefix p = true /\ (p = "android" -> u = android_uri).
Proof.
  intros Hm Hget. apply dict_get_In in Hget. unfold registered in Hget.
  apply in_app_or in Hget as [Hin|[[= <- <-]|[]]].
  - apply filter_In in Hin as [Hin Hkeep]. simpl in Hkeep.
    unfold plain_registry in Hm. rewrite forallb_forall in Hm.
    split; [exact (Hm _ Hin)|].
    intros ->. rewrite orb_true_r in Hkeep. discriminate.
  - split; [reflexivity|]. reflexivity.
Qed.

Lemma tables_ok_empty : tables_ok (Tables [] []).
Proof. split; simpl; [discriminate | tauto]. Qed.

Lemma choose_prefix_ok (m ns : list (string * string)) (uri : string) :
  plain_registry m = true ->
  (forall u p, In (u, p) ns -> plain_prefix p = true /\ (p = "android" -> u = android_uri)) ->
  plain_prefix (choose_prefix (registered m) ns uri).1 = true
  /\ forall u p, In (u, p) (choose_prefix (registered m) ns uri).2 ->
       plain_prefix p = true /\ (p = "android" -> u = android_uri).
Proof.
  intros Hm Hns. unfold choose_prefix.
  destruct (dict_get uri ns) as [p|] eqn:Hu; simpl.
  - split; [|exact Hns]. apply dict_get_In in Hu. apply (Hns _ _ Hu).
  - assert (plain_prefix
              match dict_get uri (registered m) with
              | Some p => p
              | None => "ns" +:+ pretty (length ns)
              end = true
            /\ (match dict_get uri (registered m) with
                | Some p => p
                | None => "ns" +:+ pretty (length ns)
                end = "android" -> uri = android_uri)) as [Hp Ha].
    { destruct (dict_get uri (registered m)) as [p|] eqn:Hr.
      - exact (registered_prefix m uri p Hm Hr).
      - destruct (fresh_prefix_plain (length ns)) as [Hp Hne].
        split; [exact Hp|]. intros Heq. destruct (Hne Heq). }
    split; [exact Hp|].
    destruct (String.eqb _ "xml"); [exact Hns|].
    intros u p Hin. apply in_app_or in Hin as [Hin|[[= <- <-]|[]]].
    + exact (Hns _ _ Hin).
    + split; [exact Hp | exact Ha].
Qed.

Lemma add_qname_ok (m : list (string * string)) (t t' : tables) (n : string) :
  plain_registry m = true ->
  tables_ok t ->
  dict_get n (qnames t) = None ->
  add_qname (registered m) t n = Ok t' ->
  tables_ok t'.
Proof.
  intros Hm [Hq Hns] Hnew. unfold add_qname. fold (braced n).
  destruct (braced n) eqn:Hb.
  - destruct (split_last "}" (drop_first n)) as [[uri local]|]; [|discriminate].
    destruct (choose_prefix_ok m (namespaces t) uri Hm Hns) as [Hplain Hns'].
    destruct (choose_prefix (registered m) (namespaces t) uri) as [prefix ns'].
    simpl in Hplain, Hns'.
    assert (String.eqb prefix EmptyString = false) as ->.
    { unfold plain_prefix in Hplain.
      destruct (String.eqb prefix EmptyString); [discriminate | reflexivity]. }
    intros [= <-]. split; simpl; [|exact Hns'].
    intros n' q. rewrite dict_get_app. simpl.
    destruct (dict_get n' (qnames t)) as [q'|] eqn:Hn'.
    + intros [= <-]. apply Hq. exact Hn'.
    + destruct (String.eqb n n') eqn:Hnn; [|discriminate].
      apply String.eqb_eq in Hnn as <-. intros [= <-]. rewrite Hb. eauto.
  - intros [= <-]. split; simpl; [|exact Hns].
    intros n' q. rewrite dict_get_app. simpl.
    destruct (dict_get n' (qnames t)) as [q'|] eqn:Hn'.
    + intros [= <-]. apply Hq. exact Hn'.
    + destruct (String.eqb n n') eqn:Hnn; [|discriminate].
      apply String.eqb_eq in Hnn as <-. intros [= <-]. rewrite Hb. reflexivity.
Qed.

Lemma note_names_ok (m : list (string * string)) (names : list string)
    (t t' : tables) :
  plain_registry m = true ->
  tables_ok t ->
  note_names (registered m) t names = Ok t' ->
  tables_ok t'.
Proof.
  intros Hm. revert t. induction names as [|n names IH]; intros t Ht; simpl.
  - intros [= <-]. exact Ht.
  - unfold note_name. destruct (dict_get n (qnames t)) as [q|] eqn:Hn.
    + apply IH. exact Ht.
    + destruct (add_qname (registered m) t n) as [t1|e] eqn:Hadd; [|discriminate].
      apply IH. exact (add_qname_ok m t t1 n Hm Ht Hn Hadd).
Qed.

Lemma collect_namespaces_ok (m : list (string * string)) (root : Element) (t : tables) :
  plain_registry m = true ->
  collect_namespaces (registered m) root = Ok t ->
  tables_ok t.
Proof.
  intros Hm. unfold collect_namespaces.
  apply note_names_ok; [exact Hm | exact tables_ok_empty].
Qed.

(** What a successful [resolve] says about its result. *)
Lemma resolve_inv (scope : list (string * string)) (e r : Element) :
  resolve scope e = Ok r ->
  resolve_name (omap ns_declaration (attrib e) ++ scope) false (tag e) = Ok (tag r)
  /\ resolve_attrs (omap ns_declaration (attrib e) ++ scope)
       (List.filter (fun kv => negb (is_declaration kv)) (attrib e)) = Ok (attrib r)
  /\ Forall2 (fun c c' => resolve (omap ns_declaration (attrib e) ++ scope) c = Ok c')
       (children e) (children r).
Proof.
  destruct e as [tg ats tx tl kids]. cbn [resolve tag attrib text tail children].
  destruct (existsb bad_declaration _); [discriminate|].
  destruct (resolve_name _ false tg) as [tg'|]; [|discriminate].
  destruct (resolve_attrs _ _) as [ats'|]; [|discriminate].
  destruct (has_dup _); [discriminate|].
  match goal with
  | |- match ?walk kids with _ => _ end = _ -> _ =>
      assert (forall l l', walk l = Ok l' ->
                Forall2 (fun c c' => resolve (omap ns_declaration ats ++ scope) c = Ok c') l l')
        as Hwalk;
      [|destruct (walk kids) as [kids'|] eqn:Hk; [|discriminate]]
  end.
  { induction l as [|c l IH]; intros l'.
    - intros [= <-]. constructor.
    - destruct (resolve _ c) as [c'|] eqn:Hc; [|discriminate].
      match goal with
      | |- match ?w with _ => _ end = _ -> _ => destruct w as [r'|] eqn:Hw; [|discriminate]
      end.
      intros [= <-]. constructor; [exact Hc | apply IH; reflexivity]. }
  intros [= <-]. simpl. auto.
Qed.

Lemma expanded_braced (uri local : string) : braced (expanded uri local) = true.
Proof. reflexivity. Qed.

Lemma resolve_attrs_ok (scope a r : list (string * string)) :
  Forall (fun kv => is_declaration kv = false) a ->
  resolve_attrs scope a = Ok r ->
  Forall attr_ok r.
Proof.
  intros Ha. revert r. induction Ha as [|[k v] a Hk Ha IH]; intros r; simpl.
  - intros [= <-]. constructor.
  - destruct (resolve_name scope true k) as [k'|] eqn:Hname; [|discriminate].
    destruct (resolve_attrs scope a) as [r'|]; [|discriminate].
    intros [= <-]. constructor; [|apply IH; reflexivity].
    unfold resolve_name in Hname.
    destruct (split_first ":" k) as [[p l]|] eqn:Hs.
    + destruct (dict_get p scope); [|discriminate].
      injection Hname as <-. left. apply expanded_braced.
    + injection Hname as <-. right. simpl. unfold no_colon. rewrite Hs. auto.
Qed.

(** The attributes of a parsed element and of its children are
    well-behaved. *)
Lemma resolve_attrs_of_result (scope : list (string * string)) (e r : Element) :
  resolve scope e = Ok r -> Forall attr_ok (attrib r).
Proof.
  intros Hr. apply resolve_inv in Hr as (_ & Ha & _).
  eapply resolve_attrs_ok; [|exact Ha].
  apply List.Forall_forall. intros kv Hin. apply filter_In in Hin as [_ Hkeep].
  destruct (is_declaration kv); [discriminate | reflexivity].
Qed.

Lemma resolve_attrs_of_children (scope : list (string * string)) (e r : Element) :
  resolve scope e = Ok r ->
  Forall (fun c => Forall attr_ok (attrib c)) (children r).
Proof.
  intros Hr. apply resolve_inv in Hr as (_ & _ & Hkids).
  induction Hkids as [|c c' l l' Hc _ IH]; constructor; [|exact IH].
  exact (resolve_attrs_of_result _ _ _ Hc).
Qed.

(** How names are written under well-behaved tables. *)
Lemma written_name_unbraced (t : tables) (n : string) :
  tables_ok t -> braced n = false -> written_name t n = n.
Proof.
  intros [Hq _] Hb. unfold written_name.
  destruct (dict_get n (qnames t)) as [q|] eqn:Hn; [|reflexivity].
  specialize (Hq n q Hn). rewrite Hb in Hq. exact Hq.
Qed.

Lemma written_name_braced (t : tables) (n : string) :
  tables_ok t -> braced n = true ->
  written_name t n = n
  \/ exists p l, written_name t n = p +:+ ":" +:+ l /\ plain_prefix p = true.
Proof.
  intros [Hq _] Hb. unfold written_name.
  destruct (dict_get n (qnames t)) as [q|] eqn:Hn; [|left; reflexivity].
  specialize (Hq n q Hn). rewrite Hb in Hq. right. exact Hq.
Qed.

Lemma written_attr_inert (t : tables) (kv : string * string) :
  tables_ok t -> attr_ok kv -> ns_declaration (written_name t kv.1, kv.2) = None.
Proof.
  intros Ht Hok. destruct kv as [k v]. cbn [fst snd].
  assert (is_declaration (written_name t k, v) = false) as Hd.
  { destruct (braced k) eqn:Hb.
    - destruct (written_name_braced t k Ht Hb) as [->|(p & l & -> & Hp)].
      + apply braced_not_declaration, Hb.
      + apply prefixed_not_declaration, Hp.
    - rewrite (written_name_unbraced t k Ht Hb).
      destruct Hok as [Hb'|[_ Hd]]; [simpl in Hb'; congruence | exact Hd]. }
  unfold is_declaration in Hd.
  destruct (ns_declaration _); [discriminate | reflexivity].
Qed.

Lemma omap_cons_None {A B : Type} (f : A -> option B) (x : A) (l : list A) :
  f x = None -> omap f (x :: l) = omap f l.
Proof. intros H. change (omap f (x :: l)) with (from_option (fun y => y :: omap f l) (omap f l) (f x)).
  rewrite H. reflexivity. Qed.

Lemma written_attrs_declare_nothing (t : tables) (a : list (string * string)) :
  tables_ok t -> Forall attr_ok a ->
  omap ns_declaration (map (fun kv => (written_name t kv.1, kv.2)) a) = [].
Proof.
  intros Ht Ha. induction Ha as [|kv a Hkv _ IH]; [reflexivity|].
  rewrite map_cons, omap_cons_None; [exact IH|].
  exact (written_attr_inert t kv Ht Hkv).
Qed.

Lemma serialize_xml_attrib (t : tables) (e : Element) :
  attrib (serialize_xml t e) = map (fun kv => (written_name t kv.1, kv.2)) (attrib e).
Proof. destruct e; reflexivity. Qed.

Lemma serialize_xml_tag (t : tables) (e : Element) :
  tag (serialize_xml t e) = written_name t (tag e).
Proof. destruct e; reflexivity. Qed.

Lemma serialize_xml_children (t : tables) (e : Element) :
  children (serialize_xml t e) = map (serialize_xml t) (children e).
Proof. destruct e; reflexivity. Qed.

(** Scopes. *)
Lemma scope_ok_extend (decls scope : list (string * string)) :
  scope_ok scope ->
  (forall p u, In (p, u) decls ->
     String.eqb p EmptyString = false /\ (p = "android" -> u = android_uri)) ->
  scope_ok (decls ++ scope).
Proof.
  intros [Hdef Handroid] Hdecls. split.
  - rewrite dict_get_app.
    destruct (dict_get EmptyString decls) as [u|] eqn:Hu; [|exact Hdef].
    apply dict_get_In, Hdecls in Hu as [Hu _]. discriminate.
  - intros u. rewrite dict_get_app.
    destruct (dict_get "android" decls) as [u'|] eqn:Hu; [|apply Handroid].
    intros [= <-]. apply dict_get_In, Hdecls in Hu as [_ Hu]. apply Hu. reflexivity.
Qed.

Lemma insert_by_prefix_In (d x : string * string) (l : list (string * string)) :
  In x (insert_by_prefix d l) -> x = d \/ In x l.
Proof.
  induction l as [|d' l IH]; simpl.
  - intros [<-|[]]. left. reflexivity.
  - destruct (String.ltb d.2 d'.2); simpl.
    + intros [<-|[<-|H]]; auto.
    + intros [<-|H]; [auto|]. destruct (IH H); auto.
Qed.

Lemma sorted_by_prefix_In (x : string * string) (l : list (string * string)) :
  In x (sorted_by_prefix l) -> In x l.
Proof.
  unfold sorted_by_prefix.
  assert (forall acc, In x (fold_left (fun acc d => insert_by_prefix d acc) l acc) ->
                      In x acc \/ In x l) as H.
  { induction l as [|d l IH]; intros acc; simpl; [auto|].
    intros Hin. destruct (IH _ Hin) as [Hacc|Hl]; [|auto].
    destruct (insert_by_prefix_In _ _ _ Hacc); auto. }
  intros Hin. destruct (H [] Hin) as [[]|Hl]. exact Hl.
Qed.

(** The scope in which the children of the written document element are
    parsed. *)
Lemma document_scope_ok (t : tables) (root : Element) :
  tables_ok t -> Forall attr_ok (attrib root) ->
  scope_ok (omap ns_declaration (attrib (serialize_document t root))
              ++ [("xml", xml_uri)]).
Proof.
  intros Ht Ha. apply scope_ok_extend.
  - split; [reflexivity|]. simpl. discriminate.
  - intros p u Hin. unfold serialize_document in Hin. cbn [attrib] in Hin.
    rewrite omap_app, serialize_xml_attrib,
      (written_attrs_declare_nothing t _ Ht Ha), app_nil_r in Hin.
    apply list_elem_of_In, list_elem_of_omap in Hin as ([k v] & Hkv & Hdecl).
    apply list_elem_of_In, in_map_iff in Hkv as ([u' p'] & Hx & Hin).
    apply sorted_by_prefix_In in Hin.
    destruct Ht as [_ Hns]. destruct (Hns u' p' Hin) as [Hplain Handroid].
    assert (String.eqb p' EmptyString = false) as Hne.
    { unfold plain_prefix in Hplain.
      destruct (String.eqb p' EmptyString); [discriminate | reflexivity]. }
    rewrite <- Hx, (xmlns_attribute_declares u' p' Hne) in Hdecl.
    injection Hdecl as <- <-. auto.
Qed.

(** An element with well-behaved attributes adds nothing to the scope
    when it is read back. *)
Lemma written_scope (t : tables) (scope : list (string * string)) (c : Element) :
  tables_ok t -> Forall attr_ok (attrib c) ->
  omap ns_declaration (attrib (serialize_xml t c)) ++ scope = scope.
Proof.
  intros Ht Ha.
  rewrite serialize_xml_attrib, (written_attrs_declare_nothing t _ Ht Ha). reflexivity.
Qed.

Lemma braced_not_application (n : string) :
  braced n = true -> String.eqb n "application" = false.
Proof.
  intros Hb. destruct (String.eqb n "application") eqn:Hn; [|reflexivity].
  apply String.eqb_eq in Hn. subst n. discriminate.
Qed.

(** Reading back the written tag of an element gives [application]
    exactly when the element's own tag is [application]. *)
Lemma written_tag_application (t : tables) (scope : list (string * string))
    (n n' : string) :
  tables_ok t -> scope_ok scope ->
  resolve_name scope false (written_name t n) = Ok n' ->
  String.eqb n' "application" = String.eqb n "application".
Proof.
  intros Ht [Hdef _] Hname.
  assert (forall q, resolve_name scope false q = Ok n' ->
            (braced n' = true /\ (braced q = true \/ no_colon q = false))
            \/ (n' = q /\ no_colon q = true)) as Hres.
  { intros q. unfold resolve_name, no_colon.
    destruct (split_first ":" q) as [[p l]|] eqn:Hs.
    - destruct (dict_get p scope); [|discriminate].
      intros [= <-]. left. split; [apply expanded_braced | right; reflexivity].
    - rewrite Hdef. intros [= <-]. right. auto. }
  destruct (braced n) eqn:Hb.
  - rewrite (braced_not_application n Hb).
    destruct (written_name_braced t n Ht Hb) as [Hw|(p & l & Hw & Hp)];
      rewrite Hw in Hname; destruct (Hres _ Hname) as [[Hb' _]|[-> Hc]].
    + apply braced_not_application, Hb'.
    + apply braced_not_application, Hb.
    + apply braced_not_application, Hb'.
    + exfalso. unfold plain_prefix in Hp.
      apply andb_prop in Hp as [Hp _]. apply andb_prop in Hp as [_ Hp].
      unfold no_colon in Hc. rewrite (split_first_prefixed p l Hp) in Hc. discriminate.
  - rewrite (written_name_unbraced t n Ht Hb) in Hname.
    destruct (Hres _ Hname) as [[Hb' [Hq|Hq]]|[-> _]]; [congruence| |reflexivity].
    rewrite (braced_not_application n' Hb'). symmetry.
    destruct (String.eqb n "application") eqn:Hn; [|reflexivity].
    apply String.eqb_eq in Hn. subst n. discriminate.
Qed.

(** The first [application] among the elements read back comes from the
    first [application] among the elements written. *)
Lemma find_read_back (t : tables) (scope : list (string * string))
    (kids kids2 : list Element) (y : Element) :
  tables_ok t -> scope_ok scope ->
  Forall (fun c => Forall attr_ok (attrib c)) kids ->
  Forall2 (fun c c' => resolve scope (serialize_xml t c) = Ok c') kids kids2 ->
  List.find (fun c => String.eqb (tag c) "application") kids2 = Some y ->
  exists c,
    List.find (fun c => String.eqb (tag c) "application") kids = Some c
    /\ Forall attr_ok (attrib c)
    /\ resolve scope (serialize_xml t c) = Ok y.
Proof.
  intros Ht Hscope Hok Hall. revert Hok.
  induction Hall as [|c c' l l' Hc _ IH]; intros Hok; simpl; [discriminate|].
  apply Forall_cons in Hok as [Hattrs Hok].
  pose proof Hc as Hinv. apply resolve_inv in Hinv as (Htag & _ & _).
  rewrite (written_scope t scope c Ht Hattrs), serialize_xml_tag in Htag.
  rewrite (written_tag_application t scope _ _ Ht Hscope Htag).
  destruct (String.eqb (tag c) "application").
  - intros [= <-]. eauto.
  - intros Hfind. exact (IH Hok Hfind).
Qed.

Lemma find_update_first (f : Element -> Element) (l : list Element) :
  (forall c, tag (f c) = tag c) ->
  List.find (fun c => String.eqb (tag c) "application") (update_first "application" f l)
  = option_map f (List.find (fun c => String.eqb (tag c) "application") l).
Proof.
  intros Hf. induction l as [|c l IH]; simpl; [reflexivity|].
  destruct (String.eqb (tag c) "application") eqn:Hc; simpl.
  - rewrite Hf, Hc. reflexivity.
  - rewrite Hc. exact IH.
Qed.

Lemma Forall_update_first (P : Element -> Prop) (f : Element -> Element)
    (l : list Element) :
  (forall c, P c -> P (f c)) -> Forall P l -> Forall P (update_first "application" f l).
Proof.
  intros Hf Hl. induction Hl as [|c l Hc Hl IH]; simpl; [constructor|].
  destruct (String.eqb (tag c) "application"); constructor; auto.
Qed.

(** The new provider element is written as it was built, and read back
    with its name under the platform namespace. *)
Lemma serialize_provider_element (t : tables) :
  tables_ok t -> serialize_xml t provider_element = provider_element.
Proof.
  intros Ht. unfold provider_element, provider_attribs, meta_data_attribs.
  cbn [serialize_xml map tag attrib text tail children fst snd].
  rewrite !(written_name_unbraced t _ Ht) by reflexivity. reflexivity.
Qed.

Lemma resolve_provider_element (scope : list (string * string)) (y : Element) :
  scope_ok scope ->
  resolve scope provider_element = Ok y ->
  tag y = "provider" /\ get y (expanded android_uri "name") = Some provider_name.
Proof.
  intros [Hdef Handroid] Hy. apply resolve_inv in Hy as (Htag & Hattrs & _).
  change (omap ns_declaration (attrib provider_element) ++ scope) with scope in *.
  split.
  - unfold resolve_name in Htag. cbn [provider_element tag] in Htag.
    change (split_first ":" "provider") with (@None (string * string)) in Htag.
    cbv iota in Htag. rewrite Hdef in Htag. injection Htag as <-. reflexivity.
  - change (List.filter _ (attrib provider_element)) with provider_attribs in Hattrs.
    unfold provider_attribs in Hattrs. cbn [resolve_attrs] in Hattrs.
    unfold resolve_name at 1 in Hattrs.
    change (split_first ":" "android:name") with (Some ("android", "name")) in Hattrs.
    cbv iota beta in Hattrs.
    destruct (dict_get "android" scope) as [u|] eqn:Hu; [|discriminate].
    rewrite (Handroid u eq_refl) in Hattrs.
    match type of Hattrs with
    | match ?rest with _ => _ end = _ => destruct rest as [r|]; [|discriminate]
    end.
    injection Hattrs as Hattrs. unfold get. rewrite <- Hattrs. cbn [dict_get].
    rewrite String.eqb_refl. reflexivity.
Qed.

(** If the second run gets to inspect an application element, the
    provider is declared in it. *)
Lemma read_back_provider_declared (m : list (string * string))
    (scope0 : list (string * string)) (doc root root2 application_tag app2 : Element)
    (t : tables) :
  plain_registry m = true ->
  resolve scope0 doc = Ok root ->
  find root "application" = Some application_tag ->
  collect_namespaces (registered m)
    (update_found root "application" (fun a => append a provider_element)) = Ok t ->
  resolve_document
    (serialize_document t
       (update_found root "application" (fun a => append a provider_element))) = Ok root2 ->
  find root2 "application" = Some app2 ->
  provider_declared app2 = true.
Proof.
  intros Hm Hroot Hfind Ht Hroot2 Hfind2.
  apply collect_namespaces_ok in Ht; [|exact Hm].
  pose proof (resolve_attrs_of_result _ _ _ Hroot) as Hroot_attrs.
  pose proof (resolve_attrs_of_children _ _ _ Hroot) as Hkids_attrs.
  set (root' := update_found root "application" (fun a => append a provider_element)) in *.
  assert (attrib root' = attrib root) as Hattrib by reflexivity.
  pose proof (document_scope_ok t root' Ht) as Hscope.
  rewrite Hattrib in Hscope. specialize (Hscope Hroot_attrs).
  apply resolve_inv in Hroot2 as (_ & _ & Hkids2).
  set (scope1 := omap ns_declaration (attrib (serialize_document t root'))
                   ++ [("xml", xml_uri)]) in *.
  unfold serialize_document in Hkids2. cbn [children] in Hkids2.
  rewrite serialize_xml_children in Hkids2. apply Forall2_fmap_l in Hkids2.
  assert (Forall (fun c => Forall attr_ok (attrib c)) (children root')) as Hkids'.
  { apply Forall_update_first; [|exact Hkids_attrs]. intros c Hc. exact Hc. }
  destruct (find_read_back t scope1 (children root') (children root2) app2
              Ht Hscope Hkids' Hkids2 Hfind2) as (c & Hc & Hc_attrs & Hread).
  unfold root', update_found in Hc. cbn [children] in Hc.
  rewrite find_update_first in Hc by reflexivity.
  unfold find in Hfind. rewrite Hfind in Hc. injection Hc as <-.
  apply resolve_inv in Hread as (_ & _ & Happ_kids).
  rewrite (written_scope t scope1 _ Ht Hc_attrs) in Happ_kids.
  rewrite serialize_xml_children in Happ_kids. cbn [append children] in Happ_kids.
  rewrite map_app in Happ_kids. cbn [map] in Happ_kids.
  apply Forall2_app_inv_l in Happ_kids as (k1 & k2 & _ & Hlast & Hsplit).
  apply Forall2_cons_inv_l in Hlast as (p2 & k3 & Hp2 & _ & ->).
  rewrite (serialize_provider_element t Ht) in Hp2.
  destruct (resolve_provider_element scope1 p2 Hscope Hp2) as [Htag Hname].
  unfold provider_declared. apply existsb_exists. exists p2. split.
  - unfold findall. apply filter_In. split.
    + rewrite Hsplit. apply in_or_app. right. left. reflexivity.
    + rewrite Htag. reflexivity.
  - rewrite Hname. apply String.eqb_refl.
Qed.

Lemma add_provider_no_document (base_folder : string) (w : World) :
  (forall prolog doc, fs w !! manifest_path base_folder <> Some (File (XmlDoc prolog doc))) ->
  exists e, add_provider_to_manifest base_folder w = (at_manifest w, Raise e).
Proof.
  intros Hfile.
  unfold add_provider_to_manifest. fold (manifest_path base_folder).
  unfold ET_parse, ET_register_namespace. unfold_monad. simpl.
  destruct (fs w !! manifest_path base_folder) as [[[b|prolog doc]|]|] eqn:Hlookup;
    try (eexists; reflexivity).
  destruct (Hfile prolog doc eq_refl).
Qed.

(** The file system after [add_provider_to_manifest] when it does not
    reach [tree.write]. *)
Lemma add_provider_skips (base_folder : string) (w : World) (prolog : string)
    (doc root : Element) :
  fs w !! manifest_path base_folder = Some (File (XmlDoc prolog doc)) ->
  resolve_document doc = Ok root ->
  match find root "application" with
  | None => True
  | Some application_tag => provider_declared application_tag = true
  end ->
  fs (add_provider_to_manifest base_folder w).1 = fs w.
Proof.
  intros Hfile Hdoc Hskip.
  rewrite (add_provider_parsed base_folder w prolog doc root Hfile Hdoc).
  destruct (find root "application") as [application_tag|]; [|reflexivity].
  rewrite Hskip. reflexivity.
Qed.

(** Whatever the manifest, under a registry of plain prefixes a second
    run of [add_provider_to_manifest] leaves the file system as the
    first run left it: no second provider is ever written. *)
Theorem second_run_writes_nothing (base_folder : string) (w : World) :
  plain_registry (namespace_map w) = true ->
  fs (add_provider_to_manifest base_folder
        (add_provider_to_manifest base_folder w).1).1
  = fs (add_provider_to_manifest base_folder w).1.
Proof.
  intros Hm.
  assert (forall w0 : World,
            (forall prolog doc,
               fs w0 !! manifest_path base_folder <> Some (File (XmlDoc prolog doc))) ->
            fs (add_provider_to_manifest base_folder w0).1 = fs w0) as Hnone.
  { intros w0 H0. destruct (add_provider_no_document base_folder w0 H0) as [e ->].
    reflexivity. }
  assert (forall (w0 : World) prolog doc e,
            fs w0 !! manifest_path base_folder = Some (File (XmlDoc prolog doc)) ->
            resolve_document doc = Raise e ->
            fs (add_provider_to_manifest base_folder w0).1 = fs w0) as Hbad.
  { intros w0 prolog doc e H0 He.
    rewrite (add_provider_unparsed base_folder w0 prolog doc e H0 He). reflexivity. }
  destruct (fs w !! manifest_path base_folder) as [[[b|prolog doc]|]|] eqn:Hfile.
  - assert (fs (add_provider_to_manifest base_folder w).1 = fs w) as H1.
    { apply Hnone. intros ? ?. rewrite Hfile. discriminate. }
    rewrite Hnone; [reflexivity|]. intros ? ?. rewrite H1, Hfile. discriminate.
  - destruct (resolve_document doc) as [root|e] eqn:Hdoc.
    + destruct (find root "application") as [application_tag|] eqn:Hfind.
      * destruct (provider_declared application_tag) eqn:Hdecl.
        -- assert (fs (add_provider_to_manifest base_folder w).1 = fs w) as H1.
           { apply (add_provider_skips base_folder w prolog doc root Hfile Hdoc).
             rewrite Hfind. exact Hdecl. }
           rewrite (add_provider_skips base_folder _ prolog doc root);
             [reflexivity | rewrite H1; exact Hfile | exact Hdoc |].
           rewrite Hfind. exact Hdecl.
        -- pose proof (add_provider_parsed base_folder w prolog doc root Hfile Hdoc)
             as Hrun.
           rewrite Hfind, Hdecl in Hrun.
           unfold ET_write, at_manifest in Hrun.
           unfold bind, get_fs, put_fs, raise, print in Hrun.
           cbn [fs namespace_map] in Hrun. rewrite Hfile in Hrun.
           cbn beta iota in Hrun. cbn [fs namespace_map console procs] in Hrun.
           destruct (collect_namespaces (registered (namespace_map w))
                       (update_found root "application"
                          (fun a => append a provider_element))) as [t|e] eqn:Ht.
           ++ rewrite Hrun. cbn [fst fs].
              match goal with
              | |- fs (add_provider_to_manifest _ ?w1).1 = _ => set (w1' := w1)
              end.
              assert (fs w1' !! manifest_path base_folder
                      = Some (File (XmlDoc xml_declaration
                                      (serialize_document t
                                         (update_found root "application"
                                            (fun a => append a provider_element))))))
                as Hfile1 by apply lookup_insert_eq.
              destruct (resolve_document
                          (serialize_document t
                             (update_found root "application"
                                (fun a => append a provider_element))))
                as [root2|e] eqn:Hdoc2.
              ** apply (add_provider_skips base_folder w1' _ _ root2 Hfile1 Hdoc2).
                 destruct (find root2 "application") as [app2|] eqn:Hfind2; [|exact I].
                 exact (read_back_provider_declared (namespace_map w) _ doc root root2
                          application_tag app2 t Hm Hdoc Hfind Ht Hdoc2 Hfind2).
              ** exact (Hbad w1' _ _ e Hfile1 Hdoc2).
           ++ rewrite Hrun. cbn [fst fs]. apply Hnone.
              intros ? ?. cbn [fs]. rewrite lookup_insert_eq. discriminate.
      * assert (fs (add_provider_to_manifest base_folder w).1 = fs w) as H1.
        { apply (add_provider_skips base_folder w prolog doc root Hfile Hdoc).
          rewrite Hfind. exact I. }
        rewrite (add_provider_skips base_folder _ prolog doc root);
          [reflexivity | rewrite H1; exact Hfile | exact Hdoc |].
        rewrite Hfind. exact I.
    + assert (fs (add_provider_to_manifest base_folder w).1 = fs w) as H1.
      { exact (Hbad w prolog doc e Hfile Hdoc). }
      rewrite (Hbad _ prolog doc e); [reflexivity | rewrite H1; exact Hfile | exact Hdoc].
  - assert (fs (add_provider_to_manifest base_folder w).1 = fs w) as H1.
    { apply Hnone. intros ? ?. rewrite Hfile. discriminate. }
    rewrite Hnone; [reflexivity|]. intros ? ?. rewrite H1, Hfile. discriminate.
  - assert (fs (add_provider_to_manifest base_folder w).1 = fs w) as H1.
    { apply Hnone. intros ? ?. rewrite Hfile. discriminate. }
    rewrite Hnone; [reflexivity|]. intros ? ?. rewrite H1, Hfile. discriminate.
Qed.

(** * Further properties of the stages *)

(** ** Running a command *)

(** [run_command] starts the command once and leaves the file system as
    the process left it; it returns normally exactly when the process
    completes with status zero, and when the process completes with
    another status it raises [RuntimeError] with the caller's message, a
    colon and the captured standard error. *)
Theorem run_command_outcome (tools : Subprocess) (command : list string)
    (error_message : string) (w : World) :
  procs (run_command tools command error_message w).1 = procs w ++ [command]
  /\ fs (run_command tools command error_message w).1 = (tools command (fs w)).1
  /\ ((run_command tools command error_message w).2 = Ok tt
        <-> exists c, (tools command (fs w)).2 = Ok c /\ returncode c = 0%Z)
  /\ (forall c, (tools command (fs w)).2 = Ok c -> returncode c <> 0%Z ->
        (run_command tools command error_message w).2
          = Raise (RuntimeError (error_message +:+ ": " +:+ stderr c))
        /\ last (console (run_command tools command error_message w).1)
             = Some ("Command failed! Stderr: " +:+ stderr c)).
Proof.
  unfold run_command, subprocess_run. unfold_monad. simpl.
  destruct (tools command (fs w)) as [f [c|e]]; simpl.
  - destruct (returncode c =? 0)%Z eqn:Hcode; simpl.
    + apply Z.eqb_eq in Hcode.
      split; [reflexivity|]. split; [reflexivity|]. split.
      * split; [eauto | reflexivity].
      * intros c' [= <-] Hne. congruence.
    + apply Z.eqb_neq in Hcode.
      split; [reflexivity|]. split; [reflexivity|]. split.
      * split; [discriminate|]. intros (c' & [= <-] & Hzero). congruence.
      * intros c' [= <-] _. split; [reflexivity | apply last_snoc].
  - split; [reflexivity|]. split; [reflexivity|]. split.
    + split; [discriminate|]. intros (c' & Hc' & _). discriminate.
    + discriminate.
Qed.

(** ** The order of the processes *)

Lemma silent_ret {A : Type} (a : A) : silent (ret a).
Proof. intros w. reflexivity. Qed.

Lemma silent_raise {A : Type} (e : exn) : silent (@raise A e).
Proof. intros w. reflexivity. Qed.

Lemma silent_print (line : string) : silent (print line).
Proof. intros w. reflexivity. Qed.

Lemma silent_get_fs : silent get_fs.
Proof. intros w. reflexivity. Qed.

Lemma silent_put_fs (f : gmap string node) : silent (put_fs f).
Proof. intros w. reflexivity. Qed.

Lemma silent_bind {A B : Type} (m : M A) (k : A -> M B) :
  silent m -> (forall a, silent (k a)) -> silent (bind m k).
Proof.
  intros Hm Hk w. unfold bind. specialize (Hm w).
  destruct (m w) as [w1 [a|e]]; simpl in *; [|exact Hm].
  rewrite (Hk a w1). exact Hm.
Qed.

Create HintDb silent.
#[local] Hint Resolve silent_ret silent_raise silent_print silent_get_fs silent_put_fs
  : silent.

Ltac prove_silent :=
  repeat first
    [ solve [auto with silent]
    | apply silent_bind; [|intros ?]
    | match goal with
      | |- silent (match ?x with _ => _ end) => destruct x
      | |- silent (if ?b then _ else _) => destruct b
      end ].

Lemma silent_os_path_exists (p : string) : silent (os_path_exists p).
Proof. unfold os_path_exists. prove_silent. Qed.

Lemma silent_os_rename (src dst : string) : silent (os_rename src dst).
Proof. unfold os_rename. prove_silent. Qed.

Lemma silent_os_makedirs (path : string) : silent (os_makedirs path).
Proof.
  intros w. unfold os_makedirs. destruct (makedirs_along _ _ _). reflexivity.
Qed.

Lemma silent_write_file (path : string) (c : content) : silent (write_file path c).
Proof. unfold write_file. prove_silent. Qed.

#[local] Hint Resolve silent_os_path_exists silent_os_rename silent_os_makedirs
  silent_write_file : silent.

Lemma silent_shutil_copytree (src dst : string) : silent (shutil_copytree src dst).
Proof. unfold shutil_copytree. prove_silent. Qed.

#[local] Hint Resolve silent_shutil_copytree : silent.

Lemma silent_merge_apks (base_folder split_folder : string) :
  silent (merge_apks base_folder split_folder).
Proof. unfold merge_apks. prove_silent. Qed.

Lemma silent_create_provider_paths (base_folder : string) :
  silent (create_provider_paths base_folder).
Proof. unfold create_provider_paths. prove_silent. Qed.

Lemma silent_finalize_apk (directory name : string) :
  silent (finalize_apk directory name).
Proof. unfold finalize_apk. prove_silent. Qed.

Lemma silent_ET_register_namespace (prefix uri : string) :
  silent (ET_register_namespace prefix uri).
Proof.
  intros w. unfold ET_register_namespace.
  destruct (register_namespace_in _ _ _); reflexivity.
Qed.

Lemma silent_ET_parse (path : string) : silent (ET_parse path).
Proof. unfold ET_parse. prove_silent. Qed.

Lemma silent_ET_write (root : Element) (path : string) : silent (ET_write root path).
Proof.
  intros w. unfold ET_write. unfold_monad.
  destruct (fs w !! path) as [[c|]|]; simpl;
    try destruct (collect_namespaces _ _); reflexivity.
Qed.

#[local] Hint Resolve silent_ET_register_namespace silent_ET_parse silent_ET_write
  : silent.

Lemma silent_add_provider_to_manifest (base_folder : string) :
  silent (add_provider_to_manifest base_folder).
Proof. unfold add_provider_to_manifest. prove_silent. Qed.

#[local] Hint Resolve silent_merge_apks silent_create_provider_paths
  silent_finalize_apk silent_add_provider_to_manifest : silent.

Lemma starts_of_silent {A : Type} (m : M A) : silent m -> starts [] (fun _ => True) m.
Proof.
  intros Hm w. exists []. split; [reflexivity|]. split.
  - rewrite app_nil_r. apply Hm.
  - auto.
Qed.

Lemma starts_ret {A : Type} (P : A -> Prop) (a : A) : P a -> starts [] P (ret a).
Proof.
  intros Ha w. exists []. split; [reflexivity|]. split.
  - simpl. rewrite app_nil_r. reflexivity.
  - simpl. intros a' [= <-]. auto.
Qed.

Lemma starts_bind {A B : Type} (c1 c2 : list (list string))
    (P : A -> Prop) (Q : B -> Prop) (m : M A) (k : A -> M B) :
  starts c1 P m -> (forall a, P a -> starts c2 Q (k a)) -> starts (c1 ++ c2) Q (bind m k).
Proof.
  intros Hm Hk w. destruct (Hm w) as (s1 & Hpre1 & Hprocs1 & Hok1). unfold bind.
  destruct (m w) as [w1 [a|e]]; simpl in *.
  - destruct (Hok1 a eq_refl) as [-> HP].
    destruct (Hk a HP w1) as (s2 & Hpre2 & Hprocs2 & Hok2).
    exists (c1 ++ s2). split; [apply prefix_app, Hpre2|]. split.
    + rewrite Hprocs2, Hprocs1, app_assoc. reflexivity.
    + intros b Hb. destruct (Hok2 b Hb) as [-> HQ]. auto.
  - exists s1. split; [apply prefix_app_r, Hpre1|]. split; [exact Hprocs1|].
    discriminate.
Qed.

Lemma starts_run_command (tools : Subprocess) (command : list string) (msg : string) :
  starts [command] (fun _ => True) (run_command tools command msg).
Proof.
  intros w. exists [command]. split; [reflexivity|]. split; [|auto].
  unfold run_command, subprocess_run. unfold_monad. simpl.
  destruct (tools command (fs w)) as [f [c|e]]; simpl; [|reflexivity].
  destruct (returncode c =? 0)%Z; reflexivity.
Qed.

Ltac starts_step tools :=
  match goal with
  | |- starts _ _ (bind (run_command tools ?c _) _) =>
      apply (starts_bind [c] _ (fun _ => True));
      [apply starts_run_command | intros ? _]
  | |- starts _ _ (bind _ _) =>
      apply (starts_bind [] _ (fun _ => True));
      [apply starts_of_silent | intros ? _]
  | |- starts _ _ (run_command tools ?c _) => apply starts_run_command
  | |- starts _ _ (if ?b then _ else _) => destruct b
  end.

Lemma starts_setup_environment (tools : Subprocess) (keystore_url : string) :
  starts (setup_commands keystore_url) (fun k => k = "debug.keystore")
         (setup_environment tools keystore_url).
Proof.
  unfold setup_environment, setup_commands.
  repeat (starts_step tools; try solve [prove_silent]).
  apply starts_ret. reflexivity.
Qed.

Lemma starts_download_and_decompile (tools : Subprocess) (base_apk split_apk : string) :
  starts (decompile_commands base_apk split_apk) (fun d => d = ("base", "split"))
         (download_and_decompile tools base_apk split_apk).
Proof.
  unfold download_and_decompile, decompile_commands.
  repeat (starts_step tools; try solve [prove_silent]).
  apply starts_ret. reflexivity.
Qed.

Lemma starts_modify_files (tools : Subprocess) (url base_folder : string) :
  starts [download_command url (primary_path base_folder)] (fun _ => True)
         (modify_files tools url base_folder).
Proof.
  unfold modify_files, download_command, primary_path.
  starts_step tools; [prove_silent|].
  starts_step tools; [prove_silent|].
  starts_step tools; [prove_silent|].
  starts_step tools.
  apply starts_of_silent. prove_silent.
Qed.

Lemma starts_recompile_and_sign (tools : Subprocess)
    (base_folder output_dir keystore_path : string) :
  starts [recompile_command base_folder output_dir;
          sign_command output_dir keystore_path] (fun _ => True)
         (recompile_and_sign tools base_folder output_dir keystore_path).
Proof.
  unfold recompile_and_sign, recompile_command, sign_command.
  starts_step tools; [prove_silent|].
  starts_step tools.
  starts_step tools; [prove_silent|].
  starts_step tools; [prove_silent|].
  starts_step tools.
  apply starts_of_silent. prove_silent.
Qed.

Lemma starts_pipeline (tools : Subprocess) (args : Args) :
  starts (planned_commands args) (fun _ => True) (pipeline tools args).
Proof.
  unfold pipeline, planned_commands.
  apply (starts_bind _ _ _ _ _ _ (starts_setup_environment tools _)).
  intros keystore_path ->.
  apply (starts_bind _ _ _ _ _ _ (starts_download_and_decompile tools _ _)).
  intros dirs ->. cbv beta iota.
  apply (starts_bind [] _ (fun _ => True));
    [apply starts_of_silent, silent_merge_apks | intros ? _].
  apply (starts_bind [] _ (fun _ => True));
    [apply starts_of_silent, silent_create_provider_paths | intros ? _].
  apply (starts_bind [] _ (fun _ => True));
    [apply starts_of_silent, silent_add_provider_to_manifest | intros ? _].
  apply (starts_bind [_] _ _ _ _ _ (starts_modify_files tools _ _)). intros ? _.
  apply (starts_bind [_; _] _ _ _ _ _ (starts_recompile_and_sign tools _ _ _)).
  intros ? _.
  apply (starts_bind [] _ (fun _ => True));
    [apply starts_of_silent, silent_finalize_apk | intros ? _].
  apply starts_of_silent, silent_print.
Qed.


(** ** A successful run *)

Lemma bind_ok_inv {A B : Type} (m : M A) (k : A -> M B) (w w' : World) (b : B) :
  bind m k w = (w', Ok b) ->
  exists w1 a, m w = (w1, Ok a) /\ k a w1 = (w', Ok b).
Proof.
  unfold bind. destruct (m w) as [w1 [a|e]]; [eauto | discriminate].
Qed.

Lemma substring_none (n : nat) (s : string) : String.substring n 0 s = EmptyString.
Proof.
  revert n. induction s as [|c s IH]; intros [|n]; simpl; auto.
Qed.

Lemma append_empty_r (s : string) : s +:+ EmptyString = s.
Proof. induction s as [|c s IH]; [reflexivity|]. rewrite append_cons, IH. reflexivity. Qed.

Lemma rebase_root (src dst : string) : rebase src dst src = dst.
Proof. unfold rebase. rewrite Nat.sub_diag, substring_none. apply append_empty_r. Qed.

(** After a successful [os.rename] the destination exists. *)
Lemma os_rename_ok_destination (src dst : string) (w w' : World) :
  os_rename src dst w = (w', Ok tt) -> is_Some (fs w' !! dst).
Proof.
  unfold os_rename. unfold_monad. simpl.
  destruct (fs w !! src) as [[c|]|] eqn:Hsrc; [| |discriminate].
  - destruct (fs w !! dst) as [[c'|]|]; try discriminate;
      intros [= <-]; simpl; rewrite lookup_insert_eq; eauto.
  - assert (String.eqb src dst = true \/ String.eqb src dst = false) as [Heq|Hne]
      by (destruct (String.eqb src dst); auto).
    + apply String.eqb_eq in Heq as <-. rewrite Hsrc, String.eqb_refl.
      intros [= <-]. rewrite Hsrc. eauto.
    + rewrite Hne.
      assert (is_Some (move_tree src dst (fs w) !! dst)) as Hmoved.
      { unfold move_tree. apply lookup_union_is_Some. left.
        destruct (list_to_map _ !! dst) as [n|] eqn:Hn; [eauto|].
        apply not_elem_of_list_to_map_2 in Hn. destruct Hn.
        apply list_elem_of_fmap. exists (dst, Dir). split; [reflexivity|].
        apply list_elem_of_fmap. exists (src, Dir). split.
        - simpl. rewrite rebase_root. reflexivity.
        - apply elem_of_map_to_list, map_lookup_filter_Some. split; [exact Hsrc|].
          simpl. rewrite String.eqb_refl. exact I. }
      destruct (fs w !! dst) as [[c'|]|]; try discriminate;
        destruct (inside src dst); try discriminate;
        destruct (has_entries dst (fs w)); try discriminate;
        intros [= <-]; exact Hmoved.
Qed.

(** When [finalize_apk] returns, the final path exists. *)
Lemma finalize_apk_ok_destination (directory name : string) (w w' : World) :
  finalize_apk directory name w = (w', Ok tt) ->
  is_Some (fs w' !! path_join directory name).
Proof.
  unfold finalize_apk. intros H.
  apply bind_ok_inv in H as (w1 & [] & _ & H).
  apply bind_ok_inv in H as (w2 & found & _ & H).
  apply bind_ok_inv in H as (w3 & [] & _ & H).
  apply bind_ok_inv in H as (w4 & [] & Hrename & H).
  apply bind_ok_inv in H as (w5 & [] & Hp1 & Hp2).
  apply os_rename_ok_destination in Hrename.
  unfold print in Hp1, Hp2. injection Hp1 as <-. injection Hp2 as <-. exact Hrename.
Qed.


(** ** The manifest patch and the rest of the tree *)

(** [add_provider_to_manifest] touches nothing but the manifest: every
    other entry of the file system is as before, whatever the outcome,
    and no process is started. *)
Theorem add_provider_touches_only_manifest (base_folder : string) (w : World) :
  (forall p, p <> manifest_path base_folder ->
     fs (add_provider_to_manifest base_folder w).1 !! p = fs w !! p)
  /\ procs (add_provider_to_manifest base_folder w).1 = procs w.
Proof.
  split; [|apply silent_add_provider_to_manifest].
  intros p Hp.
  unfold add_provider_to_manifest. fold (manifest_path base_folder).
  run_script.
  destruct (fs w !! manifest_path base_folder) as [[[b|prolog doc]|]|] eqn:Hfile;
    try reflexivity.
  destruct (resolve_document doc) as [root|e]; [|reflexivity]. simpl.
  destruct (find root "application") as [application_tag|]; [|reflexivity].
  destruct (provider_declared application_tag); [reflexivity|]. simpl.
  rewrite Hfile.
  destruct (collect_namespaces _ _) as [t|e]; simpl;
    rewrite lookup_insert_ne by congruence; reflexivity.
Qed.

Lemma note_names_raises (registry : list (string * string)) (names : list string)
    (t : tables) (e : exn) :
  note_names registry t names = Raise e -> exists m, e = ValueError m.
Proof.
  revert t. induction names as [|n names IH]; intros t; simpl; [discriminate|].
  unfold note_name. destruct (dict_get n (qnames t)); [apply IH|].
  destruct (add_qname registry t n) as [t'|e'] eqn:Hadd; [apply IH|].
  intros [= <-]. unfold add_qname in Hadd.
  destruct (startswith "{" n); [|discriminate].
  destruct (split_last "}" (drop_first n)) as [[uri local]|].
  - destruct (choose_prefix _ _ _) as [prefix ns'].
    destruct (String.eqb prefix EmptyString); discriminate.
  - injection Hadd as <-. eauto.
Qed.

(** A failure of [add_provider_to_manifest] leaves the file system as it
    was, unless it is a [ValueError] from inside [tree.write]; a missing
    manifest is reported by [FileNotFoundError] with the path, a
    manifest that is not XML by [ParseError]. *)
Theorem manifest_failures_change_nothing (base_folder : string) (w : World) :
  (forall e, (add_provider_to_manifest base_folder w).2 = Raise e ->
     (forall m, e <> ValueError m) ->
     fs (add_provider_to_manifest base_folder w).1 = fs w)
  /\ (fs w !! manifest_path base_folder = None ->
        (add_provider_to_manifest base_folder w).2
          = Raise (FileNotFoundError ("[Errno 2] No such file or directory: "
                                        +:+ quoted (manifest_path base_folder))))
  /\ (forall bytes, fs w !! manifest_path base_folder = Some (File (Blob bytes)) ->
        exists m, (add_provider_to_manifest base_folder w).2 = Raise (ParseError m)).
Proof.
  unfold add_provider_to_manifest. fold (manifest_path base_folder).
  run_script.
  destruct (fs w !! manifest_path base_folder) as [[[b|prolog doc]|]|] eqn:Hfile;
    simpl.
  - split; [reflexivity|]. split; [discriminate | eauto].
  - split; [|split; discriminate].
    destruct (resolve_document doc) as [root|e0]; [|reflexivity]. simpl.
    destruct (find root "application") as [application_tag|]; [|reflexivity].
    destruct (provider_declared application_tag); [reflexivity|]. simpl.
    rewrite Hfile.
    destruct (collect_namespaces _ _) as [t|e0] eqn:Ht; simpl; [discriminate|].
    intros e [= <-] Hne.
    apply note_names_raises in Ht as [m ->]. destruct (Hne m eq_refl).
  - split; [reflexivity|]. split; discriminate.
  - split; [reflexivity|]. split; [reflexivity | discriminate].
Qed.

(** ** Inserting the provider, in any manifest *)

Lemma written_name_eqb (t : tables) (n target : string) :
  tables_ok t -> braced target = false -> no_colon target = true ->
  String.eqb (written_name t n) target = String.eqb n target.
Proof.
  intros Ht Hb Hc. destruct (braced n) eqn:Hn.
  - assert (String.eqb n target = false) as ->.
    { destruct (String.eqb n target) eqn:He; [|reflexivity].
      apply String.eqb_eq in He. congruence. }
    destruct (written_name_braced t n Ht Hn) as [->|(p & l & -> & Hp)].
    + destruct (String.eqb n target) eqn:He; [|reflexivity].
      apply String.eqb_eq in He. congruence.
    + destruct (String.eqb _ target) eqn:He; [|reflexivity].
      apply String.eqb_eq in He. subst target.
      unfold plain_prefix in Hp. apply andb_prop in Hp as [Hp _].
      apply andb_prop in Hp as [_ Hp].
      unfold no_colon in Hc. rewrite (split_first_prefixed p l Hp) in Hc. discriminate.
  - rewrite (written_name_unbraced t n Ht Hn). reflexivity.
Qed.

Lemma filter_written (t : tables) (target : string) (l : list Element) :
  tables_ok t -> braced target = false -> no_colon target = true ->
  List.filter (fun c => String.eqb (tag c) target) (map (serialize_xml t) l)
  = map (serialize_xml t) (List.filter (fun c => String.eqb (tag c) target) l).
Proof.
  intros Ht Hb Hc. induction l as [|c l IH]; [reflexivity|]. simpl.
  rewrite serialize_xml_tag, (written_name_eqb t _ target Ht Hb Hc).
  destruct (String.eqb (tag c) target); simpl; rewrite IH; reflexivity.
Qed.

Lemma find_written (t : tables) (target : string) (l : list Element) :
  tables_ok t -> braced target = false -> no_colon target = true ->
  List.find (fun c => String.eqb (tag c) target) (map (serialize_xml t) l)
  = option_map (serialize_xml t) (List.find (fun c => String.eqb (tag c) target) l).
Proof.
  intros Ht Hb Hc. induction l as [|c l IH]; [reflexivity|]. simpl.
  rewrite serialize_xml_tag, (written_name_eqb t _ target Ht Hb Hc).
  destruct (String.eqb (tag c) target); [reflexivity | exact IH].
Qed.

(** Whatever the manifest: when its first application element does not
    declare the provider and the patch returns normally (under a
    registry of plain prefixes), the document written to the manifest
    has, in its first application element, the former children in their
    order followed by the new provider element as last child; the number
    of its provider children has grown by exactly one. *)
Theorem provider_inserted_in_any_manifest (base_folder : string) (w w' : World)
    (prolog : string) (doc root application_tag : Element) :
  plain_registry (namespace_map w) = true ->
  fs w !! manifest_path base_folder = Some (File (XmlDoc prolog doc)) ->
  resolve_document doc = Ok root ->
  find root "application" = Some application_tag ->
  provider_declared application_tag = false ->
  add_provider_to_manifest base_folder w = (w', Ok tt) ->
  exists t written written_application,
    fs w' !! manifest_path base_folder = Some (File (XmlDoc xml_declaration written))
    /\ find written "application" = Some written_application
    /\ children written_application
         = map (serialize_xml t) (children application_tag) ++ [provider_element]
    /\ last (children written_application) = Some provider_element
    /\ length (findall written_application "provider")
         = S (length (findall application_tag "provider")).
Proof.
  intros Hm Hfile Hdoc Hfind Hdecl Hrun.
  rewrite (add_provider_parsed base_folder w prolog doc root Hfile Hdoc) in Hrun.
  rewrite Hfind, Hdecl in Hrun.
  unfold ET_write, at_manifest in Hrun. unfold bind, get_fs, put_fs, raise, print in Hrun.
  cbn [fs namespace_map] in Hrun. rewrite Hfile in Hrun.
  cbn beta iota in Hrun. cbn [fs namespace_map console procs] in Hrun.
  destruct (collect_namespaces (registered (namespace_map w))
              (update_found root "application" (fun a => append a provider_element)))
    as [t|e] eqn:Ht; [|discriminate].
  injection Hrun as <-.
  pose proof (collect_namespaces_ok _ _ _ Hm Ht) as Hok.
  destruct (provider_appended_last root application_tag Hfind) as (Hfound & _ & _).
  exists t, (serialize_document t
               (update_found root "application" (fun a => append a provider_element))),
    (serialize_xml t (append application_tag provider_element)).
  split; [cbn [fs]; apply lookup_insert_eq|].
  split.
  { unfold find, serialize_document. cbn [children].
    rewrite serialize_xml_children, (find_written t "application" _ Hok) by reflexivity.
    unfold find in Hfound. rewrite Hfound. reflexivity. }
  assert (children (serialize_xml t (append application_tag provider_element))
          = map (serialize_xml t) (children application_tag) ++ [provider_element])
    as Hkids.
  { rewrite serialize_xml_children. cbn [append children].
    rewrite map_app. cbn [map]. rewrite (serialize_provider_element t Hok). reflexivity. }
  split; [exact Hkids|]. split; [rewrite Hkids; apply last_snoc|].
  unfold findall. rewrite Hkids, List.filter_app, (filter_written t "provider" _ Hok)
    by reflexivity.
  rewrite length_app, length_map. simpl. lia.
Qed.

(** ** Substitution when the download fails *)

(** When the library is a regular file and the download fails (touching
    nothing but its output file), [modify_files] raises [RuntimeError]
    with the download's standard error after the rename: the original
    content is at the backup path, the library path holds what the
    download left there, and nothing is put back. *)
Theorem failed_download_keeps_original
    (tools : Subprocess) (url base_folder : string) (A : content) (w : World) :
  fs w !! primary_path base_folder = Some (File A) ->
  fs w !! backup_path base_folder <> Some Dir ->
  writes_only tools url (primary_path base_folder) ->
  download_fails tools url (primary_path base_folder) ->
  exists w' c,
    modify_files tools url base_folder w
      = (w', Raise (RuntimeError ("Failed to download modded libmain.so: " +:+ stderr c)))
    /\ fs w' !! backup_path base_folder = Some (File A)
    /\ fs w' !! primary_path base_folder
         = (tools (download_command url (primary_path base_folder))
                  (<[backup_path base_folder := File A]>
                     (delete (primary_path base_folder) (fs w)))).1
             !! primary_path base_folder
    /\ procs w' = procs w ++ [download_command url (primary_path base_folder)].
Proof.
  intros HA Hback Hframe Hfails.
  destruct (modify_files_existing tools url base_folder A w HA Hback)
    as (w1 & Hfs & Hprocs & ->).
  specialize (Hframe (fs w1) (backup_path base_folder)
                (not_eq_sym (primary_backup_distinct base_folder))).
  destruct (Hfails (fs w1)) as (c & Hc & Hcode).
  apply Z.eqb_neq in Hcode.
  unfold run_command, subprocess_run. unfold_monad. simpl.
  destruct (tools (download_command url (primary_path base_folder)) (fs w1))
    as [f r] eqn:Htool.
  simpl in *. subst r. rewrite Hcode. simpl.
  eexists _, c. split; [reflexivity|]. simpl.
  split; [rewrite Hframe, Hfs; apply lookup_insert_eq|].
  split; [rewrite <- Hfs, Htool; reflexivity|].
  rewrite Hprocs. reflexivity.
Qed.

(** ** Recompiling and signing: the three outcomes *)

(** [recompile_and_sign] returns normally when the recompiler completes
    with status zero, the keystore then exists and the signer completes
    with status zero: both were started, in this order, and the file
    system is as the signer left it.  When the recompiler completes with
    another status the stage raises [RuntimeError] at once: the signer
    is not started.  When the signer completes with another status the
    stage raises [RuntimeError] with the signer's standard error. *)
Theorem recompile_and_sign_outcomes
    (tools : Subprocess) (base_folder output_dir keystore_path : string) (w : World)
    (f1 : gmap string node) (c1 : CompletedProcess) :
  tools (recompile_command base_folder output_dir) (fs w) = (f1, Ok c1) ->
  (returncode c1 <> 0%Z ->
     exists w',
       recompile_and_sign tools base_folder output_dir keystore_path w
         = (w', Raise (RuntimeError ("Failed to recompile base APK: " +:+ stderr c1)))
       /\ procs w' = procs w ++ [recompile_command base_folder output_dir]
       /\ fs w' = f1)
  /\ (forall f2 c2,
        returncode c1 = 0%Z ->
        f1 !! keystore_path <> None ->
        tools (sign_command output_dir keystore_path) f1 = (f2, Ok c2) ->
        exists w',
          recompile_and_sign tools base_folder output_dir keystore_path w
            = (w', if (returncode c2 =? 0)%Z then Ok tt
                   else Raise (RuntimeError
                                 ("Failed to sign base APK with custom debug.keystore: "
                                    +:+ stderr c2)))
          /\ procs w' = procs w ++ [recompile_command base_folder output_dir;
                                    sign_command output_dir keystore_path]
          /\ fs w' = f2).
Proof.
  intros Htool.
  unfold recompile_and_sign, run_command, subprocess_run.
  fold (recompile_command base_folder output_dir) (sign_command output_dir keystore_path).
  run_script. rewrite Htool. simpl. split.
  - intros Hcode. apply Z.eqb_neq in Hcode. rewrite Hcode. simpl.
    eexists. split; [reflexivity|]. simpl. auto.
  - intros f2 c2 Hzero Hks Hsign. rewrite Hzero. simpl.
    destruct (f1 !! keystore_path) as [n|]; [|congruence]. simpl.
    rewrite Hsign. simpl.
    destruct (returncode c2 =? 0)%Z; simpl;
      (eexists; split; [reflexivity|]; simpl; rewrite <- app_assoc; auto).
Qed.

(** ** The resource file *)

Lemma append_assoc (a b c : string) : (a +:+ b) +:+ c = a +:+ (b +:+ c).
Proof.
  induction a as [|x a IH]; [reflexivity|]. rewrite !append_cons, IH. reflexivity.
Qed.

Lemma append_nonempty (a : string) (c : ascii) (s : string) :
  String.eqb (a +:+ String c s) EmptyString = false.
Proof. destruct a; reflexivity. Qed.

Lemma ends_with_slash_cons (c : ascii) (s : string) :
  s <> EmptyString -> ends_with_slash (String c s) = ends_with_slash s.
Proof. destruct s; [congruence | reflexivity]. Qed.

Lemma ends_with_slash_append (a b : string) :
  b <> EmptyString -> ends_with_slash (a +:+ b) = ends_with_slash b.
Proof.
  intros Hb. induction a as [|x a IH]; [reflexivity|].
  rewrite append_cons, ends_with_slash_cons; [exact IH|].
  destruct a; [rewrite append_empty; exact Hb | discriminate].
Qed.

Lemma ancestors_from_cons (acc : string) (c : ascii) (rest : string) :
  ancestors_from acc (String c rest)
  = if Ascii.eqb c "/"
    then (if String.eqb acc EmptyString then [] else [acc])
           ++ ancestors_from (acc +:+ "/") rest
    else ancestors_from (acc +:+ String c EmptyString) rest.
Proof. reflexivity. Qed.

(** The last directory [os.makedirs] visits is the path itself. *)
Lemma ancestors_from_last (rest acc : string) :
  rest <> EmptyString -> ends_with_slash rest = false ->
  last (ancestors_from acc rest) = Some (acc +:+ rest).
Proof.
  revert acc. induction rest as [|c rest IH]; intros acc Hne Hslash; [congruence|].
  rewrite ancestors_from_cons.
  destruct (decide (rest = EmptyString)) as [->|Hrest].
  - simpl in Hslash. rewrite Hslash. cbn [ancestors_from].
    rewrite append_nonempty. reflexivity.
  - rewrite ends_with_slash_cons in Hslash by exact Hrest.
    destruct (Ascii.eqb c "/") eqn:Hc.
    + apply Ascii.eqb_eq in Hc as ->.
      rewrite last_app, (IH (acc +:+ "/") Hrest Hslash).
      rewrite append_assoc. reflexivity.
    + rewrite (IH (acc +:+ String c EmptyString) Hrest Hslash).
      rewrite append_assoc. reflexivity.
Qed.

Lemma ancestors_last (p : string) :
  p <> EmptyString -> ends_with_slash p = false -> last (ancestors p) = Some p.
Proof. intros Hne Hslash. exact (ancestors_from_last p EmptyString Hne Hslash). Qed.

(** A relative component stays at the end of the joined path. *)
Lemma path_join_tail (a b : string) :
  startswith "/" b = false -> exists z, path_join a b = z +:+ b.
Proof.
  intros Hb. unfold path_join. rewrite Hb.
  destruct (_ || _)%bool; [exists a; reflexivity|].
  exists (a +:+ "/"). rewrite append_assoc. reflexivity.
Qed.

Lemma xml_dir_path_shape (base_folder : string) :
  xml_dir_path base_folder <> EmptyString
  /\ ends_with_slash (xml_dir_path base_folder) = false.
Proof.
  unfold xml_dir_path.
  destruct (path_join_tail (path_join base_folder "res") "xml" eq_refl) as [z ->].
  split.
  - destruct z; discriminate.
  - rewrite ends_with_slash_append by discriminate. reflexivity.
Qed.

Lemma provider_paths_path_below (base_folder : string) :
  provider_paths_path base_folder
    = xml_dir_path base_folder +:+ "/provider_paths.xml"
  /\ provider_paths_path base_folder <> xml_dir_path base_folder.
Proof.
  destruct (xml_dir_path_shape base_folder) as [Hne Hslash].
  assert (provider_paths_path base_folder
          = xml_dir_path base_folder +:+ "/provider_paths.xml") as Heq.
  { unfold provider_paths_path, path_join at 1. simpl startswith. cbv iota.
    rewrite Hslash.
    destruct (String.eqb (xml_dir_path base_folder) EmptyString) eqn:He;
      [apply String.eqb_eq in He; congruence | reflexivity]. }
  split; [exact Heq|]. rewrite Heq. intros H.
  rewrite <- (append_empty_r (xml_dir_path base_folder)) in H at 2.
  apply (inj (String.app _)) in H. discriminate.
Qed.

(** [os.makedirs]: what the walk along the ancestors does. *)
Lemma makedirs_along_last (ps : list string) (parent : option node)
    (f f' : gmap string node) (p : string) :
  makedirs_along parent ps f = (f', Ok tt) -> last ps = Some p -> f' !! p = Some Dir.
Proof.
  revert parent f. induction ps as [|q ps IH]; intros parent f; [discriminate|].
  cbn [makedirs_along].
  destruct (f !! q) as [n|] eqn:Hq.
  - destruct ps as [|q' ps'].
    + destruct n; [discriminate|]. intros [= <-] [= <-]. exact Hq.
    + intros Hrun Hlast. apply (IH _ _ Hrun). exact Hlast.
  - destruct parent as [[c|]|]; try discriminate.
    all: destruct ps as [|q' ps'];
      [ intros [= <-] [= <-]; apply lookup_insert_eq
      | intros Hrun Hlast; apply (IH _ _ Hrun); exact Hlast ].
Qed.

Lemma makedirs_along_keeps (ps : list string) (parent : option node)
    (f f' : gmap string node) (r : result unit) (q : string) (n : node) :
  makedirs_along parent ps f = (f', r) -> f !! q = Some n -> f' !! q = Some n.
Proof.
  revert parent f. induction ps as [|p ps IH]; intros parent f.
  - intros [= <- _]. auto.
  - cbn [makedirs_along]. destruct (f !! p) as [n'|] eqn:Hp.
    + destruct ps as [|p' ps'].
      * destruct n'; intros [= <- _]; auto.
      * intros Hrun Hq. exact (IH _ _ Hrun Hq).
    + assert (makedirs_along (Some Dir) ps (<[p:=Dir]> f) = (f', r) ->
              f !! q = Some n -> f' !! q = Some n) as Hstep.
      { intros Hrun Hq. apply (IH _ _ Hrun).
        rewrite lookup_insert_ne; [exact Hq | congruence]. }
      destruct parent as [[c|]|]; [intros [= <- _]; auto | exact Hstep..].
Qed.

Lemma makedirs_along_frame (ps : list string) (parent : option node)
    (f f' : gmap string node) (r : result unit) (q : string) :
  makedirs_along parent ps f = (f', r) -> ~ In q ps -> f' !! q = f !! q.
Proof.
  revert parent f. induction ps as [|p ps IH]; intros parent f.
  - intros [= <- _]. auto.
  - cbn [makedirs_along]. intros Hrun Hq.
    assert (p <> q /\ ~ In q ps) as [Hpq Hps] by (simpl in Hq; tauto).
    destruct (f !! p) as [n'|] eqn:Hp.
    + destruct ps as [|p' ps'].
      * destruct n'; injection Hrun as <- _; reflexivity.
      * exact (IH _ _ Hrun Hps).
    + assert (makedirs_along (Some Dir) ps (<[p:=Dir]> f) = (f', r) ->
              f' !! q = f !! q) as Hstep.
      { intros Hg. rewrite (IH _ _ Hg Hps). apply lookup_insert_ne, Hpq. }
      destruct parent as [[c|]|];
        [injection Hrun as <- _; reflexivity | exact (Hstep Hrun)..].
Qed.

Lemma makedirs_along_made (ps : list string) (parent : option node)
    (f f' : gmap string node) (p : string) :
  makedirs_along parent ps f = (f', Ok tt) -> In p ps -> is_Some (f' !! p).
Proof.
  revert parent f. induction ps as [|q ps IH]; intros parent f; [intros _ []|].
  intros Hrun [->|Hin].
  - cbn [makedirs_along] in Hrun. destruct (f !! p) as [n|] eqn:Hp.
    + exists n. destruct ps as [|q' ps'].
      * destruct n; [discriminate|]. injection Hrun as <-. exact Hp.
      * exact (makedirs_along_keeps _ _ _ _ _ _ _ Hrun Hp).
    + exists Dir.
      destruct parent as [[c|]|]; try discriminate;
        apply (makedirs_along_keeps _ _ _ _ _ _ _ Hrun), lookup_insert_eq.
  - cbn [makedirs_along] in Hrun. destruct (f !! q) as [n|] eqn:Hq.
    + destruct ps as [|q' ps']; [destruct Hin|]. exact (IH _ _ Hrun Hin).
    + destruct parent as [[c|]|]; try discriminate; exact (IH _ _ Hrun Hin).
Qed.

Lemma makedirs_along_nothing_to_do (ps : list string) (parent : option node)
    (f : gmap string node) :
  (forall p, In p ps -> is_Some (f !! p)) ->
  (forall p, last ps = Some p -> f !! p = Some Dir) ->
  makedirs_along parent ps f = (f, Ok tt).
Proof.
  revert parent. induction ps as [|q ps IH]; intros parent Hall Hlast; [reflexivity|].
  cbn [makedirs_along].
  destruct (Hall q (or_introl eq_refl)) as [n Hq]. rewrite Hq.
  destruct ps as [|q' ps'].
  - rewrite (Hlast q eq_refl) in Hq. injection Hq as <-. reflexivity.
  - apply IH.
    + intros p Hp. apply Hall. right. exact Hp.
    + intros p Hp. apply Hlast. exact Hp.
Qed.

(** [create_provider_paths] in terms of its two calls. *)
Lemma create_provider_paths_ok_inv (base_folder : string) (w w' : World) :
  create_provider_paths base_folder w = (w', Ok tt) ->
  exists f0,
    makedirs_along None (ancestors (xml_dir_path base_folder)) (fs w) = (f0, Ok tt)
    /\ f0 !! provider_paths_path base_folder <> Some Dir
    /\ fs w' = <[provider_paths_path base_folder := File provider_paths_content]> f0
    /\ procs w' = procs w
    /\ console w' = console w ++ [ "Creating FileProvider paths XML...";
                                   "Created " +:+ provider_paths_path base_folder;
                                   dashes ].
Proof.
  unfold create_provider_paths.
  fold (xml_dir_path base_folder) (provider_paths_path base_folder).
  unfold os_makedirs, write_file. unfold_monad. cbn [fs console procs namespace_map].
  destruct (makedirs_along None (ancestors (xml_dir_path base_folder)) (fs w))
    as [f0 [[]|e]]; [|discriminate].
  cbn [fs console procs namespace_map].
  destruct (f0 !! provider_paths_path base_folder) as [[c|]|] eqn:Hp;
    cbn [fs console procs namespace_map]; try discriminate;
    intros [= <-]; exists f0; cbn [fs console procs];
    rewrite <- !app_assoc; repeat split; congruence.
Qed.

(** When [create_provider_paths] returns, the resource directory exists,
    [provider_paths.xml] in it holds the fixed document, every entry
    that existed elsewhere is as it was, and nothing is changed outside
    the resource file and the directories on the way to it; no process
    is started. *)
Theorem create_provider_paths_result (base_folder : string) (w w' : World) :
  create_provider_paths base_folder w = (w', Ok tt) ->
  fs w' !! provider_paths_path base_folder = Some (File provider_paths_content)
  /\ fs w' !! xml_dir_path base_folder = Some Dir
  /\ (forall q n, q <> provider_paths_path base_folder ->
        fs w !! q = Some n -> fs w' !! q = Some n)
  /\ (forall q, q <> provider_paths_path base_folder ->
        ~ In q (ancestors (xml_dir_path base_folder)) ->
        fs w' !! q = fs w !! q)
  /\ procs w' = procs w.
Proof.
  intros Hrun.
  apply create_provider_paths_ok_inv in Hrun as (f0 & Hmk & _ & Hfs & Hprocs & _).
  destruct (xml_dir_path_shape base_folder) as [Hne Hslash].
  destruct (provider_paths_path_below base_folder) as [_ Hdistinct].
  rewrite Hfs. split; [apply lookup_insert_eq|]. split.
  { rewrite lookup_insert_ne by exact Hdistinct.
    exact (makedirs_along_last _ _ _ _ _ Hmk (ancestors_last _ Hne Hslash)). }
  split.
  { intros q n Hq Hn. rewrite lookup_insert_ne by congruence.
    exact (makedirs_along_keeps _ _ _ _ _ _ _ Hmk Hn). }
  split; [|exact Hprocs].
  intros q Hq Hout. rewrite lookup_insert_ne by congruence.
  exact (makedirs_along_frame _ _ _ _ _ _ Hmk Hout).
Qed.

(** [create_provider_paths] can be repeated: after a run that returned,
    a second run returns too and leaves the file system as it is. *)
Theorem create_provider_paths_twice (base_folder : string) (w w1 : World) :
  create_provider_paths base_folder w = (w1, Ok tt) ->
  exists w2,
    create_provider_paths base_folder w1 = (w2, Ok tt) /\ fs w2 = fs w1.
Proof.
  intros Hrun.
  apply create_provider_paths_ok_inv in Hrun as (f0 & Hmk & _ & Hfs & _ & _).
  destruct (xml_dir_path_shape base_folder) as [Hne Hslash].
  destruct (provider_paths_path_below base_folder) as [_ Hdistinct].
  assert (makedirs_along None (ancestors (xml_dir_path base_folder)) (fs w1)
          = (fs w1, Ok tt)) as Hagain.
  { apply makedirs_along_nothing_to_do.
    - intros p Hp. rewrite Hfs.
      destruct (decide (provider_paths_path base_folder = p)) as [<-|Hpp].
      + rewrite lookup_insert_eq. eauto.
      + rewrite lookup_insert_ne by exact Hpp.
        exact (makedirs_along_made _ _ _ _ _ Hmk Hp).
    - intros p Hp. rewrite (ancestors_last _ Hne Hslash) in Hp. injection Hp as <-.
      rewrite Hfs, lookup_insert_ne by exact Hdistinct.
      exact (makedirs_along_last _ _ _ _ _ Hmk (ancestors_last _ Hne Hslash)). }
  unfold create_provider_paths.
  fold (xml_dir_path base_folder) (provider_paths_path base_folder).
  unfold os_makedirs, write_file. unfold_monad. cbn [fs console procs namespace_map].
  assert (fs w1 !! provider_paths_path base_folder = Some (File provider_paths_content))
    as Hthere by (rewrite Hfs; apply lookup_insert_eq).
  rewrite Hagain. cbn [fs console procs namespace_map].
  rewrite Hthere. cbn [fs console procs namespace_map].
  eexists. split; [reflexivity|]. cbn [fs].
  apply insert_id, Hthere.
Qed.

(** ** Merging the split tree *)

Lemma startswith_append (a b : string) : startswith a (a +:+ b) = true.
Proof.
  induction a as [|x a IH]; [reflexivity|].
  rewrite append_cons. cbn [startswith]. rewrite Ascii.eqb_refl. exact IH.
Qed.

Lemma startswith_drop (p k : string) :
  startswith p k = true ->
  k = p +:+ String.substring (String.length p) (String.length k - String.length p) k.
Proof.
  revert k. induction p as [|a p IH]; intros k.
  - intros _. cbn [String.length]. rewrite Nat.sub_0_r, substring_all. reflexivity.
  - destruct k as [|b k]; cbn [startswith]; [discriminate|].
    destruct (Ascii.eqb a b) eqn:Hab; [|discriminate].
    apply Ascii.eqb_eq in Hab as <-. intros Hk.
    rewrite append_cons. cbn [String.length Nat.sub String.substring].
    f_equal. exact (IH k Hk).
Qed.

Lemma length_with_slash (s : string) : String.length (s +:+ "/") = S (String.length s).
Proof. induction s as [|c s IH]; [reflexivity|]. rewrite append_cons. simpl. auto. Qed.

(** An entry inside a directory is the directory, a slash and the
    relative path. *)
Lemma relative_inside (src k : string) :
  inside src k = true -> k = src +:+ "/" +:+ relative src k.
Proof.
  unfold inside, relative. intros H. apply andb_prop in H as [H _].
  apply startswith_drop in H. rewrite length_with_slash, append_assoc in H. exact H.
Qed.

Lemma inside_below (src rel : string) :
  rel <> EmptyString -> inside src (src +:+ "/" +:+ rel) = true.
Proof.
  intros Hrel. unfold inside. rewrite <- append_assoc, startswith_append. simpl.
  destruct (String.eqb _ _) eqn:He; [|reflexivity].
  apply String.eqb_eq in He.
  rewrite <- (append_empty_r (src +:+ "/")) in He at 2.
  apply (inj (String.app _)) in He. congruence.
Qed.

Lemma relative_below (src rel : string) :
  rel <> EmptyString -> relative src (src +:+ "/" +:+ rel) = rel.
Proof.
  intros Hrel. pose proof (relative_inside src _ (inside_below src rel Hrel)) as H.
  apply (inj (String.app _)), (inj (String.app _)) in H. symmetry. exact H.
Qed.

(** An entry is copied to its target and nowhere else. *)
Lemma copy_entry_other (f0 : gmap string node) (src dst p : string)
    (kv : string * node) (acc : gmap string node * nat) :
  dst +:+ "/" +:+ relative src kv.1 <> p ->
  (copy_entry f0 src dst kv acc).1 !! p = acc.1 !! p.
Proof.
  intros Hne. unfold copy_entry.
  destruct (blocked f0 dst (relative src kv.1)); [reflexivity|].
  destruct kv.2 as [c|]; destruct (f0 !! _) as [[c'|]|]; cbn [fst];
    rewrite ?lookup_insert_ne by exact Hne; reflexivity.
Qed.

(** The target of an entry lies below the destination. *)
Lemma copy_entry_frame (f0 : gmap string node) (src dst p : string)
    (kv : string * node) (acc : gmap string node * nat) :
  startswith (dst +:+ "/") p = false ->
  (copy_entry f0 src dst kv acc).1 !! p = acc.1 !! p.
Proof.
  intros Hp. apply copy_entry_other.
  intros <-. rewrite <- append_assoc, startswith_append in Hp. discriminate.
Qed.

Lemma copy_fold_frame (f0 : gmap string node) (src dst p : string)
    (entries : list (string * node)) (acc : gmap string node * nat) :
  startswith (dst +:+ "/") p = false ->
  (foldr (copy_entry f0 src dst) acc entries).1 !! p = acc.1 !! p.
Proof.
  intros Hp. induction entries as [|kv entries IH]; [reflexivity|].
  cbn [foldr]. rewrite copy_entry_frame by exact Hp. exact IH.
Qed.

(** [shutil_copytree] once the source is known to be a directory. *)
Lemma shutil_copytree_directory (src dst : string) (w : World) :
  fs w !! src = Some Dir ->
  fs (shutil_copytree src dst w).1
  = match makedirs_along None (ancestors dst) (fs w) with
    | (f0, Ok _) =>
        (foldr (copy_entry f0 src dst) (f0, 0)
               (map_to_list (filter (fun kv => Is_true (inside src kv.1)) f0))).1
    | (f0, Raise _) => f0
    end.
Proof.
  intros Hsrc. unfold shutil_copytree, os_makedirs. unfold_monad.
  cbn [fs console procs namespace_map]. rewrite Hsrc.
  destruct (makedirs_along None (ancestors dst) (fs w)) as [f0 [[]|e]];
    cbn [fs console procs namespace_map fst snd]; [|reflexivity].
  destruct (foldr _ _ _).2; reflexivity.
Qed.

Lemma shutil_copytree_frame (src dst p : string) (w : World) :
  ~ In p (ancestors dst) -> startswith (dst +:+ "/") p = false ->
  fs (shutil_copytree src dst w).1 !! p = fs w !! p.
Proof.
  intros Hanc Hbelow.
  destruct (fs w !! src) as [[c|]|] eqn:Hsrc.
  - unfold shutil_copytree. unfold_monad. simpl. rewrite Hsrc. reflexivity.
  - rewrite (shutil_copytree_directory src dst w Hsrc).
    destruct (makedirs_along None (ancestors dst) (fs w)) as [f0 [[]|e]] eqn:Hmk.
    + rewrite copy_fold_frame by exact Hbelow. cbn [fst].
      exact (makedirs_along_frame _ _ _ _ _ _ Hmk Hanc).
    + exact (makedirs_along_frame _ _ _ _ _ _ Hmk Hanc).
  - unfold shutil_copytree. unfold_monad. simpl. rewrite Hsrc. reflexivity.
Qed.

(** [merge_apks] in terms of the copy. *)
Lemma merge_apks_fs (base_folder split_folder : string) (w : World) :
  fs (merge_apks base_folder split_folder w).1
  = match fs w !! split_lib_path split_folder with
    | Some _ =>
        fs (shutil_copytree (split_lib_path split_folder) (base_lib_path base_folder)
              (mkWorld (fs w)
                 (console w ++ ["Merging " +:+ split_folder +:+ "/lib into "
                                  +:+ base_folder +:+ "/lib..."])
                 (procs w) (namespace_map w))).1
    | None => fs w
    end.
Proof.
  unfold merge_apks.
  fold (split_lib_path split_folder) (base_lib_path base_folder).
  unfold os_path_exists, bind at 1 2 3 4, get_fs, ret, print at 1.
  cbn [fs console procs namespace_map].
  destruct (fs w !! split_lib_path split_folder) as [n|]; [|reflexivity].
  unfold bind, print.
  destruct (shutil_copytree _ _ _) as [w1 [[]|e]]; reflexivity.
Qed.

(** [merge_apks] changes the destination only: an entry that is neither
    below [<base>/lib] nor on the way to it (so, in particular, the
    whole split tree) is as it was, whatever the outcome; no process is
    started. *)
Theorem merge_touches_only_destination (base_folder split_folder : string) (w : World) :
  (forall p,
     ~ In p (ancestors (base_lib_path base_folder)) ->
     startswith (base_lib_path base_folder +:+ "/") p = false ->
     fs (merge_apks base_folder split_folder w).1 !! p = fs w !! p)
  /\ procs (merge_apks base_folder split_folder w).1 = procs w.
Proof.
  split; [|apply silent_merge_apks].
  intros p Hanc Hbelow. rewrite merge_apks_fs.
  destruct (fs w !! split_lib_path split_folder); [|reflexivity].
  rewrite shutil_copytree_frame by assumption. reflexivity.
Qed.

Lemma copy_fold_lookup (f0 : gmap string node) (src dst rel : string) (B : content)
    (entries : list (string * node)) :
  rel <> EmptyString ->
  blocked f0 dst rel = false ->
  f0 !! (dst +:+ "/" +:+ rel) <> Some Dir ->
  NoDup entries.*1 ->
  (forall kv, kv ∈ entries -> inside src kv.1 = true) ->
  (src +:+ "/" +:+ rel, File B) ∈ entries ->
  (foldr (copy_entry f0 src dst) (f0, 0) entries).1 !! (dst +:+ "/" +:+ rel)
  = Some (File B).
Proof.
  intros Hrel Hfree Hnodir. induction entries as [|[k v] entries IH];
    intros Hnodup Hinside Hin; [inversion Hin|].
  cbn [foldr]. apply NoDup_cons in Hnodup as [Hk Hnodup].
  destruct (decide (k = src +:+ "/" +:+ rel)) as [->|Hne].
  - assert (v = File B) as ->.
    { apply elem_of_cons in Hin as [[= <-]|Hin]; [reflexivity|].
      destruct Hk. apply list_elem_of_fmap. exists (src +:+ "/" +:+ rel, File B). auto. }
    unfold copy_entry. cbn [fst snd]. rewrite (relative_below src rel Hrel), Hfree.
    destruct (f0 !! (dst +:+ "/" +:+ rel)) as [[c|]|]; try congruence;
      cbn [fst]; apply lookup_insert_eq.
  - apply elem_of_cons in Hin as [[= ? ?]|Hin]; [congruence|].
    rewrite copy_entry_other.
    2:{ cbn [fst]. intros H. apply (inj (String.app _)), (inj (String.app _)) in H.
        apply Hne. rewrite <- H. apply relative_inside.
        apply (Hinside (k, v)). left. }
    apply IH; [exact Hnodup | | exact Hin].
    intros kv Hkv. apply Hinside. right. exact Hkv.
Qed.

Lemma last_In {A : Type} (l : list A) (x : A) : last l = Some x -> In x l.
Proof.
  induction l as [|y l IH]; [discriminate|].
  destruct l as [|z l]; [intros [= <-]; left; reflexivity|].
  intros H. right. apply IH. exact H.
Qed.

(** Merging overwrites: when [<split>/lib] is a directory and
    [<base>/lib] exists with the directories on the way to it, a file of
    the split tree at a relative path below [lib] is afterwards at the
    same relative path below [<base>/lib], replacing a file that was
    there, provided no file stands where one of its parent directories
    has to be; this holds even if other entries fail to be copied. *)
Theorem merge_overwrites_destination (base_folder split_folder rel : string)
    (B : content) (w : World) :
  fs w !! split_lib_path split_folder = Some Dir ->
  Forall (fun p => fs w !! p = Some Dir) (ancestors (base_lib_path base_folder)) ->
  rel <> EmptyString ->
  fs w !! (split_lib_path split_folder +:+ "/" +:+ rel) = Some (File B) ->
  fs w !! (base_lib_path base_folder +:+ "/" +:+ rel) <> Some Dir ->
  blocked (fs w) (base_lib_path base_folder) rel = false ->
  fs (merge_apks base_folder split_folder w).1
    !! (base_lib_path base_folder +:+ "/" +:+ rel) = Some (File B).
Proof.
  intros Hsrc Hdst Hrel Hfile Hnodir Hfree.
  rewrite merge_apks_fs, Hsrc.
  rewrite shutil_copytree_directory by exact Hsrc. cbn [fs].
  rewrite List.Forall_forall in Hdst.
  rewrite makedirs_along_nothing_to_do.
  - apply copy_fold_lookup; try assumption.
    + apply NoDup_fst_map_to_list.
    + intros [k v] Hkv. apply elem_of_map_to_list, map_lookup_filter_Some in Hkv as [_ Hk].
      simpl in *. destruct (inside _ k); [reflexivity | destruct Hk].
    + apply elem_of_map_to_list, map_lookup_filter_Some. split; [exact Hfile|].
      simpl. rewrite (inside_below _ rel Hrel). exact I.
  - intros p Hp. rewrite (Hdst p Hp). eauto.
  - intros p Hp. apply Hdst, (last_In _ _ Hp).
Qed.

(** When [<split>/lib] exists but is a regular file, [merge_apks] fails
    with [NotADirectoryError] from the copy, before anything is changed
    and without reporting a merge. *)
Theorem merge_source_not_a_directory (base_folder split_folder : string)
    (c : content) (w : World) :
  fs w !! split_lib_path split_folder = Some (File c) ->
  exists w',
    merge_apks base_folder split_folder w
      = (w', Raise (NotADirectoryError
                      ("[Errno 20] Not a directory: "
                         +:+ quoted (split_lib_path split_folder))))
    /\ fs w' = fs w
    /\ console w' = console w ++ ["Merging " +:+ split_folder +:+ "/lib into "
                                    +:+ base_folder +:+ "/lib..."].
Proof.
  intros Hsrc. unfold merge_apks.
  fold (split_lib_path split_folder) (base_lib_path base_folder).
  unfold shutil_copytree. run_script. rewrite Hsrc. simpl. rewrite Hsrc.
  eexists. split; [reflexivity|]. auto.
Qed.

(** ** Setting up the tools *)

Lemma bind_ok {A B : Type} (m : M A) (k : A -> M B) (w w1 : World) (a : A) :
  m w = (w1, Ok a) -> bind m k w = k a w1.
Proof. intros H. unfold bind. rewrite H. reflexivity. Qed.

Lemma bind_raise {A B : Type} (m : M A) (k : A -> M B) (w w1 : World) (e : exn) :
  m w = (w1, Raise e) -> bind m k w = (w1, Raise e).
Proof. intros H. unfold bind. rewrite H. reflexivity. Qed.

Lemma run_command_ok (tools : Subprocess) (command : list string) (msg : string)
    (w : World) (f1 : gmap string node) (c : CompletedProcess) :
  tools command (fs w) = (f1, Ok c) -> returncode c = 0%Z ->
  exists w1,
    run_command tools command msg w = (w1, Ok tt)
    /\ fs w1 = f1 /\ procs w1 = procs w ++ [command].
Proof.
  intros Hrun Hcode. unfold run_command, subprocess_run. unfold_monad. simpl.
  rewrite Hrun. simpl. rewrite Hcode. simpl. eexists. split; [reflexivity|].
  split; reflexivity.
Qed.

Lemma all_succeed_cons (tools : Subprocess) (command : list string)
    (rest : list (list string)) (f f' : gmap string node) :
  all_succeed tools (command :: rest) f = Some f' ->
  exists f1 c,
    tools command f = (f1, Ok c) /\ returncode c = 0%Z
    /\ all_succeed tools rest f1 = Some f'.
Proof.
  cbn [all_succeed]. destruct (tools command f) as [f1 [c|e]]; [|discriminate].
  destruct (returncode c =? 0)%Z eqn:Hcode; [|discriminate].
  apply Z.eqb_eq in Hcode. eauto.
Qed.

(** One step of a stage: a command that succeeds, then the rest. *)
Ltac run_step tools H Hc w1 Hf Hp :=
  let Hstep := fresh "Hstep" in
  match goal with
  | |- context [bind (run_command tools ?c ?msg) ?k ?w] =>
      destruct (run_command_ok tools c msg w _ _ H Hc) as (w1 & Hstep & Hf & Hp);
      rewrite (bind_ok (run_command tools c msg) k w w1 tt Hstep);
      clear Hstep
  end.

Lemma makedirs_along_exn (ps : list string) (parent : option node)
    (f f' : gmap string node) (e : exn) :
  makedirs_along parent ps f = (f', Raise e) -> forall m, e <> RuntimeError m.
Proof.
  revert parent f. induction ps as [|p ps IH]; intros parent f; [discriminate|].
  cbn [makedirs_along]. destruct (f !! p) as [n|].
  - destruct ps as [|p' ps'].
    + destruct n; [|discriminate]. intros [= _ <-] m. discriminate.
    + apply IH.
  - destruct parent as [[c|]|]; try apply IH.
    intros [= _ <-] m. discriminate.
Qed.

Lemma os_rename_file (src dst : string) (c : content) (w : World) :
  fs w !! src = Some (File c) -> fs w !! dst <> Some Dir ->
  os_rename src dst w
  = (mkWorld (<[dst := File c]> (delete src (fs w))) (console w) (procs w)
             (namespace_map w), Ok tt).
Proof.
  intros Hsrc Hdst. unfold os_rename. unfold_monad. cbn [fst snd].
  rewrite Hsrc. destruct (fs w !! dst) as [[c'|]|]; try reflexivity. congruence.
Qed.

Lemma usr_local_bin_ancestors :
  ancestors "/usr/local/bin" = ["/usr"; "/usr/local"; "/usr/local/bin"].
Proof. reflexivity. Qed.

(** The first part of [setup_environment], up to the call of
    [os.makedirs]: when the four commands succeed, the stage goes on
    from the file system they left. *)
Lemma setup_environment_downloads (tools : Subprocess) (keystore_url : string)
    (w : World) (f4 : gmap string node) :
  all_succeed tools (take 4 (setup_commands keystore_url)) (fs w) = Some f4 ->
  exists w4,
    fs w4 = f4
    /\ procs w4 = procs w ++ take 4 (setup_commands keystore_url)
    /\ setup_environment tools keystore_url w
       = (os_makedirs "/usr/local/bin" ;;
          os_rename "apktool" "/usr/local/bin/apktool" ;;
          os_rename "apktool.jar" "/usr/local/bin/apktool.jar" ;;
          run_command tools ["sudo"; "chmod"; "+x"; "/usr/local/bin/apktool"]
            "Failed to set execute permissions on apktool script" ;;
          run_command tools
            ["wget"; "-q";
             "https://github.com/patrickfav/uber-apk-signer/releases/download/v1.3.0/uber-apk-signer-1.3.0.jar";
             "-O"; "uber-apk-signer.jar"]
            "Failed to download uber-apk-signer" ;;
          run_command tools ["wget"; "-q"; keystore_url; "-O"; "debug.keystore"]
            "Failed to download debug.keystore" ;;
          print "Environment setup complete!" ;;
          print dashes ;;
          ret "debug.keystore")%py w4.
Proof.
  unfold setup_commands. cbn [take firstn]. intros H.
  apply all_succeed_cons in H as (f1 & c1 & H1 & Hc1 & H).
  apply all_succeed_cons in H as (f2 & c2 & H2 & Hc2 & H).
  apply all_succeed_cons in H as (f3 & c3 & H3 & Hc3 & H).
  apply all_succeed_cons in H as (f4' & c4 & H4 & Hc4 & H).
  injection H as ->.
  unfold setup_environment.
  rewrite (bind_ok (print _) _ w _ tt eq_refl).
  run_step tools H1 Hc1 w1 Hf1 Hp1.
  rewrite <- Hf1 in H2. run_step tools H2 Hc2 w2 Hf2 Hp2.
  rewrite <- Hf2 in H3. run_step tools H3 Hc3 w3 Hf3 Hp3.
  rewrite <- Hf3 in H4. run_step tools H4 Hc4 w4 Hf4 Hp4.
  exists w4. split; [exact Hf4|]. split; [|reflexivity].
  rewrite Hp4, Hp3, Hp2, Hp1. cbn [procs]. rewrite <- !app_assoc. reflexivity.
Qed.

(** The script does not check that the downloads left anything: when
    the first four commands of [setup_environment] succeed but no entry
    [apktool] is in the working directory, the stage fails in the first
    [os.rename], an error that is not the [RuntimeError] of a command;
    [chmod] and the later downloads are not started.  With
    [/usr/local/bin] in place the error is [FileNotFoundError] and the
    file system is as the four commands left it. *)
Theorem setup_fails_without_apktool (tools : Subprocess) (keystore_url : string)
    (w : World) (f4 : gmap string node) :
  all_succeed tools (take 4 (setup_commands keystore_url)) (fs w) = Some f4 ->
  f4 !! "apktool" = None ->
  exists w' e,
    setup_environment tools keystore_url w = (w', Raise e)
    /\ procs w' = procs w ++ take 4 (setup_commands keystore_url)
    /\ (forall m, e <> RuntimeError m)
    /\ (Forall (fun p => f4 !! p = Some Dir) (ancestors "/usr/local/bin") ->
        e = FileNotFoundError ("[Errno 2] No such file or directory: "
                                 +:+ quoted "apktool" +:+ " -> "
                                 +:+ quoted "/usr/local/bin/apktool")
        /\ fs w' = f4).
Proof.
  intros Hall Hmissing.
  destruct (setup_environment_downloads tools keystore_url w f4 Hall)
    as (w4 & Hf4 & Hp4 & ->).
  unfold bind at 1. unfold os_makedirs at 1. rewrite Hf4.
  destruct (makedirs_along None (ancestors "/usr/local/bin") f4) as [fm [[]|e]] eqn:Hmk.
  - assert (fm !! "apktool" = None) as Hstill.
    { rewrite (makedirs_along_frame _ _ _ _ _ "apktool" Hmk); [exact Hmissing|].
      rewrite usr_local_bin_ancestors. simpl. intros [H|[H|[H|[]]]]; discriminate. }
    unfold bind at 1. unfold os_rename at 1. unfold_monad. cbn [fs].
    rewrite Hstill. cbn [fst snd].
    eexists _, _. split; [reflexivity|]. split; [exact Hp4|].
    split; [intros m; discriminate|].
    intros Hdirs. split; [reflexivity|]. cbn [fs].
    rewrite makedirs_along_nothing_to_do in Hmk.
    + injection Hmk as <-. reflexivity.
    + intros p Hp. rewrite List.Forall_forall in Hdirs. rewrite (Hdirs p Hp). eauto.
    + intros p Hp. rewrite List.Forall_forall in Hdirs. apply Hdirs.
      rewrite usr_local_bin_ancestors in *. injection Hp as <-. simpl. auto.
  - eexists _, _. split; [reflexivity|]. split; [exact Hp4|].
    split; [exact (makedirs_along_exn _ _ _ _ _ Hmk)|].
    intros Hdirs. exfalso.
    rewrite makedirs_along_nothing_to_do in Hmk; [discriminate| |].
    + intros p Hp. rewrite List.Forall_forall in Hdirs. rewrite (Hdirs p Hp). eauto.
    + intros p Hp. rewrite List.Forall_forall in Hdirs. apply Hdirs.
      rewrite usr_local_bin_ancestors in *. injection Hp as <-. simpl. auto.
Qed.

(** [setup_environment] as a whole: when the first four commands
    succeed and leave regular files [apktool] and [apktool.jar], and
    [/usr/local/bin] is a directory holding no directory of these
    names, the two files are moved there before [chmod] runs; when
    [chmod] and the two later downloads succeed on the file system with
    the files moved, the stage returns [debug.keystore], having started
    its seven commands in order, and leaves the file system as the last
    download left it. *)
Theorem setup_installs_apktool (tools : Subprocess) (keystore_url : string)
    (w : World) (f4 f7 : gmap string node) (script jar : content) :
  all_succeed tools (take 4 (setup_commands keystore_url)) (fs w) = Some f4 ->
  f4 !! "apktool" = Some (File script) ->
  f4 !! "apktool.jar" = Some (File jar) ->
  Forall (fun p => f4 !! p = Some Dir) (ancestors "/usr/local/bin") ->
  f4 !! "/usr/local/bin/apktool" <> Some Dir ->
  f4 !! "/usr/local/bin/apktool.jar" <> Some Dir ->
  all_succeed tools (drop 4 (setup_commands keystore_url))
              (apktool_installed script jar f4) = Some f7 ->
  exists w',
    setup_environment tools keystore_url w = (w', Ok "debug.keystore")
    /\ fs w' = f7
    /\ procs w' = procs w ++ setup_commands keystore_url.
Proof.
  intros Hall Hscript Hjar Hdirs Hfree1 Hfree2 Hrest.
  destruct (setup_environment_downloads tools keystore_url w f4 Hall)
    as (w4 & Hf4 & Hp4 & ->).
  unfold bind at 1. unfold os_makedirs at 1. rewrite Hf4.
  rewrite makedirs_along_nothing_to_do; cycle 1.
  { intros p Hp. rewrite List.Forall_forall in Hdirs. rewrite (Hdirs p Hp). eauto. }
  { intros p Hp. rewrite List.Forall_forall in Hdirs. apply Hdirs.
    rewrite usr_local_bin_ancestors in *. injection Hp as <-. simpl. auto. }
  cbn beta iota.
  match goal with
  | |- context [bind (os_rename ?src ?dst) ?k ?w0] =>
      rewrite (bind_ok (os_rename src dst) k w0 _ tt
                 (os_rename_file src dst script w0 Hscript Hfree1))
  end.
  match goal with
  | |- context [bind (os_rename ?src ?dst) ?k ?w0] =>
      rewrite (bind_ok (os_rename src dst) k w0 _ tt
                 (os_rename_file src dst jar w0
                    ltac:(cbn [fs]; rewrite lookup_insert_ne by discriminate;
                          rewrite lookup_delete_ne by discriminate; exact Hjar)
                    ltac:(cbn [fs]; rewrite lookup_insert_ne by discriminate;
                          rewrite lookup_delete_ne by discriminate; exact Hfree2)))
  end.
  cbn [fs console procs namespace_map].
  fold (apktool_installed script jar f4).
  unfold setup_commands in Hrest. cbn [drop skipn] in Hrest.
  apply all_succeed_cons in Hrest as (f5 & c5 & H5 & Hc5 & Hrest).
  apply all_succeed_cons in Hrest as (f6 & c6 & H6 & Hc6 & Hrest).
  apply all_succeed_cons in Hrest as (f7' & c7 & H7 & Hc7 & Hrest).
  injection Hrest as ->.
  run_step tools H5 Hc5 w5 Hf5 Hp5.
  rewrite <- Hf5 in H6. run_step tools H6 Hc6 w6 Hf6 Hp6.
  rewrite <- Hf6 in H7. run_step tools H7 Hc7 w7 Hf7 Hp7.
  unfold_monad. cbn [fst snd fs procs].
  eexists. split; [reflexivity|]. cbn [fs procs]. split; [exact Hf7|].
  rewrite Hp7, Hp6, Hp5. cbn [procs]. rewrite Hp4.
  unfold setup_commands. cbn [take firstn]. rewrite <- !app_assoc. reflexivity.
Qed.

(** * The statements on examples *)

(** Merging overwrites: the split tree's file replaces the base tree's
    file at the same relative path, and the other files stay. *)
Example merge_overwrites :
  let w' := (merge_apks "base" "split" (initial_world overlapping_trees)).1 in
  fs w' !! "base/lib/arm64-v8a/x.so" = Some (File (Blob "B"))
  /\ fs w' !! "base/lib/arm64-v8a/y.so" = Some (File (Blob "Y"))
  /\ fs w' !! "split/lib/arm64-v8a/x.so" = Some (File (Blob "B")).
Proof. vm_compute. auto. Qed.

(** On a manifest with names in the platform namespace the second run
    finds the provider and skips. *)
Example second_run_on_usual_manifest_skips :
  let w1 := (add_provider_to_manifest "base" (initial_world (tree_with usual_manifest))).1 in
  (add_provider_to_manifest "base" w1).2 = Ok tt
  /\ fs (add_provider_to_manifest "base" w1).1 = fs w1
  /\ fs w1 !! "base/AndroidManifest.xml"
       = Some (File (XmlDoc xml_declaration usual_manifest_patched))
  /\ console (add_provider_to_manifest "base" w1).1
       = console w1 ++ [ "Modifying AndroidManifest.xml...";
                         "FileProvider already exists in manifest. Skipping.";
                         dashes ].
Proof. vm_compute. auto. Qed.

Lemma sample_tools_download (url path : string) :
  downloads sample_tools url path (Blob ("data from " +:+ url)).
Proof.
  intros f. exists EmptyString, EmptyString. eexists.
  split; [reflexivity|]. split.
  - apply lookup_insert_eq.
  - intros p Hp. apply lookup_insert_ne. congruence.
Qed.

Lemma sample_tools_writes_only (url path : string) :
  writes_only sample_tools url path.
Proof.
  intros f p Hp. simpl. apply lookup_insert_ne. congruence.
Qed.

Lemma merge_without_source_witness :
  exists w',
    merge_apks "base" "split" (initial_world (tree_with minimal_manifest)) = (w', Ok tt)
    /\ fs w' = tree_with minimal_manifest.
Proof.
  destruct (merge_without_source_changes_nothing "base" "split"
              (initial_world (tree_with minimal_manifest)))
    as (w' & Hrun & Hfs & _).
  - vm_compute. reflexivity.
  - exists w'. split; [exact Hrun | exact Hfs].
Defined.

Lemma finalize_witness :
  exists w',
    finalize_apk "." final_apk_name (initial_world signed_tree) = (w', Ok tt)
    /\ fs w' !! "./umamusume.apk" = Some (File (Blob "signed package"))
    /\ fs w' !! "./umamusume_patched-aligned-signed.apk" = None.
Proof.
  destruct (proj2 (proj2 (finalize_diagnoses_missing_artifact "." (initial_world signed_tree)))
              (Blob "signed package"))
    as (w' & Hrun & Hfs).
  - vm_compute. reflexivity.
  - vm_compute. discriminate.
  - exists w'. split; [exact Hrun|]. rewrite Hfs. split; vm_compute; reflexivity.
Defined.

Lemma keystore_check_witness :
  exists w' e,
    recompile_and_sign sample_tools "base" "." "debug.keystore" (initial_world ∅)
      = (w', Raise e)
    /\ procs w' = [recompile_command "base" "."].
Proof.
  destruct (keystore_checked_after_recompile_before_sign sample_tools "base" "."
              "debug.keystore" (initial_world ∅))
    as (w' & e & Hrun & Hprocs & _).
  - vm_compute. reflexivity.
  - exists w', e. split; [exact Hrun | exact Hprocs].
Defined.

Lemma substitution_preserves_original_witness :
  exists w',
    modify_files sample_tools "lib-url" "base" (initial_world shipped_tree) = (w', Ok tt)
    /\ fs w' !! backup_path "base" = Some (File (Blob "original library"))
    /\ fs w' !! primary_path "base" = Some (File (Blob "data from lib-url")).
Proof.
  apply (substitution_preserves_original sample_tools "lib-url" "base"
           (Blob "original library") (Blob "data from lib-url")
           (initial_world shipped_tree)).
  - vm_compute. reflexivity.
  - vm_compute. reflexivity.
  - apply sample_tools_download.
Defined.

Lemma substitution_without_original_witness :
  exists w',
    modify_files sample_tools "lib-url" "base" (initial_world (tree_with minimal_manifest))
      = (w', Ok tt)
    /\ fs w' !! backup_path "base" = None
    /\ fs w' !! primary_path "base" = Some (File (Blob "data from lib-url")).
Proof.
  destruct (substitution_without_original sample_tools "lib-url" "base"
              (Blob "data from lib-url") (initial_world (tree_with minimal_manifest)))
    as (w' & Hrun & Hbackup & _ & _ & Hprimary).
  - vm_compute. reflexivity.
  - apply sample_tools_download.
  - exists w'. split; [exact Hrun|]. split; [|exact Hprimary].
    rewrite Hbackup. vm_compute. reflexivity.
Defined.

Lemma substitution_backup_policy_witness :
  fs substituted_once !! backup_path "base" = Some (File (Blob "original library")).
Proof.
  apply (proj2 (proj2 (substitution_backup_policy sample_tools "lib-url" "base"
                         (initial_world shipped_tree)
                         (sample_tools_writes_only _ _)))
           (Blob "original library")).
  - vm_compute. reflexivity.
  - vm_compute. discriminate.
Defined.

(** C4, as stated, fails when the tree is patched again: the backup made
    by the first run holds the original library, the second run returns
    normally, and afterwards the backup holds the replacement of the
    first run; the original is gone. *)
Lemma rerun_overwrites_backup :
  fs substituted_once !! backup_path "base" = Some (File (Blob "original library"))
  /\ (modify_files sample_tools "lib-url" "base" substituted_once).2 = Ok tt
  /\ fs substituted_twice !! backup_path "base" = Some (File (Blob "data from lib-url"))
  /\ fs substituted_twice !! backup_path "base"
       <> fs substituted_once !! backup_path "base".
Proof.
  repeat split; try (vm_compute; reflexivity).
  vm_compute. discriminate.
Qed.

Lemma declared_provider_witness :
  exists w',
    add_provider_to_manifest "base" (initial_world (tree_with usual_manifest_patched))
      = (w', Ok tt)
    /\ fs w' = tree_with usual_manifest_patched.
Proof.
  edestruct (declared_provider_means_no_write "base"
               (initial_world (tree_with usual_manifest_patched))
               EmptyString usual_manifest_patched)
    as (w' & Hrun & Hfs & _).
  - vm_compute. reflexivity.
  - vm_compute. reflexivity.
  - vm_compute. reflexivity.
  - left. reflexivity.
  - reflexivity.
  - vm_compute. reflexivity.
  - exists w'. split; [exact Hrun | exact Hfs].
Defined.

Lemma missing_application_witness :
  exists w',
    main sample_tools sample_args (initial_world (tree_with manifest_without_application))
      = (w', 1%Z).
Proof.
  edestruct (missing_application_stops_pipeline sample_tools sample_args
               (initial_world (tree_with manifest_without_application))
               (stages_before_manifest sample_tools sample_args
                  (initial_world (tree_with manifest_without_application))).1
               "debug.keystore" "base" EmptyString manifest_without_application)
    as (_ & w' & Hmain & _).
  - vm_compute. reflexivity.
  - vm_compute. reflexivity.
  - vm_compute. reflexivity.
  - vm_compute. reflexivity.
  - exists w'. exact Hmain.
Defined.

Lemma minimal_manifest_witness :
  exists w',
    add_provider_to_manifest "base" (initial_world (tree_with minimal_manifest))
      = (w', Ok tt).
Proof.
  destruct (minimal_manifest_gets_one_provider "base"
              (initial_world (tree_with minimal_manifest))
              EmptyString EmptyString EmptyString)
    as (w' & _ & _ & _ & _ & Hrun & _).
  - vm_compute. reflexivity.
  - exists w'. exact Hrun.
Defined.

Lemma second_run_witness :
  exists w1 w2,
    add_provider_to_manifest "base" (initial_world (tree_with minimal_manifest))
      = (w1, Ok tt)
    /\ add_provider_to_manifest "base" w1 = (w2, Raise (ParseError "unbound prefix")).
Proof.
  destruct (second_run_on_minimal_manifest_fails "base"
              (initial_world (tree_with minimal_manifest))
              EmptyString EmptyString EmptyString)
    as (w1 & w2 & Hfirst & Hsecond & _).
  - vm_compute. reflexivity.
  - exists w1, w2. split; [exact Hfirst | exact Hsecond].
Defined.

(** * The further properties on examples *)


Lemma provider_inserted_witness :
  exists t written written_application,
    fs (add_provider_to_manifest "base" (initial_world (tree_with usual_manifest))).1
      !! manifest_path "base" = Some (File (XmlDoc xml_declaration written))
    /\ find written "application" = Some written_application
    /\ children written_application
         = map (serialize_xml t) [] ++ [provider_element].
Proof.
  edestruct (provider_inserted_in_any_manifest "base"
               (initial_world (tree_with usual_manifest))
               (add_provider_to_manifest "base" (initial_world (tree_with usual_manifest))).1
               EmptyString usual_manifest)
    as (t & written & app & Hfile & Hfind & Hkids & _).
  - vm_compute. reflexivity.
  - vm_compute. reflexivity.
  - vm_compute. reflexivity.
  - vm_compute. reflexivity.
  - vm_compute. reflexivity.
  - vm_compute. reflexivity.
  - exists t, written, app. split; [exact Hfile|]. split; [exact Hfind | exact Hkids].
Defined.

Lemma second_run_writes_nothing_witness :
  fs (add_provider_to_manifest "base"
        (add_provider_to_manifest "base" (initial_world (tree_with minimal_manifest))).1).1
  = fs (add_provider_to_manifest "base" (initial_world (tree_with minimal_manifest))).1.
Proof.
  apply (second_run_writes_nothing "base" (initial_world (tree_with minimal_manifest))).
  vm_compute. reflexivity.
Defined.

Lemma failing_tools_writes_only (url path : string) : writes_only failing_tools url path.
Proof. intros f p _. reflexivity. Qed.

Lemma failing_tools_download_fails (url path : string) :
  download_fails failing_tools url path.
Proof. intros f. eexists. split; [reflexivity|]. discriminate. Qed.

Lemma failed_download_witness :
  exists w' c,
    modify_files failing_tools "lib-url" "base" (initial_world shipped_tree)
      = (w', Raise (RuntimeError ("Failed to download modded libmain.so: " +:+ stderr c)))
    /\ fs w' !! backup_path "base" = Some (File (Blob "original library")).
Proof.
  destruct (failed_download_keeps_original failing_tools "lib-url" "base"
              (Blob "original library") (initial_world shipped_tree))
    as (w' & c & Hrun & Hbackup & _).
  - vm_compute. reflexivity.
  - vm_compute. discriminate.
  - apply failing_tools_writes_only.
  - apply failing_tools_download_fails.
  - exists w', c. split; [exact Hrun | exact Hbackup].
Defined.

Lemma recompile_and_sign_witness :
  exists w',
    recompile_and_sign sample_tools "base" "." "debug.keystore"
      (initial_world keystore_tree) = (w', Ok tt)
    /\ procs w' = [recompile_command "base" "."; sign_command "." "debug.keystore"].
Proof.
  edestruct (proj2 (recompile_and_sign_outcomes sample_tools "base" "." "debug.keystore"
                      (initial_world keystore_tree) keystore_tree
                      (mkCompleted 0 EmptyString EmptyString) eq_refl)
               keystore_tree (mkCompleted 0 EmptyString EmptyString))
    as (w' & Hrun & Hprocs & _).
  - reflexivity.
  - vm_compute. discriminate.
  - reflexivity.
  - exists w'. split; [exact Hrun | exact Hprocs].
Defined.

Lemma create_provider_paths_witness :
  fs (create_provider_paths "base" (initial_world (tree_with minimal_manifest))).1
    !! provider_paths_path "base" = Some (File provider_paths_content).
Proof.
  refine (proj1 (create_provider_paths_result "base"
                   (initial_world (tree_with minimal_manifest))
                   (create_provider_paths "base"
                      (initial_world (tree_with minimal_manifest))).1 _)).
  vm_compute. reflexivity.
Defined.

Lemma create_provider_paths_twice_witness :
  exists w2,
    create_provider_paths "base"
      (create_provider_paths "base" (initial_world (tree_with minimal_manifest))).1
      = (w2, Ok tt)
    /\ fs w2
       = fs (create_provider_paths "base" (initial_world (tree_with minimal_manifest))).1.
Proof.
  apply (create_provider_paths_twice "base" (initial_world (tree_with minimal_manifest))).
  vm_compute. reflexivity.
Defined.

Lemma merge_overwrites_witness :
  fs (merge_apks "base" "split" (initial_world overlapping_trees)).1
    !! (base_lib_path "base" +:+ "/" +:+ "arm64-v8a/x.so") = Some (File (Blob "B")).
Proof.
  apply (merge_overwrites_destination "base" "split" "arm64-v8a/x.so" (Blob "B")
           (initial_world overlapping_trees)).
  - vm_compute. reflexivity.
  - repeat constructor.
  - discriminate.
  - vm_compute. reflexivity.
  - vm_compute. discriminate.
  - vm_compute. reflexivity.
Defined.

Lemma merge_source_not_a_directory_witness :
  exists w' m,
    merge_apks "base" "split" (initial_world odd_split_tree)
      = (w', Raise (NotADirectoryError m))
    /\ fs w' = odd_split_tree.
Proof.
  destruct (merge_source_not_a_directory "base" "split" (Blob "not a directory")
              (initial_world odd_split_tree))
    as (w' & Hrun & Hfs & _).
  - vm_compute. reflexivity.
  - exists w'. eexists. split; [exact Hrun | exact Hfs].
Defined.

Lemma setup_fails_without_apktool_witness :
  exists w' e,
    setup_environment idle_tools "keystore-url" (initial_world ∅) = (w', Raise e)
    /\ procs w' = take 4 (setup_commands "keystore-url")
    /\ forall m, e <> RuntimeError m.
Proof.
  destruct (setup_fails_without_apktool idle_tools "keystore-url" (initial_world ∅) ∅)
    as (w' & e & Hrun & Hprocs & Hkind & _).
  - reflexivity.
  - reflexivity.
  - exists w', e. split; [exact Hrun|]. split; [exact Hprocs | exact Hkind].
Defined.

Lemma setup_installs_apktool_witness :
  exists w',
    setup_environment sample_tools "keystore-url" (initial_world usr_local_bin_tree)
      = (w', Ok "debug.keystore")
    /\ procs w' = setup_commands "keystore-url".
Proof.
  edestruct (setup_installs_apktool sample_tools "keystore-url"
               (initial_world usr_local_bin_tree))
    as (w' & Hrun & _ & Hprocs).
  - vm_compute. reflexivity.
  - vm_compute. reflexivity.
  - vm_compute. reflexivity.
  - rewrite usr_local_bin_ancestors. repeat constructor; vm_compute; reflexivity.
  - vm_compute. discriminate.
  - vm_compute. discriminate.
  - vm_compute. reflexivity.
  - exists w'. split; [exact Hrun | exact Hprocs].
Defined.
